(** * Control-transfer engine of endpoint 0 (qusb_control.c): a shallow
      embedding and its verification.

    Integers of the C code are [Z] with the wrap-around of their width
    written out ([u16]).  Pointers are addresses in [Z], [NULL] being 0.
    The engine's calls into the USB peripheral and into callbacks are
    recorded, in order, in a list of [call]s that every operation returns
    next to the new device state. *)

From Stdlib Require Import ZArith Lia List Bool.
From stdpp Require Import base list.
Import ListNotations.
Local Open Scope Z_scope.

(* ================================================================== *)
(** ** Data model                                                      *)
(* ================================================================== *)

(** [uint16_t] conversion. *)
Definition u16 (z : Z) : Z := z mod 65536.

Definition NULL : Z := 0.

(** Modelled from the spec: the state enumeration is declared in
    qusb_private.h, which is not part of the sources; the spec lists
    exactly these seven states. *)
Inductive control_state_enum : Type :=
  | IDLE
  | DATA_IN
  | LAST_DATA_IN
  | STATUS_IN
  | DATA_OUT
  | LAST_DATA_OUT
  | STATUS_OUT.

Definition state_eqb (a b : control_state_enum) : bool :=
  match a, b with
  | IDLE, IDLE | DATA_IN, DATA_IN | LAST_DATA_IN, LAST_DATA_IN
  | STATUS_IN, STATUS_IN | DATA_OUT, DATA_OUT
  | LAST_DATA_OUT, LAST_DATA_OUT | STATUS_OUT, STATUS_OUT => true
  | _, _ => false
  end.

(** The 8-byte setup packet. *)
Record qusb_setup_data : Type := {
  bmRequestType : Z;   (* uint8_t  *)
  bRequest      : Z;   (* uint8_t  *)
  wValue        : Z;   (* uint16_t *)
  wIndex        : Z;   (* uint16_t *)
  wLength       : Z    (* uint16_t *)
}.

(** A completion callback is a function pointer; the engine only stores
    it, compares it with NULL and calls it, so it is represented by an
    identifier and [None] stands for NULL. *)
Definition qusb_dev_control_completion_callback_fn : Type := nat.

(** The three slots a request handler receives by reference:
    [&ctrl_buf], [&ctrl_len] and [&completion]. *)
Record cb_slots : Type := {
  slot_buf        : Z;
  slot_len        : Z;
  slot_completion : option qusb_dev_control_completion_callback_fn
}.

(** A user request handler: from the request and the current contents of
    the three slots to its return code and the new contents of the slots. *)
Definition qusb_dev_control_callback_fn : Type :=
  qusb_setup_data -> cb_slots -> Z * cb_slots.

(** The standard-request handler receives [&ctrl_buf] and [&ctrl_len]
    only. *)
Definition standard_request_fn : Type :=
  qusb_setup_data -> Z -> Z -> Z * (Z * Z).

(** One entry of [dev->user_control_callback]; [cb = None] is a NULL
    function pointer, i.e. a free slot. *)
Record user_control_callback_entry : Type := {
  type      : Z;
  type_mask : Z;
  cb        : option qusb_dev_control_callback_fn
}.

(** Modelled from the spec: the declarations of the control state and of
    the device are in qusb_private.h, which is not part of the sources.
    The fields are those the code uses, under the names it uses;
    [ctrl_len] and [ctrl_buf_len] are taken to be [uint16_t] like
    [wLength], with which they are compared and from which [ctrl_len] is
    assigned. *)
Record qusb_control_state : Type := {
  state      : control_state_enum;
  req        : qusb_setup_data;
  ctrl_buf   : Z;
  ctrl_len   : Z;      (* uint16_t *)
  completion : option qusb_dev_control_completion_callback_fn
}.

Record qusb_device : Type := {
  bMaxPacketSize0       : Z;     (* dev->desc->bMaxPacketSize0, uint8_t *)
  dev_ctrl_buf          : Z;     (* dev->ctrl_buf *)
  ctrl_buf_len          : Z;     (* dev->ctrl_buf_len, uint16_t *)
  user_control_callback : list user_control_callback_entry;
  control_state         : qusb_control_state
}.

(** Modelled from the spec: the return codes are declared in
    qusb_private.h, which is not part of the sources.  The engine tests
    the dispatch result as a C truth value; the spec makes *handled* the
    success and *not-supported* the failure, so the latter is 0. *)
Definition QUSB_REQ_NOTSUPP : Z := 0.
Definition QUSB_REQ_HANDLED : Z := 1.
Definition QUSB_REQ_NEXT_CALLBACK : Z := 2.

(** Modelled from the spec: request-type constants of qusb_private.h
    (the standard setup-packet layout of USB: bit 7 of bmRequestType is
    the direction, request code 5 is SET_ADDRESS). *)
Definition QUSB_REQ_TYPE_DIRECTION_MASK : Z := 128.
Definition QUSB_REQ_TYPE_IN : Z := 128.
Definition QUSB_REQ_SET_ADDRESS : Z := 5.

(** Modelled from the spec: [min_u16] of qusb_private.h, the minimum of
    two [uint16_t] arguments. *)
Definition min_u16 (a b : Z) : Z := Z.min (u16 a) (u16 b).

(** Where [qusb_dev_ep_read_packet] is asked to store the packet. *)
Inductive read_target : Type :=
  | ToSetupData            (* (uint8_t* )req *)
  | ToBuffer (p : Z).

(** Calls made by the engine, in the order they are made. *)
Inductive call : Type :=
  | EpStallSet (ep : Z) (stall : Z)
  | EpWritePacket (ep : Z) (buf : Z) (len : Z)
  | EpReadPacket (ep : Z) (buf : read_target) (len : Z)
  | SetAddress (addr : Z)
  | UserCallback (i : nat)
  | StandardRequest
  | Completion (f : qusb_dev_control_completion_callback_fn)
               (r : qusb_setup_data).

(* ================================================================== *)
(** ** Field updates                                                   *)
(* ================================================================== *)

Definition with_control_state (f : qusb_control_state -> qusb_control_state)
    (dev : qusb_device) : qusb_device :=
  {| bMaxPacketSize0 := bMaxPacketSize0 dev;
     dev_ctrl_buf := dev_ctrl_buf dev;
     ctrl_buf_len := ctrl_buf_len dev;
     user_control_callback := user_control_callback dev;
     control_state := f (control_state dev) |}.

Definition with_user_control_callback (t : list user_control_callback_entry)
    (dev : qusb_device) : qusb_device :=
  {| bMaxPacketSize0 := bMaxPacketSize0 dev;
     dev_ctrl_buf := dev_ctrl_buf dev;
     ctrl_buf_len := ctrl_buf_len dev;
     user_control_callback := t;
     control_state := control_state dev |}.

Definition cs_set_state (s : control_state_enum) (c : qusb_control_state) :=
  {| state := s; req := req c; ctrl_buf := ctrl_buf c;
     ctrl_len := ctrl_len c; completion := completion c |}.

Definition cs_set_req (r : qusb_setup_data) (c : qusb_control_state) :=
  {| state := state c; req := r; ctrl_buf := ctrl_buf c;
     ctrl_len := ctrl_len c; completion := completion c |}.

Definition cs_set_ctrl_buf (b : Z) (c : qusb_control_state) :=
  {| state := state c; req := req c; ctrl_buf := b;
     ctrl_len := ctrl_len c; completion := completion c |}.

Definition cs_set_ctrl_len (n : Z) (c : qusb_control_state) :=
  {| state := state c; req := req c; ctrl_buf := ctrl_buf c;
     ctrl_len := n; completion := completion c |}.

Definition cs_set_completion
    (f : option qusb_dev_control_completion_callback_fn)
    (c : qusb_control_state) :=
  {| state := state c; req := req c; ctrl_buf := ctrl_buf c;
     ctrl_len := ctrl_len c; completion := f |}.

Definition req_set_wLength (n : Z) (r : qusb_setup_data) :=
  {| bmRequestType := bmRequestType r; bRequest := bRequest r;
     wValue := wValue r; wIndex := wIndex r; wLength := n |}.

(* ================================================================== *)
(** ** The monad of the engine: device state plus the calls made       *)
(* ================================================================== *)

Definition M (A : Type) : Type := qusb_device -> A * qusb_device * list call.

Definition ret {A} (a : A) : M A := fun dev => (a, dev, []).

Definition bind {A B} (m : M A) (k : A -> M B) : M B := fun dev =>
  let '(a, dev1, t1) := m dev in
  let '(b, dev2, t2) := k a dev1 in
  (b, dev2, t1 ++ t2).

Definition get : M qusb_device := fun dev => (dev, dev, []).
Definition modify (f : qusb_device -> qusb_device) : M unit :=
  fun dev => (tt, f dev, []).
Definition emit (c : call) : M unit := fun dev => (tt, dev, [c]).

Declare Scope engine_scope.
Delimit Scope engine_scope with engine.
Notation "x <- m ;; k" := (bind m (fun x => k))
  (at level 100, m at next level, right associativity) : engine_scope.
Notation "m ;; k" := (bind m (fun _ => k))
  (at level 100, right associativity) : engine_scope.
Local Open Scope engine_scope.

Definition result_of {A} (r : A * qusb_device * list call) : A := fst (fst r).
Definition device_of {A} (r : A * qusb_device * list call) : qusb_device :=
  snd (fst r).
Definition calls_of {A} (r : A * qusb_device * list call) : list call := snd r.

Definition set_state (s : control_state_enum) : M unit :=
  modify (with_control_state (cs_set_state s)).
Definition set_req (r : qusb_setup_data) : M unit :=
  modify (with_control_state (cs_set_req r)).
Definition set_ctrl_buf (b : Z) : M unit :=
  modify (with_control_state (cs_set_ctrl_buf b)).
Definition set_ctrl_len (n : Z) : M unit :=
  modify (with_control_state (cs_set_ctrl_len n)).
Definition set_completion
    (f : option qusb_dev_control_completion_callback_fn) : M unit :=
  modify (with_control_state (cs_set_completion f)).

(** The peripheral's primitives.  Their results are not computed by the
    engine: [qusb_dev_ep_read_packet] takes the length the hardware
    reports as its last argument. *)
Definition qusb_dev_ep_stall_set (ep stall : Z) : M unit :=
  emit (EpStallSet ep stall).
Definition qusb_dev_ep_write_packet (ep buf len : Z) : M unit :=
  emit (EpWritePacket ep buf len).
Definition qusb_dev_ep_read_packet (ep : Z) (buf : read_target) (len : Z)
    (rx : Z) : M Z :=
  emit (EpReadPacket ep buf len) ;; ret rx.
Definition _qusb_dev_set_address (addr : Z) : M unit :=
  emit (SetAddress addr).

(* ================================================================== *)
(** ** The engine (qusb_control.c)                                     *)
(* ================================================================== *)

Section Engine.

(** The capacity of the callback table, a macro of qusb_private.h. *)
Variable MAX_USER_CONTROL_CALLBACK : nat.

(** The standard-request handler, an external collaborator
    (qusb_standard.c is not part of the sources). *)
Variable _qusb_standard_request : standard_request_fn.

(** The loop of [qusb_dev_register_control_callback], from index [i] with
    [fuel = MAX_USER_CONTROL_CALLBACK - i] iterations left.  An index
    outside the list cannot occur when the table has its declared length;
    the loop then ends like an exhausted one. *)
Fixpoint register_loop (fuel : nat) (i : nat) (type0 type_mask0 : Z)
    (callback : option qusb_dev_control_callback_fn)
    (t : list user_control_callback_entry)
    : Z * list user_control_callback_entry :=
  match fuel with
  | O => (-1, t)
  | S fuel' =>
      match t !! i with
      | None => (-1, t)
      | Some e =>
          match cb e with
          | Some _ => register_loop fuel' (S i) type0 type_mask0 callback t
          | None =>
              (0, <[i := {| type := type0; type_mask := type_mask0;
                            cb := callback |}]> t)
          end
      end
  end.

Definition qusb_dev_register_control_callback (type0 type_mask0 : Z)
    (callback : option qusb_dev_control_callback_fn) : M Z :=
  dev <- get ;;
  let r := register_loop MAX_USER_CONTROL_CALLBACK 0 type0 type_mask0
             callback (user_control_callback dev) in
  modify (with_user_control_callback (snd r)) ;;
  ret (fst r).

Definition stall : M unit :=
  qusb_dev_ep_stall_set 0 1 ;;
  set_state IDLE.

Definition send_data_in : M unit :=
  dev <- get ;;
  let cs := control_state dev in
  let max_packet_size := bMaxPacketSize0 dev in
  if max_packet_size <? ctrl_len cs then
    (* Partial chunk *)
    qusb_dev_ep_write_packet 0 (ctrl_buf cs) max_packet_size ;;
    set_state DATA_IN ;;
    set_ctrl_buf (ctrl_buf cs + max_packet_size) ;;
    set_ctrl_len (u16 (ctrl_len cs - max_packet_size)) ;;
    set_req (req_set_wLength (u16 (wLength (req cs) - max_packet_size))
                             (req cs))
  else
    (* Last data chunk and zero-length packet *)
    qusb_dev_ep_write_packet 0 (ctrl_buf cs) (ctrl_len cs) ;;
    (if (ctrl_len cs =? max_packet_size)
        && (ctrl_len cs <? wLength (req cs))
     then set_state DATA_IN
     else set_state LAST_DATA_IN) ;;
    set_ctrl_len 0 ;;
    set_ctrl_buf NULL.

(** [rx] is the length reported by the peripheral for this packet. *)
Definition read_data_out (rx : Z) : M Z :=
  dev <- get ;;
  let cs := control_state dev in
  let packetsize :=
    min_u16 (bMaxPacketSize0 dev) (wLength (req cs) - ctrl_len cs) in
  r <- qusb_dev_ep_read_packet 0 (ToBuffer (ctrl_buf cs + ctrl_len cs))
         packetsize rx ;;
  let size := u16 r in
  if negb (size =? packetsize) then
    stall ;;
    ret (-1)
  else
    set_ctrl_len (u16 (ctrl_len cs + size)) ;;
    ret packetsize.

(** Calling the handler of table entry [i] with the three slots. *)
Definition call_user_callback (i : nat) (f : qusb_dev_control_callback_fn)
    (rq : qusb_setup_data) : M Z :=
  dev <- get ;;
  let cs := control_state dev in
  let r := f rq {| slot_buf := ctrl_buf cs; slot_len := ctrl_len cs;
                   slot_completion := completion cs |} in
  emit (UserCallback i) ;;
  set_ctrl_buf (slot_buf (snd r)) ;;
  set_ctrl_len (slot_len (snd r)) ;;
  set_completion (slot_completion (snd r)) ;;
  ret (fst r).

Definition call_standard_request (rq : qusb_setup_data) : M Z :=
  dev <- get ;;
  let cs := control_state dev in
  let r := _qusb_standard_request rq (ctrl_buf cs) (ctrl_len cs) in
  emit StandardRequest ;;
  set_ctrl_buf (fst (snd r)) ;;
  set_ctrl_len (snd (snd r)) ;;
  ret (fst r).

(** The loop of [dispatch_request] from index [i]; [Some result] is the
    [return result] inside the loop, [None] is leaving the loop. *)
Fixpoint dispatch_loop (fuel : nat) (i : nat) (rq : qusb_setup_data)
    : M (option Z) :=
  match fuel with
  | O => ret None
  | S fuel' =>
      dev <- get ;;
      match user_control_callback dev !! i with
      | None => ret None
      | Some e =>
          match cb e with
          | None => ret None                               (* break *)
          | Some f =>
              if Z.land (bmRequestType rq) (type_mask e) =? type e then
                result <- call_user_callback i f rq ;;
                if (result =? QUSB_REQ_HANDLED)
                   || (result =? QUSB_REQ_NOTSUPP)
                then ret (Some result)
                else dispatch_loop fuel' (S i) rq
              else dispatch_loop fuel' (S i) rq
          end
      end
  end.

Definition dispatch_request (rq : qusb_setup_data) : M Z :=
  r <- dispatch_loop MAX_USER_CONTROL_CALLBACK 0 rq ;;
  match r with
  | Some result => ret result
  | None => call_standard_request rq
  end.

(** [req] of the C functions below is [&dev->control_state.req]: it is
    read from the device each time the code dereferences it. *)
Definition handle_request_no_data : M unit :=
  dev <- get ;;
  set_ctrl_buf (dev_ctrl_buf dev) ;;
  set_ctrl_len (wLength (req (control_state dev))) ;;
  r <- dispatch_request (req (control_state dev)) ;;
  if negb (r =? 0) then
    dev' <- get ;;
    if 0 <? wLength (req (control_state dev')) then
      send_data_in
    else
      qusb_dev_ep_write_packet 0 NULL 0 ;;
      set_state STATUS_IN
  else
    stall.

Definition prepare_data_out : M unit :=
  dev <- get ;;
  if ctrl_buf_len dev <? wLength (req (control_state dev)) then
    stall
  else
    set_ctrl_buf (dev_ctrl_buf dev) ;;
    set_ctrl_len 0 ;;
    set_state (if bMaxPacketSize0 dev <? wLength (req (control_state dev))
               then DATA_OUT else LAST_DATA_OUT).

(** SETUP event.  [rx] is the value returned by the read of the setup
    packet and [pkt] what that read left in [dev->control_state.req]. *)
Definition _qusb_control_setup (rx : Z) (pkt : qusb_setup_data) : M unit :=
  set_completion None ;;
  r <- (n <- qusb_dev_ep_read_packet 0 ToSetupData 8 rx ;;
        set_req pkt ;; ret n) ;;
  if negb (r =? 8) then
    stall
  else
    dev <- get ;;
    let rq := req (control_state dev) in
    if (wLength rq =? 0)
       || (Z.land (bmRequestType rq) QUSB_REQ_TYPE_DIRECTION_MASK
           =? QUSB_REQ_TYPE_IN)
    then handle_request_no_data
    else prepare_data_out.

(** CONTROL OUT event.  [rx] is the value returned by the one
    [qusb_dev_ep_read_packet] call the handler makes, if it makes one. *)
Definition _qusb_control_out (rx : Z) : M unit :=
  dev <- get ;;
  match state (control_state dev) with
  | DATA_OUT =>
      r <- read_data_out rx ;;
      if r <? 0 then ret tt
      else
        dev' <- get ;;
        let cs := control_state dev' in
        if wLength (req cs) - ctrl_len cs <=? bMaxPacketSize0 dev'
        then set_state LAST_DATA_OUT
        else ret tt
  | LAST_DATA_OUT =>
      r <- read_data_out rx ;;
      if r <? 0 then ret tt
      else
        dev' <- get ;;
        d <- dispatch_request (req (control_state dev')) ;;
        if negb (d =? 0) then
          qusb_dev_ep_write_packet 0 NULL 0 ;;
          set_state STATUS_IN
        else
          stall
  | STATUS_OUT =>
      qusb_dev_ep_read_packet 0 (ToBuffer NULL) 0 rx ;;
      set_state IDLE ;;
      dev' <- get ;;
      match completion (control_state dev') with
      | Some f => emit (Completion f (req (control_state dev')))
      | None => ret tt
      end ;;
      set_completion None
  | _ => stall
  end.

(** CONTROL IN event. *)
Definition _qusb_control_in : M unit :=
  dev <- get ;;
  let rq := req (control_state dev) in
  match state (control_state dev) with
  | DATA_IN => send_data_in
  | LAST_DATA_IN => set_state STATUS_OUT
  | STATUS_IN =>
      match completion (control_state dev) with
      | Some f => emit (Completion f rq)
      | None => ret tt
      end ;;
      (if (bmRequestType rq =? 0) && (bRequest rq =? QUSB_REQ_SET_ADDRESS)
       then _qusb_dev_set_address (wValue rq)
       else ret tt) ;;
      set_state IDLE
  | _ => stall
  end.

(** The events the peripheral raises on endpoint 0, with what the
    hardware delivers for each. *)
Inductive ep0_event : Type :=
  | SETUP (rx : Z) (pkt : qusb_setup_data)
  | OUT (rx : Z)
  | IN.

Definition handle_event (e : ep0_event) : M unit :=
  match e with
  | SETUP rx pkt => _qusb_control_setup rx pkt
  | OUT rx => _qusb_control_out rx
  | IN => _qusb_control_in
  end.

Fixpoint run (evs : list ep0_event) : M unit :=
  match evs with
  | [] => ret tt
  | e :: evs' => handle_event e ;; run evs'
  end.

End Engine.

(* ================================================================== *)
(** ** Observations on the list of calls                               *)
(* ================================================================== *)

Definition is_completion (c : call) : bool :=
  match c with Completion _ _ => true | _ => false end.

Definition is_stall (c : call) : bool :=
  match c with EpStallSet _ _ => true | _ => false end.

Definition is_read_packet (c : call) : bool :=
  match c with EpReadPacket _ _ _ => true | _ => false end.

Definition is_write_packet (c : call) : bool :=
  match c with EpWritePacket _ _ _ => true | _ => false end.

Definition is_set_address (c : call) : bool :=
  match c with SetAddress _ => true | _ => false end.

(** Calls into request handlers: they reach nothing of the peripheral. *)
Definition is_handler_call (c : call) : bool :=
  match c with UserCallback _ | StandardRequest => true | _ => false end.

(** The completion calls of a trace, in order. *)
Definition completions (t : list call) : list call :=
  List.filter is_completion t.

(** The lengths of the packets written to the endpoint, in order. *)
Fixpoint written_lengths (t : list call) : list Z :=
  match t with
  | [] => []
  | EpWritePacket _ _ len :: t' => len :: written_lengths t'
  | _ :: t' => written_lengths t'
  end.

(** [k] consecutive packets of [size] bytes read from [buf] onwards. *)
Fixpoint full_packets (k : nat) (buf size : Z) : list call :=
  match k with
  | O => []
  | S k' => EpWritePacket 0 buf size :: full_packets k' (buf + size) size
  end.

(** No completion call is made after a stall. *)
Fixpoint no_completion_after_stall (t : list call) : bool :=
  match t with
  | [] => true
  | c :: t' =>
      (if is_stall c then forallb (fun x => negb (is_completion x)) t'
       else true)
      && no_completion_after_stall t'
  end.

Definition is_setup (e : ep0_event) : bool :=
  match e with SETUP _ _ => true | _ => false end.

(** A list of events that contains no SETUP: the rest of a transfer. *)
Definition no_setup (evs : list ep0_event) : Prop :=
  forallb (fun e => negb (is_setup e)) evs = true.

(** The event that ends the status stage in the present state. *)
Definition status_stage_finishes (dev : qusb_device) (e : ep0_event) : Prop :=
  match state (control_state dev), e with
  | STATUS_OUT, OUT _ => True
  | STATUS_IN, IN => True
  | _, _ => False
  end.

(* ================================================================== *)
(** ** Well-formedness and invariants                                  *)
(* ================================================================== *)

Definition wf_setup_data (r : qusb_setup_data) : Prop :=
  0 <= bmRequestType r < 256 /\ 0 <= bRequest r < 256 /\
  0 <= wValue r < 65536 /\ 0 <= wIndex r < 65536 /\
  0 <= wLength r < 65536.

Definition wf_event (e : ep0_event) : Prop :=
  match e with
  | SETUP _ pkt => wf_setup_data pkt
  | _ => True
  end.

Definition free_slot (e : user_control_callback_entry) : Prop := cb e = None.

(** The occupied entries of the table form a prefix of it: an entry is
    occupied exactly when its index is below some bound [n]. *)
Definition contiguous_prefix (t : list user_control_callback_entry) : Prop :=
  exists n : nat,
    forall (i : nat) (e : user_control_callback_entry),
      t !! i = Some e -> (cb e <> None <-> (i < n)%nat).

(** The constants of a device: they are set once, before any event. *)
Definition wf_constants (dev : qusb_device) : Prop :=
  0 <= bMaxPacketSize0 dev < 256 /\ 0 <= ctrl_buf_len dev < 65536.

Definition receiving (dev : qusb_device) : Prop :=
  state (control_state dev) = DATA_OUT \/
  state (control_state dev) = LAST_DATA_OUT.

(** What holds of the receive cursor while OUT data is expected. *)
Definition data_out_invariant (dev : qusb_device) : Prop :=
  receiving dev ->
  ctrl_buf (control_state dev) = dev_ctrl_buf dev /\
  0 <= ctrl_len (control_state dev)
    <= wLength (req (control_state dev)) /\
  wLength (req (control_state dev)) <= ctrl_buf_len dev.

(** The table entries paired with their index, from index [i]. *)
Fixpoint indexed_from {A} (i : nat) (l : list A) : list (nat * A) :=
  match l with
  | [] => []
  | x :: l' => (i, x) :: indexed_from (S i) l'
  end.

Section EngineSpec.

Variable MAX_USER_CONTROL_CALLBACK : nat.
Variable _qusb_standard_request : standard_request_fn.

(** The dispatch algorithm in the words of the specification: go through
    the registered entries in registration order; an entry whose pattern
    matches is invoked; *handled* and *not-supported* stop the scan and
    are the result; anything else defers to the next entry. *)
Fixpoint dispatch_spec_scan
    (es : list (nat * user_control_callback_entry))
    (rq : qusb_setup_data) : M (option Z) :=
  match es with
  | [] => ret None
  | (i, e) :: es' =>
      match cb e with
      | None => dispatch_spec_scan es' rq          (* nothing registered *)
      | Some f =>
          if Z.land (bmRequestType rq) (type_mask e) =? type e then
            result <- call_user_callback i f rq ;;
            if result =? QUSB_REQ_HANDLED then ret (Some QUSB_REQ_HANDLED)
            else if result =? QUSB_REQ_NOTSUPP
                 then ret (Some QUSB_REQ_NOTSUPP)
                 else dispatch_spec_scan es' rq
          else dispatch_spec_scan es' rq
      end
  end.

(** ... and the standard-request handler decides when no entry did. *)
Definition dispatch_spec (rq : qusb_setup_data) : M Z :=
  dev <- get ;;
  r <- dispatch_spec_scan (indexed_from 0 (user_control_callback dev)) rq ;;
  match r with
  | Some result => ret result
  | None => call_standard_request _qusb_standard_request rq
  end.

(** A device before its first event: idle, with an empty table of the
    declared capacity. *)
Definition initial (dev : qusb_device) : Prop :=
  wf_constants dev /\
  state (control_state dev) = IDLE /\
  length (user_control_callback dev) = MAX_USER_CONTROL_CALLBACK /\
  Forall free_slot (user_control_callback dev).

(** The devices the firmware can be in: registrations and endpoint-0
    events applied to an initial device. *)
Inductive reachable : qusb_device -> Prop :=
  | reachable_initial dev :
      initial dev -> reachable dev
  | reachable_register dev type0 type_mask0 callback :
      reachable dev ->
      reachable (device_of
        (qusb_dev_register_control_callback MAX_USER_CONTROL_CALLBACK
           type0 type_mask0 callback dev))
  | reachable_event dev e :
      reachable dev -> wf_event e ->
      reachable (device_of
        (handle_event MAX_USER_CONTROL_CALLBACK _qusb_standard_request
           e dev)).

(** The device as [handle_request_no_data] stages it for dispatch, after
    the setup packet [pkt] has been read. *)
Definition staged_for_dispatch (pkt : qusb_setup_data) (dev : qusb_device)
    : qusb_device :=
  with_control_state
    (fun c => {| state := state c; req := pkt;
                 ctrl_buf := dev_ctrl_buf dev; ctrl_len := wLength pkt;
                 completion := None |}) dev.

(** [n] calls of [send_data_in] in a row. *)
Fixpoint send_data_in_times (n : nat) : M unit :=
  match n with
  | O => ret tt
  | S n' => send_data_in ;; send_data_in_times n'
  end.

(** The IN round trip as the specification words it, for a request of
    N = [wLength pkt] bytes: after the SETUP and one IN event per full
    packet the packets written are the ceil(N / maxpacket) full ones
    followed by a zero-length one, and the next IN event leads to
    STATUS_OUT. *)
Definition in_round_trip_as_stated (pkt : qusb_setup_data)
    (dev : qusb_device) : Prop :=
  let k := Z.to_nat ((wLength pkt + bMaxPacketSize0 dev - 1)
                     / bMaxPacketSize0 dev) in
  let r := run MAX_USER_CONTROL_CALLBACK _qusb_standard_request
             (SETUP 8 pkt :: repeat IN k) dev in
  written_lengths (calls_of r) = repeat (bMaxPacketSize0 dev) k ++ [0] /\
  state (control_state (device_of
    (_qusb_control_in (device_of r)))) = STATUS_OUT.

End EngineSpec.

(** The zero-length-packet rule as the specification words it: the call
    that sends the last chunk stays in DATA_IN exactly when the chunk is
    a full packet and shorter than the [wLength] originally requested. *)
Definition zlp_rule_as_stated (original_wLength : Z) (dev : qusb_device)
    : Prop :=
  state (control_state (device_of (send_data_in dev))) = DATA_IN <->
  ctrl_len (control_state dev) = bMaxPacketSize0 dev /\
  ctrl_len (control_state dev) < original_wLength.

(** What a request handler cannot change: everything of the device but
    the three slots it is handed. *)
Definition same_frame (dev dev' : qusb_device) : Prop :=
  bMaxPacketSize0 dev' = bMaxPacketSize0 dev /\
  dev_ctrl_buf dev' = dev_ctrl_buf dev /\
  ctrl_buf_len dev' = ctrl_buf_len dev /\
  user_control_callback dev' = user_control_callback dev /\
  state (control_state dev') = state (control_state dev) /\
  req (control_state dev') = req (control_state dev).

(** The device after [stall]. *)
Definition stalled (dev : qusb_device) : qusb_device :=
  with_control_state (cs_set_state IDLE) dev.

(** The device after a SETUP event has cleared the completion slot and
    read [pkt] into the request. *)
Definition loaded (pkt : qusb_setup_data) (dev : qusb_device)
    : qusb_device :=
  with_control_state
    (fun c => {| state := state c; req := pkt; ctrl_buf := ctrl_buf c;
                 ctrl_len := ctrl_len c; completion := None |}) dev.

(** The device as [prepare_data_out] leaves it when the payload fits. *)
Definition prepared (pkt : qusb_setup_data) (dev : qusb_device)
    : qusb_device :=
  with_control_state
    (fun c => {| state := if bMaxPacketSize0 dev <? wLength pkt
                          then DATA_OUT else LAST_DATA_OUT;
                 req := pkt; ctrl_buf := dev_ctrl_buf dev;
                 ctrl_len := 0; completion := None |}) dev.

(** The size [read_data_out] expects of the next OUT packet, the read it
    issues for it, and the device after a packet of that size. *)
Definition packetsize (dev : qusb_device) : Z :=
  min_u16 (bMaxPacketSize0 dev)
    (wLength (req (control_state dev)) - ctrl_len (control_state dev)).

Definition data_out_read (dev : qusb_device) : call :=
  EpReadPacket 0
    (ToBuffer (ctrl_buf (control_state dev) + ctrl_len (control_state dev)))
    (packetsize dev).

Definition received (rx : Z) (dev : qusb_device) : qusb_device :=
  with_control_state
    (cs_set_ctrl_len (u16 (ctrl_len (control_state dev) + u16 rx))) dev.

(** The parts of a device that no endpoint-0 event changes. *)
Definition same_constants (dev dev' : qusb_device) : Prop :=
  bMaxPacketSize0 dev' = bMaxPacketSize0 dev /\
  dev_ctrl_buf dev' = dev_ctrl_buf dev /\
  ctrl_buf_len dev' = ctrl_buf_len dev /\
  user_control_callback dev' = user_control_callback dev.

(* ================================================================== *)
(** ** Concrete devices and requests                                   *)
(* ================================================================== *)

(** A standard-request handler that supports nothing. *)
Definition std_not_supported : standard_request_fn :=
  fun _ buf len => (QUSB_REQ_NOTSUPP, (buf, len)).

(** A handler that handles every request with the staged buffer and
    length and registers completion callback [f]. *)
Definition cb_handled (f : qusb_dev_control_completion_callback_fn)
    : qusb_dev_control_callback_fn :=
  fun _ s => (QUSB_REQ_HANDLED,
              {| slot_buf := slot_buf s; slot_len := slot_len s;
                 slot_completion := Some f |}).

(** A handler that defers every request. *)
Definition cb_defer : qusb_dev_control_callback_fn :=
  fun _ s => (QUSB_REQ_NEXT_CALLBACK, s).

Definition free_entry : user_control_callback_entry :=
  {| type := 0; type_mask := 0; cb := None |}.

(** An entry for class requests to an interface, of either direction. *)
Definition class_entry (f : qusb_dev_control_callback_fn)
    : user_control_callback_entry :=
  {| type := 33; type_mask := 127; cb := Some f |}.

Definition request (bm len : Z) : qusb_setup_data :=
  {| bmRequestType := bm; bRequest := 33; wValue := 0; wIndex := 0;
     wLength := len |}.

(** A device with 64-byte packets on endpoint 0 and a control buffer of
    128 bytes at address 4096, in state [s] with [len] bytes staged for
    request [rq]. *)
Definition device (t : list user_control_callback_entry)
    (s : control_state_enum) (rq : qusb_setup_data) (len : Z)
    : qusb_device :=
  {| bMaxPacketSize0 := 64; dev_ctrl_buf := 4096; ctrl_buf_len := 128;
     user_control_callback := t;
     control_state := {| state := s; req := rq; ctrl_buf := 4096;
                         ctrl_len := len; completion := None |} |}.

Definition table_empty : list user_control_callback_entry :=
  [free_entry; free_entry; free_entry; free_entry].
Definition table_one : list user_control_callback_entry :=
  [class_entry (cb_handled 7%nat); free_entry; free_entry; free_entry].
Definition table_two_defer : list user_control_callback_entry :=
  [class_entry cb_defer; class_entry cb_defer; free_entry; free_entry].
Definition table_full : list user_control_callback_entry :=
  [class_entry cb_defer; class_entry cb_defer; class_entry cb_defer;
   class_entry (cb_handled 7%nat)].

Definition device_idle (t : list user_control_callback_entry) : qusb_device :=
  device t IDLE (request 0 0) 0.

(* ================================================================== *)
(** ** Further observations                                            *)
(* ================================================================== *)

(** What a call may ask of the peripheral on a device whose endpoint 0
    has packets of [mps] bytes: everything is addressed to endpoint 0, a
    stall sets the stall flag, no packet written is longer than [mps],
    the setup read asks for 8 bytes and a data read for at most [mps]. *)
Definition within_endpoint0 (mps : Z) (c : call) : Prop :=
  match c with
  | EpStallSet ep s => ep = 0 /\ s = 1
  | EpWritePacket ep _ len => ep = 0 /\ len <= mps
  | EpReadPacket ep ToSetupData len => ep = 0 /\ len = 8
  | EpReadPacket ep (ToBuffer _) len => ep = 0 /\ 0 <= len <= mps
  | _ => True
  end.

(** [k] consecutive reads of [size] bytes into [buf] onwards. *)
Fixpoint full_reads (k : nat) (buf size : Z) : list call :=
  match k with
  | O => []
  | S k' =>
      EpReadPacket 0 (ToBuffer buf) size :: full_reads k' (buf + size) size
  end.

(** The test of [dispatch_request] on a table entry. *)
Definition matches (rq : qusb_setup_data) (e : user_control_callback_entry)
    : bool :=
  Z.land (bmRequestType rq) (type_mask e) =? type e.

(** A handler's return code ends the scan of the table. *)
Definition decides (result : Z) : bool :=
  (result =? QUSB_REQ_HANDLED) || (result =? QUSB_REQ_NOTSUPP).

(** The events on which the engine hands the request to the handlers: a
    SETUP read in full for a request without OUT data, and the OUT event
    that brings the last packet of the OUT data, in its expected size. *)
Definition completes_request (dev : qusb_device) (e : ep0_event) : Prop :=
  match e with
  | SETUP rx pkt =>
      rx = 8 /\
      (wLength pkt = 0 \/
       Z.land (bmRequestType pkt) QUSB_REQ_TYPE_DIRECTION_MASK
       = QUSB_REQ_TYPE_IN)
  | OUT rx =>
      state (control_state dev) = LAST_DATA_OUT /\
      u16 rx = packetsize dev
  | IN => False
  end.

(** A registration request: pattern, mask and a callback that is not
    NULL; and the table entry it becomes. *)
Definition registration : Type :=
  (Z * Z * qusb_dev_control_callback_fn)%type.

Definition entry_of (r : registration) : user_control_callback_entry :=
  {| type := fst (fst r); type_mask := snd (fst r); cb := Some (snd r) |}.

Section EngineRuns.

Variable MAX_USER_CONTROL_CALLBACK : nat.

(** The registrations [rs] made one after the other; the result lists
    the return codes. *)
Fixpoint register_all (rs : list registration) : M (list Z) :=
  match rs with
  | [] => ret []
  | r :: rs' =>
      code <- qusb_dev_register_control_callback MAX_USER_CONTROL_CALLBACK
                (fst (fst r)) (snd (fst r)) (Some (snd r)) ;;
      codes <- register_all rs' ;;
      ret (code :: codes)
  end.

End EngineRuns.

(** A handler that handles every request with a response of [n] bytes
    from the staged buffer. *)
Definition cb_respond (n : Z) : qusb_dev_control_callback_fn :=
  fun _ s => (QUSB_REQ_HANDLED,
              {| slot_buf := slot_buf s; slot_len := n;
                 slot_completion := slot_completion s |}).

Definition table_respond (n : Z) : list user_control_callback_entry :=
  [class_entry (cb_respond n); free_entry; free_entry; free_entry].

(* ================================================================== *)
(** ** Dispatch in the words of the specification, on plain data       *)
(* ================================================================== *)

(** The three slots of a device, and a device whose slots are replaced
    and which is otherwise unchanged. *)
Definition slots_of (dev : qusb_device) : cb_slots :=
  {| slot_buf := ctrl_buf (control_state dev);
     slot_len := ctrl_len (control_state dev);
     slot_completion := completion (control_state dev) |}.

Definition with_slots (s : cb_slots) (dev : qusb_device) : qusb_device :=
  with_control_state
    (fun cs => {| state := state cs; req := req cs;
                  ctrl_buf := slot_buf s; ctrl_len := slot_len s;
                  completion := slot_completion s |}) dev.

(** What a dispatch amounts to: its result, the slots it leaves and the
    handlers it called, in order. *)
Definition dispatch_outcome : Type := (Z * cb_slots * list call)%type.

(** The scan of the specification over the entries [es], the first of
    which has index [i], with the slots [s]: free entries are passed
    over; the handler of an occupied entry whose mask and pattern match
    the request's bmRequestType is applied to the request and the slots
    as they are; *handled* or *not-supported* stops the scan with that
    code; on any other code the scan goes on with the slots as the
    handler left them.  [None] when no handler decided. *)
Fixpoint scan_in_registration_order (i : nat)
    (es : list user_control_callback_entry) (rq : qusb_setup_data)
    (s : cb_slots) : option Z * cb_slots * list call :=
  match es with
  | [] => (None, s, [])
  | e :: es' =>
      match cb e with
      | None => scan_in_registration_order (S i) es' rq s
      | Some f =>
          if Z.land (bmRequestType rq) (type_mask e) =? type e then
            let out := f rq s in
            if fst out =? QUSB_REQ_HANDLED
            then (Some QUSB_REQ_HANDLED, snd out, [UserCallback i])
            else if fst out =? QUSB_REQ_NOTSUPP
            then (Some QUSB_REQ_NOTSUPP, snd out, [UserCallback i])
            else
              let '(r, s', t) :=
                scan_in_registration_order (S i) es' rq (snd out) in
              (r, s', UserCallback i :: t)
          else scan_in_registration_order (S i) es' rq s
      end
  end.

(** The result of the standard-request handler [std] on the slots [s]:
    it is handed the buffer and the length, and leaves the completion
    slot alone. *)
Definition standard_outcome (std : standard_request_fn)
    (rq : qusb_setup_data) (s : cb_slots) : Z * cb_slots :=
  let out := std rq (slot_buf s) (slot_len s) in
  (fst out, {| slot_buf := fst (snd out); slot_len := snd (snd out);
               slot_completion := slot_completion s |}).

(** Dispatch as the specification words it: the scan, and when no
    handler decided the standard-request handler, whose result is then
    the result of the dispatch. *)
Definition dispatch_in_registration_order (std : standard_request_fn)
    (table : list user_control_callback_entry) (rq : qusb_setup_data)
    (s : cb_slots) : dispatch_outcome :=
  match scan_in_registration_order 0 table rq s with
  | (Some code, s', t) => (code, s', t)
  | (None, s', t) =>
      (fst (standard_outcome std rq s'), snd (standard_outcome std rq s'),
       t ++ [StandardRequest])
  end.

(* ================================================================== *)
(** ** Verification                                                    *)
(* ================================================================== *)

Section EngineProofs.

Variable MAX_USER_CONTROL_CALLBACK : nat.
Variable _qusb_standard_request : standard_request_fn.

Local Notation "'register'" :=
  (qusb_dev_register_control_callback MAX_USER_CONTROL_CALLBACK).
Local Notation "'dispatch'" :=
  (dispatch_request MAX_USER_CONTROL_CALLBACK _qusb_standard_request).
Local Notation "'on_setup'" :=
  (_qusb_control_setup MAX_USER_CONTROL_CALLBACK _qusb_standard_request).
Local Notation "'on_out'" :=
  (_qusb_control_out MAX_USER_CONTROL_CALLBACK _qusb_standard_request).
Local Notation "'on_in'" := (_qusb_control_in).
Local Notation "'on_event'" :=
  (handle_event MAX_USER_CONTROL_CALLBACK _qusb_standard_request).
Local Notation "'run_events'" :=
  (run MAX_USER_CONTROL_CALLBACK _qusb_standard_request).

(** *** Registration *)

Lemma register_loop_full fuel i ty m f (t : list user_control_callback_entry) :
  (forall j e, t !! j = Some e -> cb e <> None) ->
  register_loop fuel i ty m f t = (-1, t).
Proof.
  intros Hocc. revert i. induction fuel as [|fuel IH]; intros i; simpl.
  - reflexivity.
  - destruct (t !! i) as [e|] eqn:Hi; [|reflexivity].
    destruct (cb e) eqn:Hcb; [apply IH|].
    exfalso. exact (Hocc i e Hi Hcb).
Qed.

Lemma register_loop_first_free fuel k i ty m f
    (t : list user_control_callback_entry) e :
  (k <= i < k + fuel)%nat ->
  t !! i = Some e -> cb e = None ->
  (forall j, (k <= j < i)%nat ->
             exists e', t !! j = Some e' /\ cb e' <> None) ->
  register_loop fuel k ty m f t
  = (0, <[i := {| type := ty; type_mask := m; cb := f |}]> t).
Proof.
  revert k. induction fuel as [|fuel IH]; intros k Hk Hi Hfree Hbefore.
  - lia.
  - simpl. destruct (Nat.eq_dec k i) as [->|Hne].
    + rewrite Hi, Hfree. reflexivity.
    + destruct (Hbefore k) as (e' & He' & Hocc); [lia|].
      rewrite He'. destruct (cb e') eqn:Hcb; [|congruence].
      apply IH; [lia|assumption|assumption|].
      intros j Hj. apply Hbefore. lia.
Qed.

(** C8: [qusb_dev_register_control_callback] stores the triple in the
    first entry whose callback slot is empty and returns 0; when every
    entry of the table is occupied it returns -1 and leaves the table (and
    the whole device) as it was.  It makes no call. *)
Theorem C8_register_first_free_or_full
    (dev : qusb_device) (ty m : Z)
    (f : option qusb_dev_control_callback_fn) :
  length (user_control_callback dev) = MAX_USER_CONTROL_CALLBACK ->
  (forall i e,
     user_control_callback dev !! i = Some e -> cb e = None ->
     (forall j e', (j < i)%nat -> user_control_callback dev !! j = Some e' ->
                   cb e' <> None) ->
     register ty m f dev
     = (0,
        with_user_control_callback
          (<[i := {| type := ty; type_mask := m; cb := f |}]>
             (user_control_callback dev)) dev,
        []))
  /\
  ((forall e, e ∈ user_control_callback dev -> cb e <> None) ->
   register ty m f dev = (-1, dev, [])).
Proof.
  intros Hlen. split.
  - intros i e Hi Hfree Hbefore.
    unfold qusb_dev_register_control_callback, bind, get, modify, ret; simpl.
    rewrite (register_loop_first_free MAX_USER_CONTROL_CALLBACK 0 i ty m f
               (user_control_callback dev) e); simpl; auto.
    + split; [lia|]. rewrite <- Hlen. simpl.
      apply lookup_lt_Some in Hi. exact Hi.
    + intros j [_ Hj].
      assert (Hj' : (j < length (user_control_callback dev))%nat).
      { apply lookup_lt_Some in Hi. lia. }
      apply lookup_lt_is_Some in Hj'. destruct Hj' as [e' He'].
      exists e'. split; [assumption|]. eapply Hbefore; eauto.
  - intros Hocc.
    unfold qusb_dev_register_control_callback, bind, get, modify, ret; simpl.
    rewrite register_loop_full.
    + simpl. destruct dev; reflexivity.
    + intros j e Hj. apply Hocc. apply list_elem_of_lookup. eauto.
Qed.

(** *** Dispatch *)

Lemma same_frame_refl dev : same_frame dev dev.
Proof. unfold same_frame; tauto. Qed.

Lemma same_frame_trans d1 d2 d3 :
  same_frame d1 d2 -> same_frame d2 d3 -> same_frame d1 d3.
Proof. unfold same_frame; intuition congruence. Qed.

Lemma call_user_callback_frame i f rq dev :
  same_frame dev (device_of (call_user_callback i f rq dev)) /\
  calls_of (call_user_callback i f rq dev) = [UserCallback i].
Proof. unfold same_frame; simpl; tauto. Qed.

Lemma call_standard_request_frame rq dev :
  same_frame dev
    (device_of (call_standard_request _qusb_standard_request rq dev)) /\
  calls_of (call_standard_request _qusb_standard_request rq dev)
  = [StandardRequest].
Proof. unfold same_frame; simpl; tauto. Qed.

Lemma dispatch_loop_frame rq fuel : forall i dev,
  same_frame dev (device_of (dispatch_loop fuel i rq dev)) /\
  forallb is_handler_call (calls_of (dispatch_loop fuel i rq dev)) = true.
Proof.
  induction fuel as [|fuel IH]; intros i dev.
  - split; [apply same_frame_refl|reflexivity].
  - cbn [dispatch_loop]. unfold bind, get. cbv beta iota zeta.
    destruct (user_control_callback dev !! i) as [e|];
      [|split; [apply same_frame_refl|reflexivity]].
    destruct (cb e) as [f|];
      [|split; [apply same_frame_refl|reflexivity]].
    destruct (Z.land (bmRequestType rq) (type_mask e) =? type e).
    + destruct (call_user_callback_frame i f rq dev) as [Hf Hc].
      destruct (call_user_callback i f rq dev) as [[result dev1] t1].
      unfold device_of, calls_of in Hf, Hc. cbn [fst snd] in Hf, Hc.
      destruct ((result =? QUSB_REQ_HANDLED) || (result =? QUSB_REQ_NOTSUPP)).
      * cbn. rewrite app_nil_r, Hc. split; [exact Hf|reflexivity].
      * destruct (IH (S i) dev1) as [Hf' Hc'].
        destruct (dispatch_loop fuel (S i) rq dev1) as [[b dev2] t2].
        unfold device_of, calls_of in *. cbn [fst snd] in *.
        split; [eapply same_frame_trans; eauto|].
        subst t1. cbn. exact Hc'.
    + destruct (IH (S i) dev) as [Hf' Hc'].
      destruct (dispatch_loop fuel (S i) rq dev) as [[b dev2] t2].
      unfold device_of, calls_of in *. cbn [fst snd app] in *. tauto.
Qed.

Lemma dispatch_frame rq dev :
  same_frame dev (device_of (dispatch rq dev)) /\
  forallb is_handler_call (calls_of (dispatch rq dev)) = true.
Proof.
  unfold dispatch_request, bind.
  destruct (dispatch_loop_frame rq MAX_USER_CONTROL_CALLBACK 0%nat dev)
    as [Hf Hc].
  destruct (dispatch_loop MAX_USER_CONTROL_CALLBACK 0 rq dev)
    as [[[result|] dev1] t1];
    unfold device_of, calls_of in Hf, Hc; cbn [fst snd] in Hf, Hc.
  - cbn. rewrite app_nil_r. tauto.
  - destruct (call_standard_request_frame rq dev1) as [Hf' Hc'].
    destruct (call_standard_request _qusb_standard_request rq dev1)
      as [[b dev2] t2].
    unfold device_of, calls_of in *. cbn [fst snd] in *.
    split; [eapply same_frame_trans; eauto|].
    rewrite forallb_app, Hc. subst t2. reflexivity.
Qed.

Lemma dispatch_spec_scan_free rq (l : list user_control_callback_entry) :
  forall i dev,
  Forall free_slot l ->
  dispatch_spec_scan (indexed_from i l) rq dev = (None, dev, []).
Proof.
  induction l as [|e l IH]; intros i dev Hfree; [reflexivity|].
  inversion Hfree as [|? ? He Hl]; subst.
  cbn [indexed_from dispatch_spec_scan]. unfold free_slot in He.
  rewrite He. apply IH. assumption.
Qed.

Lemma free_behind_free (t : list user_control_callback_entry) i e :
  contiguous_prefix t -> t !! i = Some e -> cb e = None ->
  Forall free_slot (drop i t).
Proof.
  intros [n Hn] Hi He. apply Forall_lookup. intros k x Hk.
  rewrite lookup_drop in Hk.
  assert (Hin : ~ (i < n)%nat).
  { intros Hlt. apply (Hn i e Hi) in Hlt. congruence. }
  unfold free_slot. destruct (cb x) eqn:Hx; [|reflexivity].
  exfalso. assert (Hocc : cb x <> None) by congruence.
  apply (Hn _ x Hk) in Hocc. lia.
Qed.

(** The loop of the code and the scan of the specification agree from
    every index on, when the occupied entries form a prefix. *)
Lemma dispatch_loop_refines rq fuel : forall i dev,
  (length (user_control_callback dev) <= i + fuel)%nat ->
  contiguous_prefix (user_control_callback dev) ->
  dispatch_loop fuel i rq dev
  = dispatch_spec_scan
      (indexed_from i (drop i (user_control_callback dev))) rq dev.
Proof.
  induction fuel as [|fuel IH]; intros i dev Hlen Hpre.
  - rewrite drop_ge by lia. reflexivity.
  - cbn [dispatch_loop]. unfold bind, get. cbv beta iota zeta.
    destruct (user_control_callback dev !! i) as [e|] eqn:Hi.
    + rewrite (drop_S _ _ _ Hi). cbn [indexed_from dispatch_spec_scan].
      destruct (cb e) as [f|] eqn:Hcb.
      * destruct (Z.land (bmRequestType rq) (type_mask e) =? type e).
        -- unfold bind.
           destruct (call_user_callback_frame i f rq dev) as [Hf _].
           destruct (call_user_callback i f rq dev) as [[result dev1] t1].
           unfold device_of in Hf. cbn [fst snd] in Hf.
           destruct Hf as (_ & _ & _ & Ht & _).
           unfold QUSB_REQ_HANDLED, QUSB_REQ_NOTSUPP.
           destruct (Z.eqb_spec result 1) as [->|H1]; [reflexivity|].
           destruct (Z.eqb_spec result 0) as [->|H0]; [reflexivity|].
           cbn [orb]. rewrite IH; rewrite Ht; [|lia|assumption].
           destruct (dispatch_spec_scan _ rq dev1) as [[b dev2] t2].
           reflexivity.
        -- rewrite IH by (assumption || lia).
           destruct (dispatch_spec_scan _ rq dev) as [[b dev2] t2].
           reflexivity.
      * pose proof (free_behind_free _ _ _ Hpre Hi Hcb) as Hfree.
        rewrite (drop_S _ _ _ Hi) in Hfree.
        inversion Hfree as [|? ? _ Hl]; subst.
        rewrite dispatch_spec_scan_free by assumption.
        reflexivity.
    + apply lookup_ge_None in Hi. rewrite drop_ge by lia. reflexivity.
Qed.

(** The slots of a device, read and written back. *)
Lemma with_slots_same dev : with_slots (slots_of dev) dev = dev.
Proof. destruct dev as [? ? ? ? [? ? ? ? ?]]. reflexivity. Qed.

Lemma slots_of_with_slots s dev : slots_of (with_slots s dev) = s.
Proof. destruct s. reflexivity. Qed.

(** A scan over entries none of which is both occupied and matching
    calls nothing. *)
Lemma scan_no_match rq (es : list user_control_callback_entry) :
  forall i s,
  List.Forall (fun e => cb e = None \/ matches rq e = false) es ->
  scan_in_registration_order i es rq s = (None, s, []).
Proof.
  induction es as [|e es IH]; intros i s Hno; [reflexivity|].
  cbn [scan_in_registration_order].
  pose proof (List.Forall_inv Hno) as He.
  pose proof (List.Forall_inv_tail Hno) as Hes.
  cbv beta in He.
  destruct (cb e) as [f|] eqn:Hcb; [|apply IH; assumption].
  destruct He as [He|He]; [discriminate|].
  unfold matches in He. rewrite He. apply IH. assumption.
Qed.

(** The scan written with the engine's state and calls is the scan on
    plain data: the handlers are applied to the request and the slots of
    the device, and the device changes in its slots only. *)
Lemma dispatch_spec_scan_plain rq (es : list user_control_callback_entry) :
  forall i dev,
  dispatch_spec_scan (indexed_from i es) rq dev
  = (let '(r, s, t) := scan_in_registration_order i es rq (slots_of dev) in
     (r, with_slots s dev, t)).
Proof.
  induction es as [|e es IH]; intros i dev.
  - cbn. rewrite with_slots_same. reflexivity.
  - cbn [indexed_from dispatch_spec_scan scan_in_registration_order].
    destruct (cb e) as [f|]; [|apply IH].
    destruct (Z.land (bmRequestType rq) (type_mask e) =? type e);
      [|apply IH].
    unfold bind.
    change (call_user_callback i f rq dev)
      with (fst (f rq (slots_of dev)),
            with_slots (snd (f rq (slots_of dev))) dev, [UserCallback i]).
    cbv beta iota zeta.
    destruct (f rq (slots_of dev)) as [code s1]. cbn [fst snd].
    destruct (code =? QUSB_REQ_HANDLED); [reflexivity|].
    destruct (code =? QUSB_REQ_NOTSUPP); [reflexivity|].
    rewrite IH. rewrite slots_of_with_slots.
    destruct (scan_in_registration_order (S i) es rq s1) as [[r s2] t].
    reflexivity.
Qed.

(** The loop of [dispatch_request] and the standard-request handler
    after it, on plain data. *)
Lemma dispatch_plain rq dev :
  length (user_control_callback dev) = MAX_USER_CONTROL_CALLBACK ->
  contiguous_prefix (user_control_callback dev) ->
  dispatch rq dev
  = (let '(code, s, t) :=
       dispatch_in_registration_order _qusb_standard_request
         (user_control_callback dev) rq (slots_of dev) in
     (code, with_slots s dev, t)).
Proof.
  intros Hlen Hpre. unfold dispatch_request, dispatch_in_registration_order.
  unfold bind. cbv beta iota zeta.
  rewrite dispatch_loop_refines by (assumption || lia).
  rewrite drop_0, dispatch_spec_scan_plain.
  destruct (scan_in_registration_order 0 _ rq (slots_of dev))
    as [[[code|] s] t].
  { unfold ret. cbv beta iota zeta. rewrite app_nil_r. reflexivity. }
  unfold standard_outcome.
  change (call_standard_request _qusb_standard_request rq (with_slots s dev))
    with (fst (_qusb_standard_request rq
                 (slot_buf (slots_of (with_slots s dev)))
                 (slot_len (slots_of (with_slots s dev)))),
          with_slots
            {| slot_buf := fst (snd (_qusb_standard_request rq
                 (slot_buf (slots_of (with_slots s dev)))
                 (slot_len (slots_of (with_slots s dev)))));
               slot_len := snd (snd (_qusb_standard_request rq
                 (slot_buf (slots_of (with_slots s dev)))
                 (slot_len (slots_of (with_slots s dev)))));
               slot_completion :=
                 slot_completion (slots_of (with_slots s dev)) |}
            (with_slots s dev),
          [StandardRequest]).
  cbv beta iota zeta. rewrite slots_of_with_slots. reflexivity.
Qed.

(** C5: dispatch scans the registration table in registration order,
    invokes the handler of every entry whose mask and pattern match the
    request's bmRequestType, stops at the first handler that returns
    *handled* or *not-supported* with that code as the result, goes on to
    the next entry when a handler defers, and hands the request to the
    standard-request handler, whose result is then the result of the
    dispatch, when no handler decided.  On a table of the declared
    capacity whose occupied entries form a prefix:
    - the result of [dispatch_request], the slots it leaves, the rest of
      the device (untouched) and the handlers it calls, in order, are
      those of the dispatch of the specification computed on the table,
      the request and the slots alone, every handler being handed the
      request and the slots as the handlers before it left them;
    - when no occupied entry matches the request, the standard-request
      handler alone is called, on the buffer and the length as they are,
      and its result and its buffer and length are those of the dispatch;
    - when the first two entries are occupied and match and the other
      entries are free, the first handler is called first; if it decides,
      its code is the result and nothing else is called; if not, the
      second handler is called on the slots the first one left, and if
      it decides its code is the result; if both defer, the
      standard-request handler is called after them on the slots the
      second one left, and its result is the result of the dispatch. *)
Theorem C5_dispatch_in_registration_order
    (rq : qusb_setup_data) (dev : qusb_device) :
  length (user_control_callback dev) = MAX_USER_CONTROL_CALLBACK ->
  contiguous_prefix (user_control_callback dev) ->
  dispatch rq dev
  = (let '(code, s, t) :=
       dispatch_in_registration_order _qusb_standard_request
         (user_control_callback dev) rq (slots_of dev) in
     (code, with_slots s dev, t))
  /\
  ((forall e, e ∈ user_control_callback dev ->
              cb e = None \/ matches rq e = false) ->
   dispatch rq dev
   = (fst (_qusb_standard_request rq (ctrl_buf (control_state dev))
             (ctrl_len (control_state dev))),
      with_slots
        {| slot_buf :=
             fst (snd (_qusb_standard_request rq
                         (ctrl_buf (control_state dev))
                         (ctrl_len (control_state dev))));
           slot_len :=
             snd (snd (_qusb_standard_request rq
                         (ctrl_buf (control_state dev))
                         (ctrl_len (control_state dev))));
           slot_completion := completion (control_state dev) |} dev,
      [StandardRequest]))
  /\
  (forall e0 e1 rest f0 f1,
     user_control_callback dev = e0 :: e1 :: rest ->
     cb e0 = Some f0 -> cb e1 = Some f1 ->
     matches rq e0 = true -> matches rq e1 = true ->
     List.Forall free_slot rest ->
     let out0 := f0 rq (slots_of dev) in
     let out1 := f1 rq (snd out0) in
     let out2 := standard_outcome _qusb_standard_request rq (snd out1) in
     (decides (fst out0) = true ->
      dispatch rq dev
      = (fst out0, with_slots (snd out0) dev, [UserCallback 0]))
     /\
     (decides (fst out0) = false -> decides (fst out1) = true ->
      dispatch rq dev
      = (fst out1, with_slots (snd out1) dev,
         [UserCallback 0; UserCallback 1]))
     /\
     (decides (fst out0) = false -> decides (fst out1) = false ->
      dispatch rq dev
      = (fst out2, with_slots (snd out2) dev,
         [UserCallback 0; UserCallback 1; StandardRequest]))).
Proof.
  intros Hlen Hpre. pose proof (dispatch_plain rq dev Hlen Hpre) as Heq.
  split; [exact Heq|]. split.
  - intros Hno. rewrite Heq. unfold dispatch_in_registration_order.
    rewrite scan_no_match; [reflexivity|].
    apply Forall_forall. exact Hno.
  - intros e0 e1 rest f0 f1 Htable Hcb0 Hcb1 Hm0 Hm1 Hfree out0 out1 out2.
    assert (Hrest : forall s,
              scan_in_registration_order 2 rest rq s = (None, s, [])).
    { intros s. apply scan_no_match.
      apply (List.Forall_impl _ (fun e (H : free_slot e) => or_introl H)).
      exact Hfree. }
    rewrite Heq. unfold dispatch_in_registration_order. rewrite Htable.
    cbn [scan_in_registration_order]. rewrite Hcb0, Hcb1.
    unfold matches in Hm0, Hm1. rewrite Hm0, Hm1.
    cbv zeta. fold out0. fold out1. rewrite Hrest. fold out2.
    unfold decides.
    destruct (fst out0 =? QUSB_REQ_HANDLED) eqn:E0.
    { apply Z.eqb_eq in E0. cbn [orb].
      split; [intros _; rewrite E0; reflexivity|].
      split; intros; discriminate. }
    destruct (fst out0 =? QUSB_REQ_NOTSUPP) eqn:E0'.
    { apply Z.eqb_eq in E0'. cbn [orb].
      split; [intros _; rewrite E0'; reflexivity|].
      split; intros; discriminate. }
    cbn [orb]. split; [intros; discriminate|].
    destruct (fst out1 =? QUSB_REQ_HANDLED) eqn:E1.
    { apply Z.eqb_eq in E1. cbn [orb].
      split; [intros _ _; rewrite E1; reflexivity|intros; discriminate]. }
    destruct (fst out1 =? QUSB_REQ_NOTSUPP) eqn:E1'.
    { apply Z.eqb_eq in E1'. cbn [orb].
      split; [intros _ _; rewrite E1'; reflexivity|intros; discriminate]. }
    cbn [orb]. split; [intros; discriminate|].
    intros _ _. reflexivity.
Qed.

(** *** The event handlers, case by case *)

Ltac run_engine :=
  unfold _qusb_control_setup, _qusb_control_out, _qusb_control_in,
    handle_request_no_data, prepare_data_out, read_data_out, send_data_in,
    stall, qusb_dev_ep_read_packet, qusb_dev_ep_write_packet,
    qusb_dev_ep_stall_set, _qusb_dev_set_address,
    set_state, set_req, set_ctrl_buf, set_ctrl_len, set_completion,
    bind, get, modify, emit, ret;
  cbv beta iota zeta.

Lemma stall_eq dev : stall dev = (tt, stalled dev, [EpStallSet 0 1]).
Proof. reflexivity. Qed.

Lemma send_data_in_partial dev :
  bMaxPacketSize0 dev < ctrl_len (control_state dev) ->
  send_data_in dev
  = (tt,
     with_control_state (fun c =>
       {| state := DATA_IN;
          req := req_set_wLength
                   (u16 (wLength (req c) - bMaxPacketSize0 dev)) (req c);
          ctrl_buf := ctrl_buf c + bMaxPacketSize0 dev;
          ctrl_len := u16 (ctrl_len c - bMaxPacketSize0 dev);
          completion := completion c |}) dev,
     [EpWritePacket 0 (ctrl_buf (control_state dev)) (bMaxPacketSize0 dev)]).
Proof.
  intros H. run_engine.
  destruct (Z.ltb_spec (bMaxPacketSize0 dev) (ctrl_len (control_state dev)));
    [reflexivity|lia].
Qed.

Lemma send_data_in_last dev :
  ctrl_len (control_state dev) <= bMaxPacketSize0 dev ->
  send_data_in dev
  = (tt,
     with_control_state (fun c =>
       {| state :=
            if (ctrl_len c =? bMaxPacketSize0 dev)
               && (ctrl_len c <? wLength (req c))
            then DATA_IN else LAST_DATA_IN;
          req := req c;
          ctrl_buf := NULL;
          ctrl_len := 0;
          completion := completion c |}) dev,
     [EpWritePacket 0 (ctrl_buf (control_state dev))
        (ctrl_len (control_state dev))]).
Proof.
  intros H. run_engine.
  destruct (Z.ltb_spec (bMaxPacketSize0 dev) (ctrl_len (control_state dev)));
    [lia|].
  unfold with_control_state. cbn.
  destruct ((ctrl_len (control_state dev) =? bMaxPacketSize0 dev)
            && (ctrl_len (control_state dev)
                <? wLength (req (control_state dev)))); reflexivity.
Qed.

Lemma on_in_eq dev :
  on_in dev =
  match state (control_state dev) with
  | DATA_IN => send_data_in dev
  | LAST_DATA_IN =>
      (tt, with_control_state (cs_set_state STATUS_OUT) dev, [])
  | STATUS_IN =>
      (tt, stalled dev,
       match completion (control_state dev) with
       | Some f => [Completion f (req (control_state dev))]
       | None => []
       end ++
       (if (bmRequestType (req (control_state dev)) =? 0)
           && (bRequest (req (control_state dev)) =? QUSB_REQ_SET_ADDRESS)
        then [SetAddress (wValue (req (control_state dev)))] else []))
  | _ => (tt, stalled dev, [EpStallSet 0 1])
  end.
Proof.
  unfold _qusb_control_in, bind at 1, get at 1. cbv beta iota zeta.
  destruct (state (control_state dev)); try reflexivity.
  - destruct (send_data_in dev) as [[u d] t]. destruct u. reflexivity.
  - run_engine.
    destruct (completion (control_state dev));
      destruct ((bmRequestType (req (control_state dev)) =? 0)
                && (bRequest (req (control_state dev))
                    =? QUSB_REQ_SET_ADDRESS)); reflexivity.
Qed.

Lemma packetsize_nonneg dev : 0 <= packetsize dev.
Proof.
  unfold packetsize, min_u16, u16.
  apply Z.min_glb; apply Z.mod_pos_bound; lia.
Qed.

Lemma read_data_out_eq rx dev :
  read_data_out rx dev =
  if u16 rx =? packetsize dev
  then (packetsize dev, received rx dev, [data_out_read dev])
  else (-1, stalled dev, [data_out_read dev; EpStallSet 0 1]).
Proof.
  run_engine. fold (packetsize dev).
  destruct (u16 rx =? packetsize dev); reflexivity.
Qed.

Lemma on_out_eq rx dev :
  on_out rx dev =
  match state (control_state dev) with
  | DATA_OUT =>
      if u16 rx =? packetsize dev then
        (tt,
         (if wLength (req (control_state dev))
             - ctrl_len (control_state (received rx dev))
             <=? bMaxPacketSize0 dev
          then with_control_state (cs_set_state LAST_DATA_OUT)
                 (received rx dev)
          else received rx dev),
         [data_out_read dev])
      else (tt, stalled dev, [data_out_read dev; EpStallSet 0 1])
  | LAST_DATA_OUT =>
      if u16 rx =? packetsize dev then
        let '(rc, d1, t1) :=
          dispatch (req (control_state dev)) (received rx dev) in
        if negb (rc =? 0)
        then (tt, with_control_state (cs_set_state STATUS_IN) d1,
              data_out_read dev :: t1 ++ [EpWritePacket 0 NULL 0])
        else (tt, stalled d1, data_out_read dev :: t1 ++ [EpStallSet 0 1])
      else (tt, stalled dev, [data_out_read dev; EpStallSet 0 1])
  | STATUS_OUT =>
      (tt, with_control_state (cs_set_completion None) (stalled dev),
       EpReadPacket 0 (ToBuffer NULL) 0 ::
       match completion (control_state dev) with
       | Some f => [Completion f (req (control_state dev))]
       | None => []
       end)
  | _ => (tt, stalled dev, [EpStallSet 0 1])
  end.
Proof.
  unfold _qusb_control_out, bind at 1, get at 1. cbv beta iota zeta.
  destruct (state (control_state dev)); try reflexivity.
  - (* DATA_OUT *)
    unfold bind at 1. rewrite read_data_out_eq.
    destruct (u16 rx =? packetsize dev).
    + pose proof (packetsize_nonneg dev).
      destruct (Z.ltb_spec (packetsize dev) 0); [lia|].
      run_engine. cbn.
      destruct (_ <=? _); reflexivity.
    + reflexivity.
  - (* LAST_DATA_OUT *)
    unfold bind at 1. rewrite read_data_out_eq.
    destruct (u16 rx =? packetsize dev).
    + pose proof (packetsize_nonneg dev).
      destruct (Z.ltb_spec (packetsize dev) 0); [lia|].
      unfold bind, get. cbv beta iota zeta. cbn [received].
      change (req (control_state (received rx dev)))
        with (req (control_state dev)).
      destruct (dispatch _ (received rx dev)) as [[rc d1] t1].
      destruct (negb (rc =? 0)); reflexivity.
    + reflexivity.
  - (* STATUS_OUT *)
    run_engine. cbn [control_state with_control_state completion cs_set_state].
    destruct (completion (control_state dev)); reflexivity.
Qed.

Lemma on_setup_eq rx pkt dev :
  on_setup rx pkt dev =
  if rx =? 8 then
    if (wLength pkt =? 0)
       || (Z.land (bmRequestType pkt) QUSB_REQ_TYPE_DIRECTION_MASK
           =? QUSB_REQ_TYPE_IN)
    then
      let '(rc, d1, t1) := dispatch pkt (staged_for_dispatch pkt dev) in
      if negb (rc =? 0) then
        if 0 <? wLength (req (control_state d1)) then
          let '(_, d2, t2) := send_data_in d1 in
          (tt, d2, EpReadPacket 0 ToSetupData 8 :: t1 ++ t2)
        else
          (tt, with_control_state (cs_set_state STATUS_IN) d1,
           EpReadPacket 0 ToSetupData 8 :: t1 ++ [EpWritePacket 0 NULL 0])
      else
        (tt, stalled d1,
         EpReadPacket 0 ToSetupData 8 :: t1 ++ [EpStallSet 0 1])
    else if ctrl_buf_len dev <? wLength pkt then
      (tt, stalled (loaded pkt dev),
       [EpReadPacket 0 ToSetupData 8; EpStallSet 0 1])
    else
      (tt, prepared pkt dev, [EpReadPacket 0 ToSetupData 8])
  else
    (tt, stalled (loaded pkt dev),
     [EpReadPacket 0 ToSetupData 8; EpStallSet 0 1]).
Proof.
  unfold _qusb_control_setup, handle_request_no_data, prepare_data_out,
    stall, qusb_dev_ep_read_packet, qusb_dev_ep_write_packet,
    qusb_dev_ep_stall_set, set_state, set_req, set_ctrl_buf, set_ctrl_len,
    set_completion, bind, get, modify, emit, ret.
  cbv beta iota zeta. cbn [negb].
  destruct (rx =? 8); cbn [negb]; [|reflexivity].
  cbn [control_state with_control_state req cs_set_req cs_set_completion
       wLength bmRequestType ctrl_buf_len bMaxPacketSize0 dev_ctrl_buf].
  destruct ((wLength pkt =? 0) || _).
  - change (with_control_state _ (with_control_state _ (with_control_state _
              (with_control_state _ dev))))
      with (staged_for_dispatch pkt dev).
    change (req (control_state (with_control_state (cs_set_req pkt)
              (with_control_state (cs_set_completion None) dev))))
      with pkt.
    destruct (dispatch pkt (staged_for_dispatch pkt dev)) as [[rc d1] t1].
    destruct (negb (rc =? 0)); [|reflexivity].
    destruct (0 <? wLength (req (control_state d1))); [|reflexivity].
    destruct (send_data_in d1) as [[[] d2] t2]. reflexivity.
  - simpl.
    destruct (ctrl_buf_len dev <? wLength pkt); [reflexivity|].
    unfold prepared, with_control_state. simpl.
    destruct (bMaxPacketSize0 dev <? wLength pkt); reflexivity.
Qed.

(** *** Runs of events *)

Lemma run_cons e evs dev :
  device_of (run_events (e :: evs) dev)
  = device_of (run_events evs (device_of (on_event e dev))) /\
  calls_of (run_events (e :: evs) dev)
  = calls_of (on_event e dev)
    ++ calls_of (run_events evs (device_of (on_event e dev))).
Proof.
  cbn [run]. unfold bind.
  destruct (on_event e dev) as [[u d1] t1].
  unfold device_of, calls_of. cbn [fst snd].
  destruct (run_events evs d1) as [[u' d2] t2]. split; reflexivity.
Qed.

Lemma run_app evs1 : forall evs2 dev,
  device_of (run_events (evs1 ++ evs2) dev)
  = device_of (run_events evs2 (device_of (run_events evs1 dev))) /\
  calls_of (run_events (evs1 ++ evs2) dev)
  = calls_of (run_events evs1 dev)
    ++ calls_of (run_events evs2 (device_of (run_events evs1 dev))).
Proof.
  induction evs1 as [|e evs1 IH]; intros evs2 dev.
  - split; reflexivity.
  - rewrite <- app_comm_cons.
    destruct (run_cons e (evs1 ++ evs2) dev) as [-> ->].
    destruct (run_cons e evs1 dev) as [-> ->].
    destruct (IH evs2 (device_of (on_event e dev))) as [-> ->].
    split; [reflexivity|]. rewrite app_assoc. reflexivity.
Qed.

Lemma no_setup_cons e evs :
  no_setup (e :: evs) -> is_setup e = false /\ no_setup evs.
Proof.
  unfold no_setup. cbn [forallb]. intros H.
  apply andb_prop in H. destruct H as [He Hevs].
  split; [|assumption]. destruct (is_setup e); [discriminate|reflexivity].
Qed.

Lemma no_setup_app evs1 evs2 :
  no_setup (evs1 ++ evs2) -> no_setup evs1 /\ no_setup evs2.
Proof.
  unfold no_setup. rewrite forallb_app. intros H.
  apply andb_prop in H. exact H.
Qed.

Lemma filter_repeat_false (p : call -> bool) c n :
  p c = false -> List.filter p (repeat c n) = [].
Proof.
  intros Hp. induction n as [|n IH]; [reflexivity|].
  cbn [repeat List.filter]. rewrite Hp. exact IH.
Qed.

(** From IDLE, IN and OUT events are answered by stalls and nothing else;
    only a SETUP leaves IDLE. *)
Lemma idle_step e dev :
  state (control_state dev) = IDLE -> is_setup e = false ->
  on_event e dev = (tt, stalled dev, [EpStallSet 0 1]).
Proof.
  intros Hidle He. destruct e as [rx pkt|rx|]; [discriminate| |];
    cbn [handle_event].
  - rewrite on_out_eq, Hidle. reflexivity.
  - rewrite on_in_eq, Hidle. reflexivity.
Qed.

Lemma idle_run evs : forall dev,
  state (control_state dev) = IDLE -> no_setup evs ->
  state (control_state (device_of (run_events evs dev))) = IDLE /\
  calls_of (run_events evs dev) = repeat (EpStallSet 0 1) (length evs).
Proof.
  induction evs as [|e evs IH]; intros dev Hidle Hns.
  - split; [exact Hidle|reflexivity].
  - apply no_setup_cons in Hns. destruct Hns as [He Hns].
    destruct (run_cons e evs dev) as [-> ->].
    rewrite (idle_step e dev Hidle He).
    unfold device_of, calls_of. cbn [fst snd].
    destruct (IH (stalled dev) eq_refl Hns) as [Hs Hc].
    unfold device_of, calls_of in Hs, Hc. rewrite Hs, Hc.
    split; reflexivity.
Qed.

(** C7: every protocol violation stalls endpoint 0 and then leaves the
    engine in IDLE: a setup read that does not return 8, an OUT packet
    whose size is not the expected min(max-packet-size-0, remaining
    bytes) in DATA_OUT or LAST_DATA_OUT, an OUT event in any state other
    than DATA_OUT, LAST_DATA_OUT and STATUS_OUT, and an IN event in any
    state other than DATA_IN, LAST_DATA_IN and STATUS_IN.  In each case
    [ep_stall_set] on endpoint 0 is the last call made. *)
Theorem C7_protocol_violations_stall (dev : qusb_device) :
  (forall rx pkt, rx <> 8 ->
     calls_of (on_setup rx pkt dev)
     = [EpReadPacket 0 ToSetupData 8; EpStallSet 0 1] /\
     state (control_state (device_of (on_setup rx pkt dev))) = IDLE)
  /\
  (forall rx, receiving dev ->
     u16 rx <> Z.min (u16 (bMaxPacketSize0 dev))
                 (u16 (wLength (req (control_state dev))
                       - ctrl_len (control_state dev))) ->
     calls_of (on_out rx dev) = [data_out_read dev; EpStallSet 0 1] /\
     state (control_state (device_of (on_out rx dev))) = IDLE)
  /\
  (forall rx,
     state (control_state dev) <> DATA_OUT ->
     state (control_state dev) <> LAST_DATA_OUT ->
     state (control_state dev) <> STATUS_OUT ->
     calls_of (on_out rx dev) = [EpStallSet 0 1] /\
     state (control_state (device_of (on_out rx dev))) = IDLE)
  /\
  (state (control_state dev) <> DATA_IN ->
   state (control_state dev) <> LAST_DATA_IN ->
   state (control_state dev) <> STATUS_IN ->
   calls_of (on_in dev) = [EpStallSet 0 1] /\
   state (control_state (device_of (on_in dev))) = IDLE).
Proof.
  repeat split.
  - rewrite on_setup_eq. destruct (Z.eqb_spec rx 8); [contradiction|].
    reflexivity.
  - rewrite on_setup_eq. destruct (Z.eqb_spec rx 8); [contradiction|].
    reflexivity.
  - rewrite on_out_eq.
    fold (min_u16 (bMaxPacketSize0 dev)
            (wLength (req (control_state dev))
             - ctrl_len (control_state dev))) in H0.
    fold (packetsize dev) in H0.
    destruct (Z.eqb_spec (u16 rx) (packetsize dev)); [contradiction|].
    destruct H as [-> | ->]; reflexivity.
  - rewrite on_out_eq.
    fold (min_u16 (bMaxPacketSize0 dev)
            (wLength (req (control_state dev))
             - ctrl_len (control_state dev))) in H0.
    fold (packetsize dev) in H0.
    destruct (Z.eqb_spec (u16 rx) (packetsize dev)); [contradiction|].
    destruct H as [-> | ->]; reflexivity.
  - rewrite on_out_eq.
    destruct (state (control_state dev)); try contradiction; reflexivity.
  - rewrite on_out_eq.
    destruct (state (control_state dev)); try contradiction; reflexivity.
  - rewrite on_in_eq.
    destruct (state (control_state dev)); try contradiction; reflexivity.
  - rewrite on_in_eq.
    destruct (state (control_state dev)); try contradiction; reflexivity.
Qed.

(** C6: a SETUP with direction OUT and wLength > 0 whose wLength exceeds
    [ctrl_buf_len] is stalled at once, and no packet is read for the rest
    of the transfer, whatever IN and OUT events follow; otherwise the
    engine sets ctrl_len = 0, points ctrl_buf at the device's control
    buffer and enters DATA_OUT when wLength exceeds max-packet-size-0 and
    LAST_DATA_OUT when it does not. *)
Theorem C6_setup_out_validates_wLength
    (dev : qusb_device) (pkt : qusb_setup_data) :
  0 < wLength pkt ->
  Z.land (bmRequestType pkt) QUSB_REQ_TYPE_DIRECTION_MASK
    <> QUSB_REQ_TYPE_IN ->
  let r := on_setup 8 pkt dev in
  (ctrl_buf_len dev < wLength pkt ->
     calls_of r = [EpReadPacket 0 ToSetupData 8; EpStallSet 0 1] /\
     state (control_state (device_of r)) = IDLE /\
     forall evs, no_setup evs ->
       List.filter is_read_packet
         (calls_of (run_events evs (device_of r))) = []
       /\ state (control_state (device_of (run_events evs (device_of r))))
          = IDLE)
  /\
  (wLength pkt <= ctrl_buf_len dev ->
     calls_of r = [EpReadPacket 0 ToSetupData 8] /\
     ctrl_len (control_state (device_of r)) = 0 /\
     ctrl_buf (control_state (device_of r)) = dev_ctrl_buf dev /\
     state (control_state (device_of r))
     = if bMaxPacketSize0 dev <? wLength pkt
       then DATA_OUT else LAST_DATA_OUT).
Proof.
  intros Hlen Hdir r. subst r. rewrite on_setup_eq. cbn [Z.eqb Pos.eqb].
  destruct (Z.eqb_spec (wLength pkt) 0); [lia|].
  destruct (Z.eqb_spec
              (Z.land (bmRequestType pkt) QUSB_REQ_TYPE_DIRECTION_MASK)
              QUSB_REQ_TYPE_IN); [contradiction|].
  cbn [orb]. split; intros Hcap.
  - destruct (Z.ltb_spec (ctrl_buf_len dev) (wLength pkt)); [|lia].
    split; [reflexivity|]. split; [reflexivity|].
    intros evs Hns.
    destruct (idle_run evs (stalled (loaded pkt dev)) eq_refl Hns)
      as [Hs Hc].
    unfold device_of, calls_of in *. cbn [fst snd].
    split; [|exact Hs]. rewrite Hc.
    apply filter_repeat_false. reflexivity.
  - destruct (Z.ltb_spec (ctrl_buf_len dev) (wLength pkt)); [lia|].
    repeat split; reflexivity.
Qed.

(** *** What each event can call *)

Lemma handler_calls_filter (p : call -> bool) t :
  (forall c, is_handler_call c = true -> p c = false) ->
  forallb is_handler_call t = true ->
  List.filter p t = [].
Proof.
  intros Hp. induction t as [|c t IH]; [reflexivity|].
  cbn [forallb List.filter]. intros H.
  apply andb_prop in H. destruct H as [Hc Ht].
  rewrite (Hp c Hc). apply IH. exact Ht.
Qed.

Lemma handler_calls_not_in t c :
  is_handler_call c = false ->
  forallb is_handler_call t = true -> ~ In c t.
Proof.
  intros Hc Ht Hin. rewrite forallb_forall in Ht.
  specialize (Ht c Hin). congruence.
Qed.

Lemma send_data_in_calls dev :
  exists buf len, calls_of (send_data_in dev) = [EpWritePacket 0 buf len].
Proof.
  destruct (Z.lt_ge_cases (bMaxPacketSize0 dev) (ctrl_len (control_state dev))).
  - rewrite send_data_in_partial by assumption. eauto.
  - rewrite send_data_in_last by lia. eauto.
Qed.

Ltac split_in H :=
  repeat first
    [ rewrite in_app_iff in H
    | progress cbn [In snd] in H
    | match type of H with
      | _ \/ _ => destruct H as [H|H]
      | False => contradiction
      | @eq call _ _ => discriminate H
      end ].

Lemma setup_no_set_address rx pkt dev a :
  ~ In (SetAddress a) (calls_of (on_setup rx pkt dev)).
Proof.
  intros Hin. rewrite on_setup_eq in Hin.
  destruct (rx =? 8); [|unfold calls_of in Hin; split_in Hin].
  destruct ((wLength pkt =? 0) || _).
  - destruct (dispatch_frame pkt (staged_for_dispatch pkt dev)) as [_ Hq].
    destruct (dispatch pkt (staged_for_dispatch pkt dev)) as [[rc d1] t1].
    unfold calls_of in Hq. cbn [snd] in Hq.
    pose proof (handler_calls_not_in t1 (SetAddress a) eq_refl Hq) as Hno.
    destruct (negb (rc =? 0)).
    + destruct (0 <? wLength (req (control_state d1))).
      * destruct (send_data_in_calls d1) as (b & n & Hs).
        destruct (send_data_in d1) as [[[] d2] t2].
        unfold calls_of in *. cbn [snd] in *. subst t2. split_in Hin.
        contradiction.
      * unfold calls_of in Hin. split_in Hin. contradiction.
    + unfold calls_of in Hin. split_in Hin. contradiction.
  - destruct (ctrl_buf_len dev <? wLength pkt);
      unfold calls_of in Hin; split_in Hin.
Qed.

Lemma out_no_set_address rx dev a :
  ~ In (SetAddress a) (calls_of (on_out rx dev)).
Proof.
  intros Hin. rewrite on_out_eq in Hin.
  destruct (state (control_state dev));
    try (unfold calls_of in Hin; split_in Hin; fail).
  - destruct (u16 rx =? packetsize dev);
      unfold calls_of, data_out_read in Hin; split_in Hin.
  - destruct (u16 rx =? packetsize dev);
      [|unfold calls_of, data_out_read in Hin; split_in Hin].
    destruct (dispatch_frame (req (control_state dev)) (received rx dev))
      as [_ Hq].
    destruct (dispatch _ (received rx dev)) as [[rc d1] t1].
    unfold calls_of in Hq. cbn [snd] in Hq.
    pose proof (handler_calls_not_in t1 (SetAddress a) eq_refl Hq) as Hno.
    destruct (negb (rc =? 0));
      unfold calls_of, data_out_read in Hin; split_in Hin; contradiction.
  - destruct (completion (control_state dev));
      unfold calls_of in Hin; split_in Hin.
Qed.

(** C4: the device address is applied ([_qusb_dev_set_address] is
    called) by exactly one kind of event: the IN event that fires in
    STATUS_IN while the request held by the engine is the standard
    SET_ADDRESS request (bmRequestType = 0, bRequest = SET_ADDRESS), and
    the address applied is the request's wValue.  No SETUP event, no OUT
    event and no IN event of the data stage applies an address. *)
Theorem C4_set_address_only_at_status_in
    (dev : qusb_device) (e : ep0_event) (a : Z) :
  In (SetAddress a) (calls_of (on_event e dev))
  <->
  e = IN /\
  state (control_state dev) = STATUS_IN /\
  bmRequestType (req (control_state dev)) = 0 /\
  bRequest (req (control_state dev)) = QUSB_REQ_SET_ADDRESS /\
  a = wValue (req (control_state dev)).
Proof.
  split.
  - intros Hin. destruct e as [rx pkt|rx|]; cbn [handle_event] in Hin.
    + exfalso. exact (setup_no_set_address rx pkt dev a Hin).
    + exfalso. exact (out_no_set_address rx dev a Hin).
    + rewrite on_in_eq in Hin.
      destruct (state (control_state dev)) eqn:Hst;
        try (unfold calls_of in Hin; split_in Hin; fail).
      * destruct (send_data_in_calls dev) as (b & n & Hs).
        rewrite Hs in Hin. split_in Hin.
      * destruct (Z.eqb_spec (bmRequestType (req (control_state dev))) 0)
          as [Hty|Hty];
        destruct (Z.eqb_spec (bRequest (req (control_state dev)))
                    QUSB_REQ_SET_ADDRESS) as [Hrq|Hrq];
        destruct (completion (control_state dev));
        unfold calls_of in Hin; cbn [snd andb app] in Hin; split_in Hin.
        all: injection Hin as <-; auto.
  - intros (-> & Hst & Hty & Hrq & ->). cbn [handle_event].
    rewrite on_in_eq, Hst, Hty, Hrq. cbn [Z.eqb andb].
    unfold calls_of. cbn [snd]. apply in_app_iff. right.
    rewrite Z.eqb_refl. cbn. left. reflexivity.
Qed.

(** *** Completion callbacks *)

Lemma completions_app a b :
  completions (a ++ b) = completions a ++ completions b.
Proof. unfold completions. apply List.filter_app. Qed.

Lemma handler_calls_quiet t :
  forallb is_handler_call t = true ->
  completions t = [] /\ existsb is_stall t = false.
Proof.
  intros H. split.
  - apply handler_calls_filter; [|exact H]. intros [] Hc; try discriminate;
      reflexivity.
  - induction t as [|c t IH]; [reflexivity|].
    cbn [forallb] in H. apply andb_prop in H. destruct H as [Hc Ht].
    cbn [existsb]. rewrite (IH Ht).
    destruct c; try discriminate; reflexivity.
Qed.

Lemma status_stage_finishes_dec dev e :
  {status_stage_finishes dev e} + {~ status_stage_finishes dev e}.
Proof.
  unfold status_stage_finishes.
  destruct (state (control_state dev)), e; (left; exact I) || (right; tauto).
Qed.

(** The event that ends the status stage calls the registered completion
    callback, once, and stalls nothing. *)
Lemma step_status_stage e dev :
  status_stage_finishes dev e ->
  completions (calls_of (on_event e dev))
  = match completion (control_state dev) with
    | Some f => [Completion f (req (control_state dev))]
    | None => []
    end /\
  state (control_state (device_of (on_event e dev))) = IDLE /\
  existsb is_stall (calls_of (on_event e dev)) = false.
Proof.
  unfold status_stage_finishes. intros H.
  destruct (state (control_state dev)) eqn:Hst, e as [rx pkt|rx|];
    try contradiction; cbn [handle_event].
  - rewrite on_in_eq, Hst.
    destruct (completion (control_state dev));
      destruct ((bmRequestType (req (control_state dev)) =? 0)
                && (bRequest (req (control_state dev))
                    =? QUSB_REQ_SET_ADDRESS)); repeat split; reflexivity.
  - rewrite on_out_eq, Hst.
    destruct (completion (control_state dev)); repeat split; reflexivity.
Qed.

(** Any other event calls no completion callback, and leaves the engine
    in IDLE when it stalls. *)
Lemma step_other e dev :
  ~ status_stage_finishes dev e ->
  completions (calls_of (on_event e dev)) = [] /\
  (existsb is_stall (calls_of (on_event e dev)) = true ->
   state (control_state (device_of (on_event e dev))) = IDLE).
Proof.
  unfold status_stage_finishes. intros H.
  destruct e as [rx pkt|rx|]; cbn [handle_event].
  - (* SETUP *)
    rewrite on_setup_eq.
    destruct (rx =? 8); [|split; reflexivity].
    destruct ((wLength pkt =? 0) || _).
    + destruct (dispatch_frame pkt (staged_for_dispatch pkt dev)) as [_ Hq].
      destruct (dispatch pkt (staged_for_dispatch pkt dev)) as [[rc d1] t1].
      unfold calls_of in Hq. cbn [snd] in Hq.
      apply handler_calls_quiet in Hq. destruct Hq as [Hc Hs].
      destruct (negb (rc =? 0)).
      * destruct (0 <? wLength (req (control_state d1))).
        -- destruct (send_data_in_calls d1) as (b & n & Hw).
           destruct (send_data_in d1) as [[[] d2] t2].
           unfold calls_of, device_of in *. cbn [fst snd] in *. subst t2.
           change (EpReadPacket 0 ToSetupData 8 :: t1 ++ [EpWritePacket 0 b n])
             with ([EpReadPacket 0 ToSetupData 8] ++ t1
                   ++ [EpWritePacket 0 b n]).
           rewrite !completions_app, Hc, !existsb_app, Hs.
           split; [reflexivity|discriminate].
        -- unfold calls_of, device_of. cbn [fst snd].
           change (EpReadPacket 0 ToSetupData 8
                   :: t1 ++ [EpWritePacket 0 NULL 0])
             with ([EpReadPacket 0 ToSetupData 8] ++ t1
                   ++ [EpWritePacket 0 NULL 0]).
           rewrite !completions_app, Hc, !existsb_app, Hs.
           split; [reflexivity|discriminate].
      * unfold calls_of, device_of. cbn [fst snd].
        change (EpReadPacket 0 ToSetupData 8 :: t1 ++ [EpStallSet 0 1])
          with ([EpReadPacket 0 ToSetupData 8] ++ t1 ++ [EpStallSet 0 1]).
        rewrite !completions_app, Hc. split; reflexivity.
    + destruct (ctrl_buf_len dev <? wLength pkt);
        (split; [reflexivity|]); [reflexivity|discriminate].
  - (* OUT *)
    rewrite on_out_eq.
    destruct (state (control_state dev)) eqn:Hst;
      try (split; reflexivity); try (exfalso; apply H; exact I).
    + destruct (u16 rx =? packetsize dev);
        (split; [reflexivity|]); [discriminate|reflexivity].
    + destruct (u16 rx =? packetsize dev); [|split; reflexivity].
      destruct (dispatch_frame (req (control_state dev)) (received rx dev))
        as [_ Hq].
      destruct (dispatch _ (received rx dev)) as [[rc d1] t1].
      unfold calls_of in Hq. cbn [snd] in Hq.
      apply handler_calls_quiet in Hq. destruct Hq as [Hc Hs].
      destruct (negb (rc =? 0)); unfold calls_of, device_of; cbn [fst snd].
      * change (data_out_read dev :: t1 ++ [EpWritePacket 0 NULL 0])
          with ([data_out_read dev] ++ t1 ++ [EpWritePacket 0 NULL 0]).
        rewrite !completions_app, Hc, !existsb_app, Hs.
        split; [reflexivity|discriminate].
      * change (data_out_read dev :: t1 ++ [EpStallSet 0 1])
          with ([data_out_read dev] ++ t1 ++ [EpStallSet 0 1]).
        rewrite !completions_app, Hc. split; reflexivity.
  - (* IN *)
    rewrite on_in_eq.
    destruct (state (control_state dev)) eqn:Hst;
      try (split; reflexivity); try (exfalso; apply H; exact I).
    + destruct (send_data_in_calls dev) as (b & n & Hw). rewrite Hw.
      split; [reflexivity|discriminate].
    + split; [reflexivity|discriminate].
Qed.

Lemma completions_stalls n : completions (repeat (EpStallSet 0 1) n) = [].
Proof. apply filter_repeat_false. reflexivity. Qed.

Lemma ncas_no_completions t :
  completions t = [] -> no_completion_after_stall t = true.
Proof.
  induction t as [|c t IH]; [reflexivity|].
  unfold completions. cbn [List.filter no_completion_after_stall].
  destruct (is_completion c) eqn:Hc; [discriminate|].
  intros Ht. rewrite (IH Ht), andb_true_r.
  destruct (is_stall c); [|reflexivity].
  apply forallb_forall. intros x Hx.
  destruct (is_completion x) eqn:Hx'; [|reflexivity].
  exfalso.
  assert (Hin : In x (List.filter is_completion t)).
  { apply List.filter_In. split; assumption. }
  rewrite Ht in Hin. exact Hin.
Qed.

Lemma ncas_app_no_stall a b :
  existsb is_stall a = false ->
  no_completion_after_stall (a ++ b) = no_completion_after_stall b.
Proof.
  induction a as [|c a IH]; [reflexivity|].
  cbn [existsb app no_completion_after_stall]. intros H.
  apply orb_false_elim in H. destruct H as [Hc Ha].
  rewrite Hc, (IH Ha). reflexivity.
Qed.

Lemma ncas_split t :
  no_completion_after_stall t = true ->
  forall t1 c t2, t = t1 ++ c :: t2 -> is_stall c = true ->
  completions t2 = [].
Proof.
  intros Ht t1. revert t Ht.
  induction t1 as [|x t1 IH]; intros t Ht c t2 -> Hc.
  - cbn [app no_completion_after_stall] in Ht. rewrite Hc in Ht.
    apply andb_prop in Ht. destruct Ht as [Hall _].
    unfold completions. clear -Hall.
    induction t2 as [|y t2 IH]; [reflexivity|].
    cbn [forallb] in Hall. apply andb_prop in Hall.
    destruct Hall as [Hy Hall]. cbn [List.filter].
    destruct (is_completion y); [discriminate|]. apply IH. exact Hall.
  - cbn [app no_completion_after_stall] in Ht.
    apply andb_prop in Ht. destruct Ht as [_ Ht].
    exact (IH _ Ht c t2 eq_refl Hc).
Qed.

(** While the engine has not returned to IDLE, the events handled since
    a given point have called no completion and stalled nothing. *)
Lemma live_step e evs dev :
  no_setup evs ->
  (forall dev',
     state (control_state (device_of (run_events evs dev'))) <> IDLE ->
     completions (calls_of (run_events evs dev')) = [] /\
     existsb is_stall (calls_of (run_events evs dev')) = false) ->
  state (control_state (device_of (run_events (e :: evs) dev))) <> IDLE ->
  completions (calls_of (run_events (e :: evs) dev)) = [] /\
  existsb is_stall (calls_of (run_events (e :: evs) dev)) = false.
Proof.
  intros Hns IH. destruct (run_cons e evs dev) as [-> ->]. intros Hlive.
  assert (Hd1 : state (control_state (device_of (on_event e dev))) <> IDLE).
  { intros Hidle.
    apply Hlive. apply (idle_run evs _ Hidle Hns). }
  destruct (status_stage_finishes_dec dev e) as [Hfin|Hfin].
  - exfalso. apply Hd1. apply (step_status_stage e dev Hfin).
  - destruct (step_other e dev Hfin) as [Hc Hs].
    destruct (IH _ Hlive) as [Hc' Hs'].
    rewrite completions_app, Hc, Hc', existsb_app, Hs'.
    split; [reflexivity|].
    destruct (existsb is_stall (calls_of (on_event e dev)));
      [exfalso; apply Hd1; apply Hs|]; reflexivity.
Qed.

Lemma live_run evs : forall dev,
  no_setup evs ->
  state (control_state (device_of (run_events evs dev))) <> IDLE ->
  completions (calls_of (run_events evs dev)) = [] /\
  existsb is_stall (calls_of (run_events evs dev)) = false.
Proof.
  induction evs as [|e evs IH]; intros dev Hns Hlive.
  - split; reflexivity.
  - apply no_setup_cons in Hns. destruct Hns as [_ Hns].
    apply live_step; auto.
Qed.

(** One event followed by the rest of a transfer: at most one
    completion call, and none after a stall. *)
Lemma transfer_step e evs dev :
  no_setup evs ->
  (forall dev',
     (length (completions (calls_of (run_events evs dev'))) <= 1)%nat /\
     no_completion_after_stall (calls_of (run_events evs dev')) = true) ->
  (length (completions (calls_of (run_events (e :: evs) dev))) <= 1)%nat /\
  no_completion_after_stall (calls_of (run_events (e :: evs) dev)) = true.
Proof.
  intros Hns IH. destruct (run_cons e evs dev) as [_ ->].
  set (d1 := device_of (on_event e dev)).
  destruct (status_stage_finishes_dec dev e) as [Hfin|Hfin].
  - destruct (step_status_stage e dev Hfin) as (Hc & Hidle & Hs).
    destruct (idle_run evs d1 Hidle Hns) as [_ Hrest].
    rewrite Hrest, completions_app, completions_stalls, app_nil_r, Hc.
    rewrite (ncas_app_no_stall _ _ Hs).
    split.
    + destruct (completion (control_state dev)); cbn; lia.
    + apply ncas_no_completions, completions_stalls.
  - destruct (step_other e dev Hfin) as [Hc Hs].
    destruct (existsb is_stall (calls_of (on_event e dev))) eqn:Hst.
    + destruct (idle_run evs d1 (Hs eq_refl) Hns) as [_ Hrest].
      assert (Hnone : completions (calls_of (on_event e dev)
                        ++ calls_of (run_events evs d1)) = []).
      { rewrite Hrest, completions_app, completions_stalls, Hc.
        reflexivity. }
      rewrite (ncas_no_completions _ Hnone), Hnone.
      split; [cbn; lia|reflexivity].
    + rewrite completions_app, Hc, (ncas_app_no_stall _ _ Hst).
      apply IH.
Qed.

Lemma transfer_rest evs : forall dev,
  no_setup evs ->
  (length (completions (calls_of (run_events evs dev))) <= 1)%nat /\
  no_completion_after_stall (calls_of (run_events evs dev)) = true.
Proof.
  induction evs as [|e evs IH]; intros dev Hns.
  - split; [cbn; lia|reflexivity].
  - apply no_setup_cons in Hns. destruct Hns as [_ Hns].
    apply transfer_step; auto.
Qed.

(** C3: in a control transfer, the events from one SETUP up to the next,
    the completion callback registered for the transfer is called exactly
    once when the status stage ends (the OUT event in STATUS_OUT, the IN
    event in STATUS_IN), and it is called at most once in the whole
    transfer; it is never called when the transfer is aborted by a stall
    (an event answered by a stall while the transfer is in flight, or the
    SETUP itself), nor after any stall; and what the completion slot held
    before the SETUP, the callback of an earlier transfer, has no
    influence on the transfer, so it is not called during it. *)
Theorem C3_completion_once_per_transfer
    (dev : qusb_device) (rx : Z) (pkt : qusb_setup_data)
    (evs : list ep0_event) :
  no_setup evs ->
  let t := calls_of (run_events (SETUP rx pkt :: evs) dev) in
  (length (completions t) <= 1)%nat
  /\
  (forall pre e post, evs = pre ++ e :: post ->
     let d := device_of (run_events (SETUP rx pkt :: pre) dev) in
     status_stage_finishes d e ->
     completions t
     = match completion (control_state d) with
       | Some f => [Completion f (req (control_state d))]
       | None => []
       end)
  /\
  (forall pre e post, SETUP rx pkt :: evs = pre ++ e :: post ->
     let d := device_of (run_events pre dev) in
     pre = [] \/ state (control_state d) <> IDLE ->
     existsb is_stall (calls_of (on_event e d)) = true ->
     completions t = [])
  /\
  (forall t1 ep s t2, t = t1 ++ EpStallSet ep s :: t2 -> completions t2 = [])
  /\
  (forall f0,
     run_events (SETUP rx pkt :: evs)
       (with_control_state (cs_set_completion f0) dev)
     = run_events (SETUP rx pkt :: evs) dev).
Proof.
  intros Hns t.
  destruct (transfer_step (SETUP rx pkt) evs dev Hns
              (fun d => transfer_rest evs d Hns)) as [Hone Hncas].
  split; [exact Hone|]. split; [|split; [|split]].
  - (* exactly once at the end of the status stage *)
    intros pre e post -> d Hfin. subst t.
    apply no_setup_app in Hns. destruct Hns as [Hpre Hpost].
    apply no_setup_cons in Hpost. destruct Hpost as [_ Hpost].
    change (SETUP rx pkt :: pre ++ e :: post)
      with ((SETUP rx pkt :: pre) ++ e :: post).
    destruct (run_app (SETUP rx pkt :: pre) (e :: post) dev) as [_ ->].
    fold d. destruct (run_cons e post d) as [_ ->].
    destruct (step_status_stage e d Hfin) as (Hc & Hidle & _).
    assert (Hlive : state (control_state d) <> IDLE).
    { unfold status_stage_finishes in Hfin.
      destruct (state (control_state d)); try contradiction; discriminate. }
    destruct (live_step (SETUP rx pkt) pre dev Hpre
                (fun d' => live_run pre d' Hpre) Hlive) as [Hc0 _].
    destruct (idle_run post _ Hidle Hpost) as [_ Hrest].
    rewrite !completions_app, Hc0, Hc, Hrest, completions_stalls.
    rewrite app_nil_r. reflexivity.
  - (* never when aborted by a stall *)
    intros pre e post Heq d Hflight Hstall. subst t. rewrite Heq.
    destruct (run_app pre (e :: post) dev) as [_ ->]. fold d.
    destruct (run_cons e post d) as [_ ->].
    assert (Hpost : no_setup post /\
                    completions (calls_of (run_events pre dev)) = []).
    { destruct pre as [|e0 pre].
      - injection Heq as <- <-. split; [exact Hns|reflexivity].
      - injection Heq as <- ->.
        apply no_setup_app in Hns. destruct Hns as [Hpre Hpost].
        apply no_setup_cons in Hpost. destruct Hpost as [_ Hpost].
        split; [exact Hpost|].
        destruct Hflight as [Hnil|Hlive]; [discriminate|].
        apply (live_step (SETUP rx pkt) pre dev Hpre
                 (fun d' => live_run pre d' Hpre) Hlive). }
    destruct Hpost as [Hpost Hc0].
    destruct (status_stage_finishes_dec d e) as [Hfin|Hfin].
    + destruct (step_status_stage e d Hfin) as (_ & _ & Hs). congruence.
    + destruct (step_other e d Hfin) as [Hc Hs].
      destruct (idle_run post _ (Hs Hstall) Hpost) as [_ Hrest].
      rewrite !completions_app, Hc0, Hc, Hrest, completions_stalls.
      reflexivity.
  - (* never after a stall *)
    intros t1 ep s t2 Ht. exact (ncas_split t Hncas t1 _ t2 Ht eq_refl).
  - (* nothing of an earlier transfer *)
    intros f0. cbn [run handle_event]. unfold bind.
    rewrite !on_setup_eq. reflexivity.
Qed.

(** *** The IN data stage *)

Lemma u16_small z : 0 <= z < 65536 -> u16 z = z.
Proof. intros H. unfold u16. apply Z.mod_small. exact H. Qed.

Lemma send_data_in_times_full n : forall dev,
  0 < bMaxPacketSize0 dev ->
  0 <= ctrl_len (control_state dev) <= wLength (req (control_state dev)) ->
  wLength (req (control_state dev)) < 65536 ->
  Z.of_nat n * bMaxPacketSize0 dev < ctrl_len (control_state dev) ->
  let devn := device_of (send_data_in_times n dev) in
  calls_of (send_data_in_times n dev)
  = full_packets n (ctrl_buf (control_state dev)) (bMaxPacketSize0 dev) /\
  bMaxPacketSize0 devn = bMaxPacketSize0 dev /\
  ctrl_len (control_state devn)
  = ctrl_len (control_state dev) - Z.of_nat n * bMaxPacketSize0 dev /\
  wLength (req (control_state devn))
  = wLength (req (control_state dev)) - Z.of_nat n * bMaxPacketSize0 dev.
Proof.
  induction n as [|n IH]; intros dev Hmps Hlen Hw Hn.
  - cbn. repeat split; lia.
  - rewrite Nat2Z.inj_succ, Z.mul_succ_l in *.
    cbn [send_data_in_times]. unfold bind.
    assert (Hpart : bMaxPacketSize0 dev < ctrl_len (control_state dev))
      by nia.
    rewrite (send_data_in_partial dev Hpart).
    match goal with
    | |- context [send_data_in_times n ?d] => set (d1 := d)
    end.
    assert (Hl1 : ctrl_len (control_state d1)
                  = ctrl_len (control_state dev) - bMaxPacketSize0 dev).
    { subst d1. cbn. apply u16_small. lia. }
    assert (Hw1 : wLength (req (control_state d1))
                  = wLength (req (control_state dev)) - bMaxPacketSize0 dev).
    { subst d1. cbn. apply u16_small. lia. }
    assert (Hm1 : bMaxPacketSize0 d1 = bMaxPacketSize0 dev) by reflexivity.
    assert (Hb1 : ctrl_buf (control_state d1)
                  = ctrl_buf (control_state dev) + bMaxPacketSize0 dev)
      by reflexivity.
    destruct (IH d1) as (Hc & Hm & Hl & Hwl); try rewrite Hm1; try lia.
    clearbody d1.
    destruct (send_data_in_times n d1) as [[[] dn] tn].
    unfold calls_of, device_of in *. cbn [fst snd] in *.
    cbn [full_packets app].
    rewrite Hc, Hm, Hl, Hwl, Hm1, Hl1, Hw1, Hb1.
    repeat split; lia.
Qed.

Lemma zlp_state c m w :
  let s := if (c =? m) && (c <? w) then DATA_IN else LAST_DATA_IN in
  (s = DATA_IN <-> c = m /\ c < w) /\ (s <> DATA_IN -> s = LAST_DATA_IN).
Proof.
  cbv zeta.
  destruct (Z.eqb_spec c m) as [Hcm|Hcm];
    destruct (Z.ltb_spec c w) as [Hcw|Hcw]; cbn [andb]; split;
    try (intros _; reflexivity); try (intros Hne; congruence).
  - split; [intros _; split; assumption|reflexivity].
  - split; [discriminate|intros [_ Hlt]; lia].
  - split; [discriminate|intros [Heq _]; contradiction].
  - split; [discriminate|intros [Heq _]; contradiction].
Qed.

(** C2, as the code has it: a call of [send_data_in] with more than one
    max-packet-size-0 of response left writes a full packet, takes it off
    both ctrl_len and req.wLength and stays in DATA_IN; a call with at
    most one packet left writes that packet and stays in DATA_IN (for a
    zero-length packet) exactly when the packet is full and shorter than
    req.wLength as it then is, i.e. less the full packets already sent,
    and enters LAST_DATA_IN otherwise.  For a response no longer than the
    wLength requested, this is: exactly when the last packet is full and
    the whole response is shorter than the wLength originally
    requested. *)
Theorem C2_send_data_in_chunking (dev : qusb_device) :
  let cs := control_state dev in
  let mps := bMaxPacketSize0 dev in
  (mps < ctrl_len cs ->
     let dev' := device_of (send_data_in dev) in
     calls_of (send_data_in dev) = [EpWritePacket 0 (ctrl_buf cs) mps] /\
     state (control_state dev') = DATA_IN /\
     ctrl_buf (control_state dev') = ctrl_buf cs + mps /\
     ctrl_len (control_state dev') = u16 (ctrl_len cs - mps) /\
     wLength (req (control_state dev')) = u16 (wLength (req cs) - mps))
  /\
  (ctrl_len cs <= mps ->
     let dev' := device_of (send_data_in dev) in
     calls_of (send_data_in dev)
     = [EpWritePacket 0 (ctrl_buf cs) (ctrl_len cs)] /\
     (state (control_state dev') = DATA_IN <->
      ctrl_len cs = mps /\ ctrl_len cs < wLength (req cs)) /\
     (state (control_state dev') <> DATA_IN ->
      state (control_state dev') = LAST_DATA_IN) /\
     ctrl_len (control_state dev') = 0)
  /\
  (forall n : nat,
     0 < mps ->
     0 <= ctrl_len cs <= wLength (req cs) ->
     wLength (req cs) < 65536 ->
     Z.of_nat n * mps < ctrl_len cs <= (Z.of_nat n + 1) * mps ->
     let devn := device_of (send_data_in_times n dev) in
     calls_of (send_data_in_times n dev)
     = full_packets n (ctrl_buf cs) mps /\
     ctrl_len (control_state devn) = ctrl_len cs - Z.of_nat n * mps /\
     ctrl_len (control_state devn) <= bMaxPacketSize0 devn /\
     (state (control_state (device_of (send_data_in devn))) = DATA_IN <->
      ctrl_len (control_state devn) = mps /\
      ctrl_len cs < wLength (req cs))).
Proof.
  intros cs mps. subst cs mps. split; [|split].
  - intros Hpart dev'. subst dev'.
    rewrite (send_data_in_partial dev Hpart). repeat split; reflexivity.
  - intros Hlast dev'. subst dev'.
    rewrite (send_data_in_last dev Hlast).
    unfold device_of, calls_of. cbn.
    destruct (zlp_state (ctrl_len (control_state dev)) (bMaxPacketSize0 dev)
                (wLength (req (control_state dev)))) as [Hiff Helse].
    split; [reflexivity|]. split; [exact Hiff|]. split; [exact Helse|].
    reflexivity.
  - intros n Hmps Hlen Hw [Hlo Hhi] devn.
    destruct (send_data_in_times_full n dev Hmps Hlen Hw Hlo)
      as (Hc & Hm & Hl & Hwl).
    fold devn in Hm, Hl, Hwl.
    assert (Hlast : ctrl_len (control_state devn) <= bMaxPacketSize0 devn)
      by (rewrite Hl, Hm; lia).
    split; [exact Hc|]. split; [exact Hl|]. split; [exact Hlast|].
    rewrite (send_data_in_last devn Hlast).
    unfold device_of. cbn. rewrite Hm.
    destruct (zlp_state (ctrl_len (control_state devn)) (bMaxPacketSize0 dev)
                (wLength (req (control_state devn)))) as [Hiff _].
    rewrite Hiff, Hwl, Hl. split; intros [Heq Hlt]; split; lia.
Qed.

Lemma written_lengths_app a b :
  written_lengths (a ++ b) = written_lengths a ++ written_lengths b.
Proof.
  induction a as [|c a IH]; [reflexivity|].
  destruct c; cbn [app written_lengths]; rewrite IH; reflexivity.
Qed.

Lemma written_lengths_handlers t :
  forallb is_handler_call t = true -> written_lengths t = [].
Proof.
  induction t as [|c t IH]; [reflexivity|].
  cbn [forallb]. intros H. apply andb_prop in H. destruct H as [Hc Ht].
  destruct c; try discriminate; cbn [written_lengths]; auto.
Qed.

Lemma written_lengths_full_packets k : forall buf size,
  written_lengths (full_packets k buf size) = repeat size k.
Proof.
  induction k as [|k IH]; intros buf size; [reflexivity|].
  cbn [full_packets written_lengths repeat]. rewrite IH. reflexivity.
Qed.

(** A response of [j + 1] full packets that is as long as the wLength
    requested: the SETUP sends the first packet, each IN event the next,
    and the last one ends the data stage. *)
Lemma data_in_run j : forall dev,
  0 < bMaxPacketSize0 dev ->
  ctrl_len (control_state dev) = (Z.of_nat j + 1) * bMaxPacketSize0 dev ->
  wLength (req (control_state dev)) = ctrl_len (control_state dev) ->
  ctrl_len (control_state dev) < 65536 ->
  let d1 := device_of (send_data_in dev) in
  let dn := device_of (run_events (repeat IN j) d1) in
  calls_of (send_data_in dev) ++ calls_of (run_events (repeat IN j) d1)
  = full_packets (S j) (ctrl_buf (control_state dev)) (bMaxPacketSize0 dev)
  /\ state (control_state dn) = LAST_DATA_IN
  /\ completion (control_state dn) = completion (control_state dev).
Proof.
  induction j as [|j IH]; intros dev Hmps Hlen Hw Hmax d1 dn.
  - subst dn d1. cbn in Hlen.
    assert (Hl : ctrl_len (control_state dev) = bMaxPacketSize0 dev)
      by (destruct (bMaxPacketSize0 dev); lia).
    rewrite send_data_in_last by lia.
    unfold device_of, calls_of. cbn. rewrite Hw, Hl.
    rewrite Z.ltb_irrefl, andb_false_r. repeat split; reflexivity.
  - rewrite Nat2Z.inj_succ in Hlen.
    assert (Hpart : bMaxPacketSize0 dev < ctrl_len (control_state dev))
      by nia.
    subst dn d1. rewrite (send_data_in_partial dev Hpart).
    match goal with
    | |- context [run_events _ (device_of (_, ?d, _))] => set (d1 := d)
    end.
    change (device_of (tt, d1, _)) with d1.
    cbn [repeat].
    destruct (run_cons IN (repeat IN j) d1) as [-> ->].
    cbn [handle_event]. rewrite on_in_eq.
    change (state (control_state d1)) with DATA_IN. cbv iota.
    assert (Hl1 : ctrl_len (control_state d1)
                  = (Z.of_nat j + 1) * bMaxPacketSize0 d1).
    { subst d1. cbn. rewrite u16_small; lia. }
    assert (Hw1 : wLength (req (control_state d1))
                  = ctrl_len (control_state d1)).
    { subst d1. cbn. rewrite Hw. reflexivity. }
    destruct (IH d1 Hmps Hl1 Hw1) as (Hc & Hs & Hk).
    { rewrite Hl1. change (bMaxPacketSize0 d1) with (bMaxPacketSize0 dev).
      lia. }
    cbv zeta in Hc, Hs, Hk. rewrite Hs, Hk.
    unfold calls_of at 1. cbn [snd]. cbn [full_packets app].
    rewrite Hc. repeat split; reflexivity.
Qed.

(** C1, as the code has it: for a SETUP with direction IN and wLength =
    N, a nonzero multiple k * max-packet-size-0, whose dispatch marks the
    request handled and leaves ctrl_len = N, the engine writes exactly
    the k full packets of the response, the first on the SETUP and one on
    each of the next k - 1 IN events, and no zero-length packet; the last
    full packet puts it in LAST_DATA_IN, the next IN event in STATUS_OUT
    with no further call, and the OUT event after that consumes the
    host's status packet, returns to IDLE and calls the completion
    callback the handler registered. *)
Theorem C1_in_round_trip_without_zlp
    (dev : qusb_device) (pkt : qusb_setup_data) (k : nat)
    (rc : Z) (d1 : qusb_device) (t1 : list call) :
  let mps := bMaxPacketSize0 dev in
  0 < mps ->
  (1 <= k)%nat ->
  wLength pkt = Z.of_nat k * mps ->
  wLength pkt < 65536 ->
  Z.land (bmRequestType pkt) QUSB_REQ_TYPE_DIRECTION_MASK
    = QUSB_REQ_TYPE_IN ->
  dispatch pkt (staged_for_dispatch pkt dev) = (rc, d1, t1) ->
  rc <> 0 ->
  ctrl_len (control_state d1) = wLength pkt ->
  let r := run_events (SETUP 8 pkt :: repeat IN (k - 1)) dev in
  let d := device_of r in
  calls_of r
  = EpReadPacket 0 ToSetupData 8
    :: t1 ++ full_packets k (ctrl_buf (control_state d1)) mps
  /\ written_lengths (calls_of r) = repeat mps k
  /\ state (control_state d) = LAST_DATA_IN
  /\ on_in d = (tt, with_control_state (cs_set_state STATUS_OUT) d, [])
  /\ forall rx,
       let r' := on_out rx (with_control_state (cs_set_state STATUS_OUT) d) in
       calls_of r'
       = EpReadPacket 0 (ToBuffer NULL) 0
         :: match completion (control_state d1) with
            | Some f => [Completion f (req (control_state d))]
            | None => []
            end
       /\ state (control_state (device_of r')) = IDLE.
Proof.
  intros mps Hmps Hk HN Hmax Hdir Hdisp Hrc Hlen r d.
  destruct (dispatch_frame pkt (staged_for_dispatch pkt dev)) as [Hf Hq].
  rewrite Hdisp in Hf, Hq. unfold device_of, calls_of in Hf, Hq.
  cbn [fst snd] in Hf, Hq.
  destruct Hf as (Hm1 & _ & _ & _ & _ & Hreq).
  change (req (control_state (staged_for_dispatch pkt dev))) with pkt in Hreq.
  change (bMaxPacketSize0 (staged_for_dispatch pkt dev)) with mps in Hm1.
  assert (Hsetup :
    on_setup 8 pkt dev
    = let '(_, d2, t2) := send_data_in d1 in
      (tt, d2, EpReadPacket 0 ToSetupData 8 :: t1 ++ t2)).
  { rewrite on_setup_eq. cbn [Z.eqb Pos.eqb]. rewrite Hdir, Z.eqb_refl.
    rewrite orb_true_r, Hdisp.
    destruct (Z.eqb_spec rc 0); [contradiction|]. cbn [negb].
    rewrite Hreq.
    destruct (Z.ltb_spec 0 (wLength pkt)); [reflexivity|nia]. }
  destruct (data_in_run (k - 1) d1) as (Hc & Hs & Hcompl).
  { rewrite Hm1. exact Hmps. }
  { rewrite Hlen, HN, Hm1. f_equal. lia. }
  { rewrite Hreq, Hlen. reflexivity. }
  { rewrite Hlen. exact Hmax. }
  cbv zeta in Hc, Hs, Hcompl. rewrite Hm1 in Hc.
  replace (S (k - 1)) with k in Hc by lia.
  assert (Hcalls : calls_of r
    = EpReadPacket 0 ToSetupData 8
      :: t1 ++ full_packets k (ctrl_buf (control_state d1)) mps).
  { subst r. destruct (run_cons (SETUP 8 pkt) (repeat IN (k - 1)) dev)
      as [_ ->].
    cbn [handle_event]. rewrite Hsetup.
    destruct (send_data_in d1) as [[[] d2] t2].
    unfold calls_of, device_of in *. cbn [fst snd] in *.
    rewrite <- Hc. cbn [app]. rewrite app_assoc. reflexivity. }
  assert (Hdev : d = device_of (run_events (repeat IN (k - 1))
                                  (device_of (send_data_in d1)))).
  { subst d r. destruct (run_cons (SETUP 8 pkt) (repeat IN (k - 1)) dev)
      as [-> _].
    cbn [handle_event]. rewrite Hsetup.
    destruct (send_data_in d1) as [[[] d2] t2]. reflexivity. }
  rewrite <- Hdev in Hs, Hcompl.
  split; [exact Hcalls|]. split; [|split; [exact Hs|split]].
  - rewrite Hcalls.
    change (EpReadPacket 0 ToSetupData 8 :: t1 ++ full_packets k _ mps)
      with ([EpReadPacket 0 ToSetupData 8] ++ t1 ++ full_packets k
              (ctrl_buf (control_state d1)) mps).
    rewrite !written_lengths_app, (written_lengths_handlers t1 Hq).
    rewrite written_lengths_full_packets. reflexivity.
  - rewrite on_in_eq, Hs. reflexivity.
  - intros rx r'. subst r'. rewrite on_out_eq.
    change (state (control_state
              (with_control_state (cs_set_state STATUS_OUT) d)))
      with STATUS_OUT. cbv iota.
    unfold calls_of, device_of. cbn [fst snd].
    change (completion (control_state
              (with_control_state (cs_set_state STATUS_OUT) d)))
      with (completion (control_state d)).
    rewrite Hcompl. split; reflexivity.
Qed.

(** *** Invariants of the reachable devices *)

Lemma register_loop_cases fuel ty m f
    (t : list user_control_callback_entry) : forall k,
  register_loop fuel k ty m f t = (-1, t) \/
  exists i e,
    (k <= i)%nat /\ t !! i = Some e /\ cb e = None /\
    (forall j e', (k <= j < i)%nat -> t !! j = Some e' -> cb e' <> None) /\
    register_loop fuel k ty m f t
    = (0, <[i := {| type := ty; type_mask := m; cb := f |}]> t).
Proof.
  induction fuel as [|fuel IH]; intros k; [left; reflexivity|].
  cbn [register_loop].
  destruct (t !! k) as [e|] eqn:Hk; [|left; reflexivity].
  destruct (cb e) as [g|] eqn:Hcb.
  - destruct (IH (S k)) as [Hfull|(i & e' & Hi & He' & Hfree & Hocc & Heq)].
    + left. exact Hfull.
    + right. exists i, e'. repeat split; try assumption; try lia.
      intros j ej Hj Hlook.
      destruct (Nat.eq_dec j k) as [->|Hne].
      * rewrite Hk in Hlook. injection Hlook as <-. congruence.
      * apply (Hocc j ej); [lia|assumption].
  - right. exists k, e. repeat split; try assumption; try lia.
Qed.

Lemma register_keeps_prefix fuel ty m f
    (t : list user_control_callback_entry) :
  contiguous_prefix t ->
  contiguous_prefix (snd (register_loop fuel 0 ty m f t)) /\
  length (snd (register_loop fuel 0 ty m f t)) = length t.
Proof.
  intros [n Hn].
  destruct (register_loop_cases fuel ty m f t 0%nat)
    as [->|(i & e & _ & Hi & Hfree & Hocc & ->)].
  - split; [exists n; exact Hn|reflexivity].
  - cbn [snd]. split; [|apply length_insert].
    assert (Hin : i = n \/ (n < i)%nat /\ False \/ (i < n)%nat /\ False).
    { destruct (lt_eq_lt_dec i n) as [[Hlt|Heq]|Hgt].
      - right. right. split; [exact Hlt|].
        apply (Hn i e Hi) in Hlt. congruence.
      - left. exact Heq.
      - right. left. split; [exact Hgt|].
        assert (Hn' : (n < length t)%nat).
        { apply lookup_lt_Some in Hi. lia. }
        apply lookup_lt_is_Some in Hn'. destruct Hn' as [en Hen].
        assert (Hoccn : cb en <> None).
        { apply (Hocc n en); [lia|exact Hen]. }
        apply (Hn n en Hen) in Hoccn. lia. }
    destruct Hin as [->|[[_ []]|[_ []]]].
    assert (Hlt : (n < length t)%nat) by (apply lookup_lt_Some in Hi; exact Hi).
    exists (match f with Some _ => S n | None => n end). intros j ej Hj.
    destruct (Nat.eq_dec j n) as [->|Hne].
    + rewrite list_lookup_insert_eq in Hj by exact Hlt.
      injection Hj as <-. cbn [cb].
      destruct f; split; intros; try lia; congruence.
    + rewrite list_lookup_insert_ne in Hj by congruence.
      rewrite (Hn j ej Hj). destruct f; lia.
Qed.

Lemma same_constants_refl dev : same_constants dev dev.
Proof. unfold same_constants; tauto. Qed.

Ltac constants_kept :=
  unfold same_constants, device_of; cbn; repeat split; reflexivity.

Lemma same_frame_constants d d' : same_frame d d' -> same_constants d d'.
Proof. unfold same_frame, same_constants; tauto. Qed.

Lemma same_constants_trans d1 d2 d3 :
  same_constants d1 d2 -> same_constants d2 d3 -> same_constants d1 d3.
Proof. unfold same_constants; intuition congruence. Qed.

Lemma send_data_in_state dev :
  same_constants dev (device_of (send_data_in dev)) /\
  (state (control_state (device_of (send_data_in dev))) = DATA_IN \/
   state (control_state (device_of (send_data_in dev))) = LAST_DATA_IN).
Proof.
  destruct (Z.lt_ge_cases (bMaxPacketSize0 dev) (ctrl_len (control_state dev))).
  - rewrite send_data_in_partial by assumption.
    split; [constants_kept|left; reflexivity].
  - rewrite send_data_in_last by lia.
    split; [constants_kept|].
    unfold device_of. cbn.
    destruct (_ && _); [left|right]; reflexivity.
Qed.

(** No event changes the constants of the device or its table, and a
    device that expects OUT data after an event satisfies the invariant
    of the receive cursor. *)
Lemma event_keeps_invariant e dev :
  wf_event e -> wf_constants dev -> data_out_invariant dev ->
  same_constants dev (device_of (on_event e dev)) /\
  data_out_invariant (device_of (on_event e dev)).
Proof.
  intros Hwf [Hmps Hcap] Hinv. unfold data_out_invariant, receiving in *.
  destruct e as [rx pkt|rx|]; cbn [handle_event].
  - (* SETUP *)
    rewrite on_setup_eq.
    destruct (rx =? 8);
      [|split; [constants_kept|
                intros [Hx|Hx]; discriminate Hx]].
    destruct ((wLength pkt =? 0) || _).
    + destruct (dispatch_frame pkt (staged_for_dispatch pkt dev)) as [Hf _].
      destruct (dispatch pkt (staged_for_dispatch pkt dev)) as [[rc d1] t1].
      unfold device_of in Hf. cbn [fst snd] in Hf.
      apply same_frame_constants in Hf.
      apply (same_constants_trans dev) in Hf; [|constants_kept].
      destruct (negb (rc =? 0)).
      * destruct (0 <? wLength (req (control_state d1))).
        -- destruct (send_data_in_state d1) as [Hk Hst].
           destruct (send_data_in d1) as [[[] d2] t2].
           unfold device_of in *. cbn [fst snd] in *.
           split.
           ++ exact (same_constants_trans _ _ _ Hf Hk).
           ++ intros [Hx|Hx]; destruct Hst as [Hst|Hst]; congruence.
        -- unfold device_of. cbn [fst snd].
           split; [exact Hf|intros [Hx|Hx]; discriminate Hx].
      * unfold device_of. cbn [fst snd].
        split; [exact Hf|intros [Hx|Hx]; discriminate Hx].
    + destruct (Z.ltb_spec (ctrl_buf_len dev) (wLength pkt)).
      * split; [constants_kept|intros [Hx|Hx]; discriminate Hx].
      * split; [constants_kept|].
        intros _. unfold device_of. cbn.
        destruct Hwf as (_ & _ & _ & _ & Hw). lia.
  - (* OUT *)
    rewrite on_out_eq.
    destruct (state (control_state dev)) eqn:Hst;
      try (split; [constants_kept|intros [Hx|Hx]; discriminate Hx]).
    + (* DATA_OUT *)
      destruct (Z.eqb_spec (u16 rx) (packetsize dev)) as [Hrx|Hrx];
        [|split; [constants_kept|intros [Hx|Hx]; discriminate Hx]].
      destruct Hinv as (Hbuf & Hlen & Hw); [left; reflexivity|].
      assert (Hps : packetsize dev
                    = Z.min (bMaxPacketSize0 dev)
                        (wLength (req (control_state dev))
                         - ctrl_len (control_state dev))).
      { unfold packetsize, min_u16. rewrite !u16_small by lia.
        reflexivity. }
      assert (Hnew : ctrl_len (control_state (received rx dev))
                     = ctrl_len (control_state dev) + packetsize dev).
      { unfold received. cbn. rewrite Hrx. apply u16_small. lia. }
      split.
      * destruct (_ <=? _); constants_kept.
      * intros _.
        assert (Hgoal :
          ctrl_buf (control_state (received rx dev)) = dev_ctrl_buf dev /\
          0 <= ctrl_len (control_state (received rx dev))
            <= wLength (req (control_state dev)) /\
          wLength (req (control_state dev)) <= ctrl_buf_len dev).
        { rewrite Hnew. split; [exact Hbuf|]. lia. }
        destruct (_ <=? _); exact Hgoal.
    + (* LAST_DATA_OUT *)
      destruct (u16 rx =? packetsize dev);
        [|split; [constants_kept|intros [Hx|Hx]; discriminate Hx]].
      destruct (dispatch_frame (req (control_state dev)) (received rx dev))
        as [Hf _].
      destruct (dispatch _ (received rx dev)) as [[rc d1] t1].
      unfold device_of in Hf. cbn [fst snd] in Hf.
      apply same_frame_constants in Hf.
      apply (same_constants_trans dev) in Hf; [|constants_kept].
      destruct (negb (rc =? 0)); unfold device_of; cbn [fst snd];
        (split; [exact Hf|intros [Hx|Hx]; discriminate Hx]).
  - (* IN *)
    rewrite on_in_eq.
    destruct (state (control_state dev)) eqn:Hst;
      try (split; [constants_kept|intros [Hx|Hx]; discriminate Hx]).
    destruct (send_data_in_state dev) as [Hk Hs].
    split; [exact Hk|]. intros [Hx|Hx]; destruct Hs as [Hs|Hs]; congruence.
Qed.

Lemma reachable_invariant dev :
  reachable MAX_USER_CONTROL_CALLBACK _qusb_standard_request dev ->
  length (user_control_callback dev) = MAX_USER_CONTROL_CALLBACK /\
  contiguous_prefix (user_control_callback dev) /\
  wf_constants dev /\
  data_out_invariant dev.
Proof.
  induction 1 as [dev (Hwf & Hidle & Hlen & Hfree)
                 |dev ty m f _ (Hlen & Hpre & Hwf & Hinv)
                 |dev e _ (Hlen & Hpre & Hwf & Hinv) He].
  - split; [exact Hlen|]. split; [|split; [exact Hwf|]].
    + exists 0%nat. intros i e Hi. split; [|lia].
      intros Hocc. exfalso. apply Hocc.
      rewrite Forall_lookup in Hfree. exact (Hfree i e Hi).
    + intros [Hs|Hs]; congruence.
  - destruct (register_keeps_prefix MAX_USER_CONTROL_CALLBACK ty m f
                (user_control_callback dev) Hpre) as [Hpre' Hlen'].
    unfold qusb_dev_register_control_callback, bind, get, modify, ret,
      device_of.
    cbn. split; [congruence|]. split; [exact Hpre'|].
    split; [exact Hwf|exact Hinv].
  - destruct (event_keeps_invariant e dev He Hwf Hinv)
      as [(Hm & Hb & Hc & Ht) Hinv'].
    rewrite Ht. split; [exact Hlen|]. split; [exact Hpre|].
    split; [|exact Hinv']. unfold wf_constants. rewrite Hm, Hc. exact Hwf.
Qed.

(** C9: in every reachable device that expects OUT data (DATA_OUT or
    LAST_DATA_OUT), ctrl_buf points at the device's control buffer and
    ctrl_len <= req.wLength <= ctrl_buf_len; the one read that
    [read_data_out] issues is for at most min(max-packet-size-0,
    req.wLength - ctrl_len) bytes at offset ctrl_len of that buffer and
    ends inside it, and the data accumulated after it still does not
    exceed ctrl_buf_len.  And in every reachable device the table has its
    declared capacity and its occupied entries form a prefix, so that the
    break of the dispatch loop at the first empty slot skips nothing:
    dispatch runs every registered handler the specification's scan of
    the whole table runs. *)
Theorem C9_reachable_invariants (dev : qusb_device) :
  reachable MAX_USER_CONTROL_CALLBACK _qusb_standard_request dev ->
  let cs := control_state dev in
  (receiving dev ->
     ctrl_buf cs = dev_ctrl_buf dev /\
     0 <= ctrl_len cs <= wLength (req cs) /\
     wLength (req cs) <= ctrl_buf_len dev /\
     forall rx,
       let n := Z.min (bMaxPacketSize0 dev) (wLength (req cs) - ctrl_len cs) in
       List.filter is_read_packet (calls_of (read_data_out rx dev))
       = [EpReadPacket 0 (ToBuffer (dev_ctrl_buf dev + ctrl_len cs)) n] /\
       0 <= n /\
       ctrl_len cs + n <= ctrl_buf_len dev /\
       0 <= ctrl_len (control_state (device_of (read_data_out rx dev)))
         <= ctrl_buf_len dev)
  /\
  length (user_control_callback dev) = MAX_USER_CONTROL_CALLBACK /\
  contiguous_prefix (user_control_callback dev) /\
  (forall rq, dispatch rq dev = dispatch_spec _qusb_standard_request rq dev).
Proof.
  intros Hreach cs.
  destruct (reachable_invariant dev Hreach)
    as (Hlen & Hpre & [Hmps Hcap] & Hinv).
  split; [|split; [exact Hlen|split; [exact Hpre|]]].
  - intros Hrecv. destruct (Hinv Hrecv) as (Hbuf & Hl & Hw).
    fold cs in Hbuf, Hl, Hw.
    split; [exact Hbuf|]. split; [exact Hl|]. split; [exact Hw|].
    intros rx n.
    assert (Hps : packetsize dev = n).
    { unfold packetsize, min_u16. fold cs. rewrite !u16_small by lia.
      reflexivity. }
    rewrite read_data_out_eq. unfold data_out_read. fold cs.
    rewrite Hps, Hbuf.
    destruct (Z.eqb_spec (u16 rx) n) as [Hrx|Hrx];
      unfold calls_of, device_of; cbn [fst snd List.filter is_read_packet].
    + split; [reflexivity|]. split; [lia|]. split; [lia|].
      unfold received. cbn. fold cs. rewrite Hrx, u16_small; lia.
    + split; [reflexivity|]. split; [lia|]. split; [lia|].
      cbn. fold cs. lia.
  - intros rq. unfold dispatch_request, dispatch_spec, bind, get.
    cbv beta iota zeta.
    rewrite dispatch_loop_refines by (assumption || lia).
    rewrite drop_0.
    destruct (dispatch_spec_scan _ rq dev) as [[[result|] dev1] t1];
      [reflexivity|].
    destruct (call_standard_request _ rq dev1) as [[b dev2] t2].
    reflexivity.
Qed.

(** *** What every run keeps *)

Lemma event_constants e dev :
  same_constants dev (device_of (on_event e dev)).
Proof.
  destruct e as [rx pkt|rx|]; cbn [handle_event].
  - rewrite on_setup_eq.
    destruct (rx =? 8); [|constants_kept].
    destruct ((wLength pkt =? 0) || _).
    + destruct (dispatch_frame pkt (staged_for_dispatch pkt dev)) as [Hf _].
      destruct (dispatch pkt (staged_for_dispatch pkt dev)) as [[rc d1] t1].
      unfold device_of in Hf. cbn [fst snd] in Hf.
      apply same_frame_constants in Hf.
      apply (same_constants_trans dev) in Hf; [|constants_kept].
      destruct (negb (rc =? 0)); [|exact Hf].
      destruct (0 <? wLength (req (control_state d1))); [|exact Hf].
      destruct (send_data_in_state d1) as [Hk _].
      destruct (send_data_in d1) as [[[] d2] t2].
      exact (same_constants_trans _ _ _ Hf Hk).
    + destruct (ctrl_buf_len dev <? wLength pkt); constants_kept.
  - rewrite on_out_eq.
    destruct (state (control_state dev)); try constants_kept.
    + destruct (u16 rx =? packetsize dev); [|constants_kept].
      destruct (_ <=? _); constants_kept.
    + destruct (u16 rx =? packetsize dev); [|constants_kept].
      destruct (dispatch_frame (req (control_state dev)) (received rx dev))
        as [Hf _].
      destruct (dispatch _ (received rx dev)) as [[rc d1] t1].
      unfold device_of in Hf. cbn [fst snd] in Hf.
      apply same_frame_constants in Hf.
      apply (same_constants_trans dev) in Hf; [|constants_kept].
      destruct (negb (rc =? 0)); exact Hf.
  - rewrite on_in_eq.
    destruct (state (control_state dev)); try constants_kept.
    apply send_data_in_state.
Qed.

Lemma run_constants evs : forall dev,
  same_constants dev (device_of (run_events evs dev)).
Proof.
  induction evs as [|e evs IH]; intros dev; [constants_kept|].
  destruct (run_cons e evs dev) as [-> _].
  exact (same_constants_trans _ _ _ (event_constants e dev) (IH _)).
Qed.

Lemma handler_calls_within mps t :
  forallb is_handler_call t = true -> Forall (within_endpoint0 mps) t.
Proof.
  induction t as [|c t IH]; [constructor|].
  cbn [forallb]. intros H. apply andb_prop in H. destruct H as [Hc Ht].
  constructor; [|exact (IH Ht)].
  destruct c; try discriminate; exact I.
Qed.

Lemma send_data_in_within dev :
  Forall (within_endpoint0 (bMaxPacketSize0 dev))
    (calls_of (send_data_in dev)).
Proof.
  destruct (Z.lt_ge_cases (bMaxPacketSize0 dev)
              (ctrl_len (control_state dev))).
  - rewrite send_data_in_partial by assumption.
    repeat constructor. cbn. lia.
  - rewrite send_data_in_last by lia.
    repeat constructor. cbn. lia.
Qed.

Lemma packetsize_bound dev :
  0 <= bMaxPacketSize0 dev < 65536 ->
  0 <= packetsize dev <= bMaxPacketSize0 dev.
Proof.
  intros Hmps. split; [apply packetsize_nonneg|].
  unfold packetsize, min_u16. rewrite (u16_small (bMaxPacketSize0 dev) Hmps).
  apply Z.le_min_l.
Qed.

Ltac within_list :=
  repeat first
    [ apply List.Forall_nil
    | apply List.Forall_cons; [assumption|]
    | apply Forall_app; split; [assumption|] ].

Lemma event_within e dev :
  0 <= bMaxPacketSize0 dev < 65536 ->
  Forall (within_endpoint0 (bMaxPacketSize0 dev))
    (calls_of (on_event e dev)).
Proof.
  intros Hmps.
  assert (Hstall : within_endpoint0 (bMaxPacketSize0 dev) (EpStallSet 0 1))
    by (split; reflexivity).
  assert (Hzlp : within_endpoint0 (bMaxPacketSize0 dev)
                   (EpWritePacket 0 NULL 0))
    by (split; [reflexivity|lia]).
  assert (Hsetup : within_endpoint0 (bMaxPacketSize0 dev)
                     (EpReadPacket 0 ToSetupData 8))
    by (split; reflexivity).
  assert (Hread : within_endpoint0 (bMaxPacketSize0 dev)
                    (data_out_read dev)).
  { split; [reflexivity|]. apply packetsize_bound. exact Hmps. }
  destruct e as [rx pkt|rx|]; cbn [handle_event].
  - rewrite on_setup_eq.
    destruct (rx =? 8); [|unfold calls_of; cbn [snd]; within_list].
    destruct ((wLength pkt =? 0) || _).
    + destruct (dispatch_frame pkt (staged_for_dispatch pkt dev)) as [Hf Hq].
      destruct (dispatch pkt (staged_for_dispatch pkt dev)) as [[rc d1] t1].
      unfold device_of, calls_of in Hf, Hq. cbn [fst snd] in Hf, Hq.
      apply (handler_calls_within (bMaxPacketSize0 dev)) in Hq.
      destruct Hf as (Hm & _).
      change (bMaxPacketSize0 (staged_for_dispatch pkt dev))
        with (bMaxPacketSize0 dev) in Hm.
      destruct (negb (rc =? 0)).
      * destruct (0 <? wLength (req (control_state d1))).
        -- pose proof (send_data_in_within d1) as Hw. rewrite Hm in Hw.
           destruct (send_data_in d1) as [[[] d2] t2].
           unfold calls_of in *. cbn [snd] in *.
           within_list. assumption.
        -- unfold calls_of. cbn [snd].
           within_list.
      * unfold calls_of. cbn [snd].
        within_list.
    + destruct (ctrl_buf_len dev <? wLength pkt);
        unfold calls_of; cbn [snd]; within_list.
  - rewrite on_out_eq.
    destruct (state (control_state dev));
      try (unfold calls_of; cbn [snd]; within_list).
    + destruct (u16 rx =? packetsize dev);
        unfold calls_of; cbn [snd]; within_list.
    + destruct (u16 rx =? packetsize dev);
        [|unfold calls_of; cbn [snd]; within_list].
      destruct (dispatch_frame (req (control_state dev)) (received rx dev))
        as [_ Hq].
      destruct (dispatch _ (received rx dev)) as [[rc d1] t1].
      unfold calls_of in Hq. cbn [snd] in Hq.
      apply (handler_calls_within (bMaxPacketSize0 dev)) in Hq.
      destruct (negb (rc =? 0)); unfold calls_of; cbn [snd];
        within_list.
    + assert (Hstatus : within_endpoint0 (bMaxPacketSize0 dev)
                          (EpReadPacket 0 (ToBuffer NULL) 0))
        by (split; [reflexivity|lia]).
      unfold calls_of. cbn [snd].
      destruct (completion (control_state dev)); within_list;
        repeat constructor.
  - rewrite on_in_eq.
    destruct (state (control_state dev));
      try (unfold calls_of; cbn [snd]; within_list).
    + apply send_data_in_within.
    + unfold calls_of. cbn [snd].
      destruct (completion (control_state dev));
        destruct (_ && _); cbn [app];
        repeat (apply List.Forall_cons; [exact I|]); apply List.Forall_nil.
Qed.

(** X1: whatever events arrive, and whatever the handlers answer, the
    engine addresses the peripheral on endpoint 0 only: every packet it
    writes is at most max-packet-size-0 long, every data read asks for at
    most max-packet-size-0 bytes, the setup read for 8, and every stall
    sets the stall flag of endpoint 0. *)
Theorem X1_calls_stay_within_endpoint0
    (evs : list ep0_event) (dev : qusb_device) :
  0 <= bMaxPacketSize0 dev < 65536 ->
  Forall (within_endpoint0 (bMaxPacketSize0 dev))
    (calls_of (run_events evs dev)).
Proof.
  revert dev. induction evs as [|e evs IH]; intros dev Hmps.
  - constructor.
  - destruct (run_cons e evs dev) as [_ ->].
    apply Forall_app. split; [apply event_within; exact Hmps|].
    destruct (event_constants e dev) as (Hm & _).
    rewrite <- Hm. apply IH. rewrite Hm. exact Hmps.
Qed.

(** *** When the handlers are called *)

Lemma dispatch_loop_decided rq fuel : forall i dev result,
  result_of (dispatch_loop fuel i rq dev) = Some result ->
  existsb is_handler_call (calls_of (dispatch_loop fuel i rq dev)) = true.
Proof.
  induction fuel as [|fuel IH]; intros i dev result; [discriminate|].
  cbn [dispatch_loop]. unfold bind, get. cbv beta iota zeta.
  destruct (user_control_callback dev !! i) as [e|]; [|discriminate].
  destruct (cb e) as [f|]; [|discriminate].
  destruct (Z.land (bmRequestType rq) (type_mask e) =? type e).
  - destruct (call_user_callback_frame i f rq dev) as [_ Hc].
    destruct (call_user_callback i f rq dev) as [[r dev1] t1].
    unfold calls_of in Hc. cbn [snd] in Hc. subst t1.
    destruct ((r =? QUSB_REQ_HANDLED) || (r =? QUSB_REQ_NOTSUPP)).
    + intros _. reflexivity.
    + destruct (dispatch_loop fuel (S i) rq dev1) as [[b dev2] t2].
      intros _. reflexivity.
  - specialize (IH (S i) dev result).
    destruct (dispatch_loop fuel (S i) rq dev) as [[b dev2] t2].
    exact IH.
Qed.

(** A dispatch always reaches a handler: a user callback that decides,
    or else the standard-request handler. *)
Lemma dispatch_calls_a_handler rq dev :
  existsb is_handler_call (calls_of (dispatch rq dev)) = true.
Proof.
  unfold dispatch_request, bind.
  pose proof (dispatch_loop_decided rq MAX_USER_CONTROL_CALLBACK 0%nat dev)
    as Hdec.
  destruct (dispatch_loop MAX_USER_CONTROL_CALLBACK 0 rq dev)
    as [[[result|] dev1] t1].
  - specialize (Hdec result eq_refl).
    unfold calls_of in *. cbn [snd ret] in *.
    rewrite existsb_app, Hdec. reflexivity.
  - destruct (call_standard_request_frame rq dev1) as [_ Hc].
    destruct (call_standard_request _ rq dev1) as [[b dev2] t2].
    unfold calls_of in *. cbn [snd] in *. subst t2.
    rewrite existsb_app. cbn. apply orb_true_r.
Qed.

(** X2: the engine hands a request to the handlers (user callbacks or
    the standard-request handler) on exactly two kinds of event: a SETUP
    whose packet was read in full (8 bytes) and that announces no OUT
    data (wLength = 0 or direction IN), and the OUT event in
    LAST_DATA_OUT that delivers the last data packet in its expected
    size.  No handler is called on a short setup read, while OUT data is
    still outstanding, on a packet of the wrong size, or on any IN
    event. *)
Theorem X2_handlers_called_when_request_complete
    (e : ep0_event) (dev : qusb_device) :
  existsb is_handler_call (calls_of (on_event e dev)) = true
  <-> completes_request dev e.
Proof.
  destruct e as [rx pkt|rx|]; cbn [handle_event completes_request].
  - rewrite on_setup_eq.
    destruct (Z.eqb_spec rx 8) as [Hrx|Hrx];
      [|split; [discriminate|intros [Heq _]; contradiction]].
    destruct (Z.eqb_spec (wLength pkt) 0) as [Hlen|Hlen];
      destruct (Z.eqb_spec
                  (Z.land (bmRequestType pkt) QUSB_REQ_TYPE_DIRECTION_MASK)
                  QUSB_REQ_TYPE_IN) as [Hdir|Hdir]; cbn [orb].
    4: { destruct (ctrl_buf_len dev <? wLength pkt);
           (split; [discriminate|intros [_ [H|H]]; contradiction]). }
    all: pose proof (dispatch_calls_a_handler pkt
                       (staged_for_dispatch pkt dev)) as Hcall;
      destruct (dispatch pkt (staged_for_dispatch pkt dev))
        as [[rc d1] t1];
      unfold calls_of in Hcall; cbn [snd] in Hcall;
      (split; [intros _; split; [exact Hrx|tauto]|intros _]);
      destruct (negb (rc =? 0));
      [destruct (0 <? wLength (req (control_state d1)));
       [destruct (send_data_in d1) as [[[] d2] t2]|]|];
      unfold calls_of; cbn [snd existsb is_handler_call orb];
      rewrite existsb_app, Hcall; reflexivity.
  - rewrite on_out_eq.
    destruct (state (control_state dev)) eqn:Hst;
      try (split; [discriminate|intros [Hs _]; discriminate Hs]).
    + destruct (u16 rx =? packetsize dev);
        (split; [discriminate|intros [Hs _]; discriminate Hs]).
    + destruct (Z.eqb_spec (u16 rx) (packetsize dev)) as [Hrx|Hrx];
        [|split; [discriminate|intros [_ Heq]; contradiction]].
      pose proof (dispatch_calls_a_handler (req (control_state dev))
                    (received rx dev)) as Hcall.
      destruct (dispatch _ (received rx dev)) as [[rc d1] t1].
      unfold calls_of in Hcall. cbn [snd] in Hcall.
      split; [intros _; split; [reflexivity|exact Hrx]|intros _].
      destruct (negb (rc =? 0)); unfold calls_of, data_out_read;
        cbn [snd existsb is_handler_call orb];
        rewrite existsb_app, Hcall; reflexivity.
    + destruct (completion (control_state dev));
        (split; [discriminate|intros [Hs _]; discriminate Hs]).
  - rewrite on_in_eq. split; [|contradiction].
    destruct (state (control_state dev)); try discriminate.
    + destruct (send_data_in_calls dev) as (b & n & ->). discriminate.
    + destruct (completion (control_state dev));
        destruct (_ && _); discriminate.
Qed.

(** *** A SETUP starts afresh *)





(** *** Requests without data, and requests nobody supports *)

(** X4: a request with wLength = 0, of either direction, has no data
    stage.  When the dispatch handles it, the SETUP writes the
    zero-length status packet and waits in STATUS_IN; the IN event that
    follows calls the completion callback the handlers registered (with
    the request as received), applies the device address if the request
    is the standard SET_ADDRESS, in this order after the status packet,
    and returns to IDLE. *)
Theorem X4_no_data_round_trip
    (dev : qusb_device) (pkt : qusb_setup_data)
    (rc : Z) (d1 : qusb_device) (t1 : list call) :
  wLength pkt = 0 ->
  dispatch pkt (staged_for_dispatch pkt dev) = (rc, d1, t1) ->
  rc <> 0 ->
  let r := run_events [SETUP 8 pkt; IN] dev in
  state (control_state (device_of (on_setup 8 pkt dev))) = STATUS_IN /\
  calls_of r
  = EpReadPacket 0 ToSetupData 8 :: t1
    ++ [EpWritePacket 0 NULL 0]
    ++ match completion (control_state d1) with
       | Some f => [Completion f pkt]
       | None => []
       end
    ++ (if (bmRequestType pkt =? 0) && (bRequest pkt =? QUSB_REQ_SET_ADDRESS)
        then [SetAddress (wValue pkt)] else [])
  /\ state (control_state (device_of r)) = IDLE.
Proof.
  intros Hlen Hdisp Hrc r.
  destruct (dispatch_frame pkt (staged_for_dispatch pkt dev)) as [Hf _].
  rewrite Hdisp in Hf. unfold device_of in Hf. cbn [fst snd] in Hf.
  destruct Hf as (_ & _ & _ & _ & _ & Hreq).
  change (req (control_state (staged_for_dispatch pkt dev))) with pkt in Hreq.
  assert (Hsetup :
    on_setup 8 pkt dev
    = (tt, with_control_state (cs_set_state STATUS_IN) d1,
       EpReadPacket 0 ToSetupData 8 :: t1 ++ [EpWritePacket 0 NULL 0])).
  { rewrite on_setup_eq. cbn [Z.eqb Pos.eqb]. rewrite Hlen. cbn [Z.eqb orb].
    rewrite Hdisp. destruct (Z.eqb_spec rc 0); [contradiction|]. cbn [negb].
    rewrite Hreq, Hlen. reflexivity. }
  split; [rewrite Hsetup; reflexivity|].
  subst r. destruct (run_cons (SETUP 8 pkt) [IN] dev) as [-> ->].
  destruct (run_cons IN []
              (device_of (on_event (SETUP 8 pkt) dev))) as [-> ->].
  cbn [handle_event]. rewrite Hsetup.
  change (device_of (tt, with_control_state (cs_set_state STATUS_IN) d1, _))
    with (with_control_state (cs_set_state STATUS_IN) d1).
  rewrite on_in_eq.
  change (state (control_state
            (with_control_state (cs_set_state STATUS_IN) d1)))
    with STATUS_IN. cbv iota.
  change (req (control_state
            (with_control_state (cs_set_state STATUS_IN) d1)))
    with (req (control_state d1)).
  change (completion (control_state
            (with_control_state (cs_set_state STATUS_IN) d1)))
    with (completion (control_state d1)).
  rewrite Hreq. unfold calls_of, device_of. cbn [fst snd run ret].
  split; [|reflexivity].
  rewrite app_nil_r. cbn [app]. f_equal.
  rewrite <- app_assoc. reflexivity.
Qed.

(** X5: a request that the dispatch does not support is answered by a
    stall and by nothing else: the engine writes no packet, neither data
    nor status, and returns to IDLE.  This holds for a request
    dispatched at the SETUP and for one dispatched after its OUT
    data. *)
Theorem X5_unsupported_request_is_stalled (dev : qusb_device) :
  (forall pkt,
     wLength pkt = 0 \/
     Z.land (bmRequestType pkt) QUSB_REQ_TYPE_DIRECTION_MASK
     = QUSB_REQ_TYPE_IN ->
     result_of (dispatch pkt (staged_for_dispatch pkt dev)) = 0 ->
     calls_of (on_setup 8 pkt dev)
     = EpReadPacket 0 ToSetupData 8
       :: calls_of (dispatch pkt (staged_for_dispatch pkt dev))
       ++ [EpStallSet 0 1] /\
     written_lengths (calls_of (on_setup 8 pkt dev)) = [] /\
     state (control_state (device_of (on_setup 8 pkt dev))) = IDLE)
  /\
  (forall rx,
     state (control_state dev) = LAST_DATA_OUT ->
     u16 rx = packetsize dev ->
     result_of (dispatch (req (control_state dev)) (received rx dev)) = 0 ->
     calls_of (on_out rx dev)
     = data_out_read dev
       :: calls_of (dispatch (req (control_state dev)) (received rx dev))
       ++ [EpStallSet 0 1] /\
     written_lengths (calls_of (on_out rx dev)) = [] /\
     state (control_state (device_of (on_out rx dev))) = IDLE).
Proof.
  split.
  - intros pkt Hnodata Hrc. rewrite on_setup_eq. cbn [Z.eqb Pos.eqb].
    assert (Hcond : (wLength pkt =? 0)
                    || (Z.land (bmRequestType pkt)
                          QUSB_REQ_TYPE_DIRECTION_MASK
                        =? QUSB_REQ_TYPE_IN) = true).
    { destruct Hnodata as [-> | ->];
        [reflexivity|rewrite Z.eqb_refl; apply orb_true_r]. }
    rewrite Hcond.
    destruct (dispatch_frame pkt (staged_for_dispatch pkt dev)) as [_ Hq].
    destruct (dispatch pkt (staged_for_dispatch pkt dev)) as [[rc d1] t1].
    unfold result_of, calls_of in Hrc, Hq. cbn [fst snd] in Hrc, Hq. subst rc.
    unfold calls_of, device_of. cbn [fst snd negb Z.eqb].
    split; [reflexivity|]. split; [|reflexivity].
    change (EpReadPacket 0 ToSetupData 8 :: t1 ++ [EpStallSet 0 1])
      with ([EpReadPacket 0 ToSetupData 8] ++ t1 ++ [EpStallSet 0 1]).
    rewrite !written_lengths_app, (written_lengths_handlers t1 Hq).
    reflexivity.
  - intros rx Hst Hrx Hrc. rewrite on_out_eq, Hst, Hrx, Z.eqb_refl.
    destruct (dispatch_frame (req (control_state dev)) (received rx dev))
      as [_ Hq].
    destruct (dispatch _ (received rx dev)) as [[rc d1] t1].
    unfold result_of, calls_of in Hrc, Hq. cbn [fst snd] in Hrc, Hq. subst rc.
    unfold calls_of, device_of. cbn [fst snd negb Z.eqb].
    split; [reflexivity|]. split; [|reflexivity].
    change (data_out_read dev :: t1 ++ [EpStallSet 0 1])
      with ([data_out_read dev] ++ t1 ++ [EpStallSet 0 1]).
    rewrite !written_lengths_app, (written_lengths_handlers t1 Hq).
    reflexivity.
Qed.

(** *** The OUT data stage *)

(** [j] full packets arriving while [j] full packets and a last one of
    [last] bytes are outstanding. *)
Lemma data_out_run j : forall dev last,
  0 < bMaxPacketSize0 dev < 256 ->
  0 < last <= bMaxPacketSize0 dev ->
  0 <= ctrl_len (control_state dev) ->
  wLength (req (control_state dev)) < 65536 ->
  wLength (req (control_state dev)) - ctrl_len (control_state dev)
  = Z.of_nat j * bMaxPacketSize0 dev + last ->
  state (control_state dev)
  = (if bMaxPacketSize0 dev
        <? wLength (req (control_state dev)) - ctrl_len (control_state dev)
     then DATA_OUT else LAST_DATA_OUT) ->
  let r := run_events (repeat (OUT (bMaxPacketSize0 dev)) j) dev in
  calls_of r
  = full_reads j
      (ctrl_buf (control_state dev) + ctrl_len (control_state dev))
      (bMaxPacketSize0 dev) /\
  same_constants dev (device_of r) /\
  state (control_state (device_of r)) = LAST_DATA_OUT /\
  ctrl_len (control_state (device_of r))
  = ctrl_len (control_state dev) + Z.of_nat j * bMaxPacketSize0 dev /\
  ctrl_buf (control_state (device_of r)) = ctrl_buf (control_state dev) /\
  req (control_state (device_of r)) = req (control_state dev) /\
  completion (control_state (device_of r))
  = completion (control_state dev).
Proof.
  induction j as [|j IH]; intros dev last Hmps Hlast Hc Hw Hrem Hst r.
  - subst r. cbn in Hrem. cbn [repeat run].
    destruct (Z.ltb_spec (bMaxPacketSize0 dev)
                (wLength (req (control_state dev))
                 - ctrl_len (control_state dev))); [lia|].
    unfold calls_of, device_of, ret. cbn [fst snd full_reads].
    repeat split; try reflexivity; try assumption. lia.
  - subst r. rewrite Nat2Z.inj_succ, Z.mul_succ_l in Hrem.
    destruct (Z.ltb_spec (bMaxPacketSize0 dev)
                (wLength (req (control_state dev))
                 - ctrl_len (control_state dev))); [|nia].
    cbn [repeat].
    destruct (run_cons (OUT (bMaxPacketSize0 dev))
                (repeat (OUT (bMaxPacketSize0 dev)) j) dev) as [-> ->].
    cbn [handle_event].
    assert (Hps : packetsize dev = bMaxPacketSize0 dev).
    { unfold packetsize, min_u16. rewrite !u16_small by lia. lia. }
    assert (Hrx : u16 (bMaxPacketSize0 dev) = bMaxPacketSize0 dev)
      by (apply u16_small; lia).
    rewrite on_out_eq, Hst, Hps, Hrx, Z.eqb_refl.
    set (d1 := if _ <=? _ then _ else _).
    assert (Hd1 :
      same_constants dev d1 /\
      ctrl_len (control_state d1)
      = ctrl_len (control_state dev) + bMaxPacketSize0 dev /\
      ctrl_buf (control_state d1) = ctrl_buf (control_state dev) /\
      req (control_state d1) = req (control_state dev) /\
      completion (control_state d1) = completion (control_state dev) /\
      state (control_state d1)
      = (if bMaxPacketSize0 dev
            <? wLength (req (control_state dev))
               - (ctrl_len (control_state dev) + bMaxPacketSize0 dev)
         then DATA_OUT else LAST_DATA_OUT)).
    { assert (Hnew : ctrl_len (control_state
                       (received (bMaxPacketSize0 dev) dev))
                     = ctrl_len (control_state dev) + bMaxPacketSize0 dev).
      { unfold received. cbn. rewrite Hrx. apply u16_small. lia. }
      subst d1. rewrite Hnew.
      destruct (Z.leb_spec
                  (wLength (req (control_state dev))
                   - (ctrl_len (control_state dev) + bMaxPacketSize0 dev))
                  (bMaxPacketSize0 dev));
        destruct (Z.ltb_spec (bMaxPacketSize0 dev)
                    (wLength (req (control_state dev))
                     - (ctrl_len (control_state dev)
                        + bMaxPacketSize0 dev))); try lia;
        (split; [constants_kept|]); repeat split; try exact Hnew;
        try reflexivity; exact Hst. }
    clearbody d1.
    destruct Hd1 as ((Hm & Hb & Hcap & Ht) & Hl1 & Hb1 & Hr1 & Hk1 & Hs1).
    change (device_of (tt, d1, [data_out_read dev])) with d1.
    destruct (IH d1 last) as (Hcalls & Hconst & Hstate & Hlen & Hbuf
                              & Hreq & Hcompl);
      rewrite ?Hm, ?Hl1, ?Hr1; try lia.
    { rewrite <- Hl1, <- Hr1 in Hs1. rewrite Hs1, Hl1, Hr1. reflexivity. }
    rewrite Hm in *.
    unfold calls_of at 1. cbn [snd]. rewrite Hcalls, Hl1, Hb1.
    split.
    { unfold data_out_read. rewrite Hps. cbn [app full_reads].
      do 2 f_equal. lia. }
    split; [exact (same_constants_trans _ _ _
                     (conj Hm (conj Hb (conj Hcap Ht))) Hconst)|].
    split; [exact Hstate|]. split; [rewrite Hlen, Hl1; lia|].
    split; [congruence|]. split; congruence.
Qed.

(** X6: the OUT data stage, end to end.  After a SETUP of direction OUT
    that announces wLength = j * max-packet-size-0 + last bytes
    (0 < last <= max-packet-size-0) and fits the control buffer, j OUT
    events with full packets are read one behind the other from the
    start of the control buffer, call no handler, and leave the engine
    in LAST_DATA_OUT with ctrl_len = j * max-packet-size-0.  The OUT
    event with the last [last] bytes is read behind them, completes
    ctrl_len to wLength, and only then is the request dispatched, once,
    with the buffer and the length of the whole payload; the engine then
    writes the zero-length status packet and enters STATUS_IN, or stalls
    and returns to IDLE when the request is not supported. *)
Theorem X6_out_data_stage
    (dev : qusb_device) (pkt : qusb_setup_data) (j : nat) (last : Z) :
  let mps := bMaxPacketSize0 dev in
  0 < mps < 256 ->
  0 < last <= mps ->
  wLength pkt = Z.of_nat j * mps + last ->
  wLength pkt <= ctrl_buf_len dev ->
  wLength pkt < 65536 ->
  Z.land (bmRequestType pkt) QUSB_REQ_TYPE_DIRECTION_MASK
    <> QUSB_REQ_TYPE_IN ->
  let r := run_events (SETUP 8 pkt :: repeat (OUT mps) j) dev in
  let d := device_of r in
  let full := received last d in
  let answer := dispatch pkt full in
  calls_of r
  = EpReadPacket 0 ToSetupData 8 :: full_reads j (dev_ctrl_buf dev) mps
  /\ state (control_state d) = LAST_DATA_OUT
  /\ ctrl_len (control_state d) = Z.of_nat j * mps
  /\ ctrl_buf (control_state full) = dev_ctrl_buf dev
  /\ ctrl_len (control_state full) = wLength pkt
  /\ req (control_state full) = pkt
  /\ calls_of (on_out last d)
     = EpReadPacket 0 (ToBuffer (dev_ctrl_buf dev + Z.of_nat j * mps)) last
       :: calls_of answer
       ++ [if result_of answer =? 0
           then EpStallSet 0 1 else EpWritePacket 0 NULL 0]
  /\ state (control_state (device_of (on_out last d)))
     = (if result_of answer =? 0 then IDLE else STATUS_IN).
Proof.
  intros mps Hmps Hlast HW Hfits Hmax Hdir r d full answer.
  assert (Hsetup : on_setup 8 pkt dev
                   = (tt, prepared pkt dev, [EpReadPacket 0 ToSetupData 8])).
  { rewrite on_setup_eq. cbn [Z.eqb Pos.eqb].
    destruct (Z.eqb_spec (wLength pkt) 0); [lia|].
    destruct (Z.eqb_spec
                (Z.land (bmRequestType pkt) QUSB_REQ_TYPE_DIRECTION_MASK)
                QUSB_REQ_TYPE_IN); [contradiction|].
    cbn [orb].
    destruct (Z.ltb_spec (ctrl_buf_len dev) (wLength pkt)); [lia|].
    reflexivity. }
  destruct (data_out_run j (prepared pkt dev) last)
    as (Hcalls & Hconst & Hstate & Hlen & Hbuf & Hreq & _);
    try assumption.
  { cbn. lia. }
  { cbn. rewrite Z.sub_0_r. exact HW. }
  { cbn. rewrite Z.sub_0_r. reflexivity. }
  change (bMaxPacketSize0 (prepared pkt dev)) with mps in *.
  change (ctrl_len (control_state (prepared pkt dev))) with 0 in *.
  change (ctrl_buf (control_state (prepared pkt dev)))
    with (dev_ctrl_buf dev) in *.
  change (req (control_state (prepared pkt dev))) with pkt in *.
  rewrite Z.add_0_r in Hcalls. rewrite Z.add_0_l in Hlen.
  assert (Hd : d = device_of (run_events (repeat (OUT mps) j)
                                (prepared pkt dev))).
  { subst d r.
    destruct (run_cons (SETUP 8 pkt) (repeat (OUT mps) j) dev) as [-> _].
    cbn [handle_event]. rewrite Hsetup. reflexivity. }
  rewrite <- Hd in Hconst, Hstate, Hlen, Hbuf, Hreq.
  destruct Hconst as (Hm & _).
  change (bMaxPacketSize0 (prepared pkt dev)) with mps in Hm.
  assert (Hps : packetsize d = last).
  { unfold packetsize, min_u16. rewrite Hm, Hreq, Hlen, HW.
    rewrite !u16_small by lia. lia. }
  assert (Hrx : u16 last = last) by (apply u16_small; lia).
  assert (Hfull : ctrl_len (control_state full) = wLength pkt).
  { subst full. unfold received. cbn. rewrite Hrx, Hlen, u16_small; lia. }
  split.
  { subst r.
    destruct (run_cons (SETUP 8 pkt) (repeat (OUT mps) j) dev) as [_ ->].
    cbn [handle_event]. rewrite Hsetup.
    change (device_of (tt, prepared pkt dev, _)) with (prepared pkt dev).
    rewrite Hcalls. reflexivity. }
  split; [exact Hstate|]. split; [exact Hlen|].
  split; [exact Hbuf|]. split; [exact Hfull|]. split; [exact Hreq|].
  rewrite on_out_eq, Hstate, Hps, Hrx, Z.eqb_refl, Hreq.
  fold full. fold answer.
  unfold data_out_read. rewrite Hps, Hbuf, Hlen.
  unfold result_of, calls_of, device_of.
  destruct answer as [[rc d1] t1]. cbn [fst snd].
  destruct (rc =? 0); cbn [negb fst snd]; split; reflexivity.
Qed.

(** *** The IN data stage *)

Lemma full_packets_app k : forall buf size l,
  full_packets (S k) buf size ++ l
  = EpWritePacket 0 buf size :: full_packets k (buf + size) size ++ l.
Proof. reflexivity. Qed.

(** A response of [q] full packets and a last one of [last] bytes, no
    longer than the wLength requested: the first call of [send_data_in]
    and the [q] IN events after it. *)
Lemma data_in_stage q : forall dev last,
  0 < bMaxPacketSize0 dev ->
  0 <= last <= bMaxPacketSize0 dev ->
  (q = 0%nat \/ 0 < last) ->
  ctrl_len (control_state dev) = Z.of_nat q * bMaxPacketSize0 dev + last ->
  ctrl_len (control_state dev) <= wLength (req (control_state dev)) ->
  wLength (req (control_state dev)) < 65536 ->
  let d1 := device_of (send_data_in dev) in
  let d := device_of (run_events (repeat IN q) d1) in
  calls_of (send_data_in dev) ++ calls_of (run_events (repeat IN q) d1)
  = full_packets q (ctrl_buf (control_state dev)) (bMaxPacketSize0 dev)
    ++ [EpWritePacket 0
          (ctrl_buf (control_state dev)
           + Z.of_nat q * bMaxPacketSize0 dev) last]
  /\ state (control_state d)
     = (if (last =? bMaxPacketSize0 dev)
           && (ctrl_len (control_state dev)
               <? wLength (req (control_state dev)))
        then DATA_IN else LAST_DATA_IN)
  /\ bMaxPacketSize0 d = bMaxPacketSize0 dev
  /\ ctrl_len (control_state d) = 0
  /\ ctrl_buf (control_state d) = NULL
  /\ completion (control_state d) = completion (control_state dev)
  /\ wLength (req (control_state d))
     = wLength (req (control_state dev)) - Z.of_nat q * bMaxPacketSize0 dev
  /\ bmRequestType (req (control_state d))
     = bmRequestType (req (control_state dev))
  /\ bRequest (req (control_state d)) = bRequest (req (control_state dev))
  /\ wValue (req (control_state d)) = wValue (req (control_state dev))
  /\ wIndex (req (control_state d)) = wIndex (req (control_state dev)).
Proof.
  induction q as [|q IH]; intros dev last Hmps Hlast Hq Hlen Hle Hw d1 d.
  - subst d d1. cbn in Hlen.
    rewrite send_data_in_last by lia.
    unfold calls_of, device_of. cbn. rewrite Hlen, Z.add_0_r.
    repeat split; try reflexivity. lia.
  - destruct Hq as [Hq|Hpos]; [discriminate|].
    rewrite Nat2Z.inj_succ, Z.mul_succ_l in Hlen.
    assert (Hpart : bMaxPacketSize0 dev < ctrl_len (control_state dev))
      by nia.
    subst d d1. rewrite (send_data_in_partial dev Hpart).
    match goal with
    | |- context [run_events _ (device_of (_, ?x, _))] => set (d1 := x)
    end.
    change (device_of (tt, d1, _)) with d1.
    cbn [repeat].
    destruct (run_cons IN (repeat IN q) d1) as [-> ->].
    cbn [handle_event]. rewrite on_in_eq.
    change (state (control_state d1)) with DATA_IN. cbv iota.
    assert (Hl1 : ctrl_len (control_state d1)
                  = Z.of_nat q * bMaxPacketSize0 d1 + last).
    { subst d1. cbn. rewrite u16_small; lia. }
    assert (Hw1 : wLength (req (control_state d1))
                  = wLength (req (control_state dev)) - bMaxPacketSize0 dev).
    { subst d1. cbn. rewrite u16_small; lia. }
    destruct (IH d1 last) as (Hc & Hs & Hm & Hz & Hn & Hk & Hwl & Hreq);
      try assumption.
    { right. exact Hpos. }
    { rewrite Hl1, Hw1. change (bMaxPacketSize0 d1) with (bMaxPacketSize0 dev).
      lia. }
    { rewrite Hw1. lia. }
    cbv zeta in Hc, Hs, Hm, Hz, Hn, Hk, Hwl, Hreq.
    change (bMaxPacketSize0 d1) with (bMaxPacketSize0 dev) in *.
    change (ctrl_buf (control_state d1))
      with (ctrl_buf (control_state dev) + bMaxPacketSize0 dev) in Hc.
    change (completion (control_state d1))
      with (completion (control_state dev)) in Hk.
    unfold calls_of at 1. cbn [snd].
    rewrite Nat2Z.inj_succ, Z.mul_succ_l.
    split.
    { rewrite full_packets_app. cbn [app]. rewrite Hc.
      do 4 f_equal. lia. }
    split.
    { rewrite Hs, Hl1, Hw1, Hlen.
      destruct (last =? bMaxPacketSize0 dev); [|reflexivity]. cbn [andb].
      destruct (Z.ltb_spec (Z.of_nat q * bMaxPacketSize0 dev + last)
                  (wLength (req (control_state dev)) - bMaxPacketSize0 dev));
        destruct (Z.ltb_spec
                    (Z.of_nat q * bMaxPacketSize0 dev + bMaxPacketSize0 dev
                     + last) (wLength (req (control_state dev))));
        try reflexivity; lia. }
    split; [exact Hm|]. split; [exact Hz|]. split; [exact Hn|].
    split; [exact Hk|]. split; [rewrite Hwl, Hw1; lia|].
    exact Hreq.
Qed.

(** The IN data stage from the SETUP on: what [data_in_stage] gives for
    the device the dispatch leaves. *)
Lemma in_transfer_data_stage
    (dev : qusb_device) (pkt : qusb_setup_data) (q : nat) (last : Z)
    (rc : Z) (d1 : qusb_device) (t1 : list call) :
  let mps := bMaxPacketSize0 dev in
  0 < mps ->
  0 <= last <= mps ->
  (q = 0%nat \/ 0 < last) ->
  0 < wLength pkt < 65536 ->
  Z.land (bmRequestType pkt) QUSB_REQ_TYPE_DIRECTION_MASK
    = QUSB_REQ_TYPE_IN ->
  dispatch pkt (staged_for_dispatch pkt dev) = (rc, d1, t1) ->
  rc <> 0 ->
  ctrl_len (control_state d1) = Z.of_nat q * mps + last ->
  ctrl_len (control_state d1) <= wLength pkt ->
  let r := run_events (SETUP 8 pkt :: repeat IN q) dev in
  let d := device_of r in
  calls_of r
  = EpReadPacket 0 ToSetupData 8 :: t1
    ++ full_packets q (ctrl_buf (control_state d1)) mps
    ++ [EpWritePacket 0 (ctrl_buf (control_state d1) + Z.of_nat q * mps)
          last]
  /\ forallb is_handler_call t1 = true
  /\ state (control_state d)
     = (if (last =? mps) && (ctrl_len (control_state d1) <? wLength pkt)
        then DATA_IN else LAST_DATA_IN)
  /\ bMaxPacketSize0 d = mps
  /\ ctrl_len (control_state d) = 0
  /\ ctrl_buf (control_state d) = NULL
  /\ completion (control_state d) = completion (control_state d1)
  /\ req (control_state d)
     = req_set_wLength (wLength pkt - Z.of_nat q * mps) pkt.
Proof.
  intros mps Hmps Hlast Hq HW Hdir Hdisp Hrc Hlen Hle r d.
  destruct (dispatch_frame pkt (staged_for_dispatch pkt dev)) as [Hf Hquiet].
  rewrite Hdisp in Hf, Hquiet. unfold device_of, calls_of in Hf, Hquiet.
  cbn [fst snd] in Hf, Hquiet.
  destruct Hf as (Hm1 & _ & _ & _ & _ & Hreq).
  change (req (control_state (staged_for_dispatch pkt dev))) with pkt in Hreq.
  change (bMaxPacketSize0 (staged_for_dispatch pkt dev)) with mps in Hm1.
  assert (Hsetup :
    on_setup 8 pkt dev
    = let '(_, d2, t2) := send_data_in d1 in
      (tt, d2, EpReadPacket 0 ToSetupData 8 :: t1 ++ t2)).
  { rewrite on_setup_eq. cbn [Z.eqb Pos.eqb]. rewrite Hdir, Z.eqb_refl.
    rewrite orb_true_r, Hdisp.
    destruct (Z.eqb_spec rc 0); [contradiction|]. cbn [negb].
    rewrite Hreq.
    destruct (Z.ltb_spec 0 (wLength pkt)); [reflexivity|lia]. }
  destruct (data_in_stage q d1 last)
    as (Hc & Hs & Hm & Hz & Hn & Hk & Hwl & Hbm & Hbr & Hwv & Hwi);
    rewrite ?Hm1, ?Hreq; try assumption; try lia.
  cbv zeta in Hc, Hs, Hm, Hz, Hn, Hk, Hwl, Hbm, Hbr, Hwv, Hwi.
  rewrite Hm1 in Hc, Hs, Hm, Hwl. rewrite Hreq in Hs, Hwl, Hbm, Hbr, Hwv, Hwi.
  assert (Hd : d = device_of (run_events (repeat IN q)
                                (device_of (send_data_in d1)))).
  { subst d r. destruct (run_cons (SETUP 8 pkt) (repeat IN q) dev) as [-> _].
    cbn [handle_event]. rewrite Hsetup.
    destruct (send_data_in d1) as [[[] d2] t2]. reflexivity. }
  rewrite <- Hd in Hs, Hm, Hz, Hn, Hk, Hwl, Hbm, Hbr, Hwv, Hwi.
  split.
  { subst r. destruct (run_cons (SETUP 8 pkt) (repeat IN q) dev) as [_ ->].
    cbn [handle_event]. rewrite Hsetup.
    destruct (send_data_in d1) as [[[] d2] t2].
    unfold calls_of, device_of in *. cbn [fst snd] in *.
    rewrite <- Hc. cbn [app]. rewrite <- app_assoc. reflexivity. }
  split; [exact Hquiet|]. split; [exact Hs|]. split; [exact Hm|].
  split; [exact Hz|]. split; [exact Hn|]. split; [exact Hk|].
  destruct (req (control_state d)) as [bm br wv wi wl].
  cbn in Hwl, Hbm, Hbr, Hwv, Hwi. subst. reflexivity.
Qed.

(** X7: the IN data stage, end to end.  For a SETUP of direction IN
    with wLength > 0 that the dispatch handles, leaving a response of
    ctrl_len = q * max-packet-size-0 + last bytes, no longer than
    wLength (0 <= last <= max-packet-size-0, and last > 0 unless the
    response is empty), the SETUP and the next q IN events write exactly
    the response, in consecutive chunks of the response buffer: q full
    packets and then the last [last] bytes.  If that last packet is full
    and the response shorter than wLength, the engine stays in DATA_IN
    and the next IN event writes one zero-length packet; in either case
    it is then in LAST_DATA_IN, and an empty response is a single
    zero-length packet. *)
Theorem X7_in_data_stage
    (dev : qusb_device) (pkt : qusb_setup_data) (q : nat) (last : Z)
    (rc : Z) (d1 : qusb_device) (t1 : list call) :
  let mps := bMaxPacketSize0 dev in
  0 < mps ->
  0 <= last <= mps ->
  (q = 0%nat \/ 0 < last) ->
  0 < wLength pkt < 65536 ->
  Z.land (bmRequestType pkt) QUSB_REQ_TYPE_DIRECTION_MASK
    = QUSB_REQ_TYPE_IN ->
  dispatch pkt (staged_for_dispatch pkt dev) = (rc, d1, t1) ->
  rc <> 0 ->
  ctrl_len (control_state d1) = Z.of_nat q * mps + last ->
  ctrl_len (control_state d1) <= wLength pkt ->
  let r := run_events (SETUP 8 pkt :: repeat IN q) dev in
  let d := device_of r in
  calls_of r
  = EpReadPacket 0 ToSetupData 8 :: t1
    ++ full_packets q (ctrl_buf (control_state d1)) mps
    ++ [EpWritePacket 0 (ctrl_buf (control_state d1) + Z.of_nat q * mps)
          last]
  /\ written_lengths (calls_of r) = repeat mps q ++ [last]
  /\ (last = mps /\ ctrl_len (control_state d1) < wLength pkt ->
      state (control_state d) = DATA_IN /\
      calls_of (on_in d) = [EpWritePacket 0 NULL 0] /\
      state (control_state (device_of (on_in d))) = LAST_DATA_IN)
  /\ (~ (last = mps /\ ctrl_len (control_state d1) < wLength pkt) ->
      state (control_state d) = LAST_DATA_IN).
Proof.
  intros mps Hmps Hlast Hq HW Hdir Hdisp Hrc Hlen Hle r d.
  destruct (in_transfer_data_stage dev pkt q last rc d1 t1)
    as (Hcalls & Hquiet & Hstate & Hm & Hz & Hn & _); try assumption.
  fold mps r d in Hcalls, Hstate, Hm, Hz, Hn.
  split; [exact Hcalls|]. split; [|split].
  - rewrite Hcalls.
    change (EpReadPacket 0 ToSetupData 8 :: t1 ++ ?l)
      with ([EpReadPacket 0 ToSetupData 8] ++ t1 ++ l).
    rewrite !written_lengths_app, (written_lengths_handlers t1 Hquiet).
    rewrite written_lengths_full_packets. reflexivity.
  - intros [Hfull Hshort].
    assert (Hst : state (control_state d) = DATA_IN).
    { rewrite Hstate, Hfull, Z.eqb_refl.
      destruct (Z.ltb_spec (ctrl_len (control_state d1)) (wLength pkt));
        [reflexivity|lia]. }
    split; [exact Hst|].
    rewrite on_in_eq, Hst, send_data_in_last by (rewrite Hz, Hm; lia).
    unfold calls_of, device_of. cbn. rewrite Hz, Hn, Hm.
    destruct (Z.eqb_spec 0 mps); [lia|]. split; reflexivity.
  - intros Hno. rewrite Hstate.
    destruct (Z.eqb_spec last mps) as [Hfull|Hfull]; [|reflexivity].
    destruct (Z.ltb_spec (ctrl_len (control_state d1)) (wLength pkt));
      [exfalso; apply Hno; split; assumption|reflexivity].
Qed.

(** X8: the completion callback of an IN transfer is handed the request
    as the data stage left it: [send_data_in] takes every full packet
    it sends in a non-final call off req.wLength, so the callback sees
    wLength reduced by q * max-packet-size-0 (the other fields are those
    of the setup packet).  Here for a response without closing
    zero-length packet: after the data stage, the IN event leads to
    STATUS_OUT and the OUT event to the one completion call and to
    IDLE. *)
Theorem X8_completion_sees_reduced_wLength
    (dev : qusb_device) (pkt : qusb_setup_data) (q : nat) (last : Z)
    (rc : Z) (d1 : qusb_device) (t1 : list call)
    (f : qusb_dev_control_completion_callback_fn) (rx : Z) :
  let mps := bMaxPacketSize0 dev in
  0 < mps ->
  0 <= last <= mps ->
  (q = 0%nat \/ 0 < last) ->
  0 < wLength pkt < 65536 ->
  Z.land (bmRequestType pkt) QUSB_REQ_TYPE_DIRECTION_MASK
    = QUSB_REQ_TYPE_IN ->
  dispatch pkt (staged_for_dispatch pkt dev) = (rc, d1, t1) ->
  rc <> 0 ->
  ctrl_len (control_state d1) = Z.of_nat q * mps + last ->
  ctrl_len (control_state d1) <= wLength pkt ->
  ~ (last = mps /\ ctrl_len (control_state d1) < wLength pkt) ->
  completion (control_state d1) = Some f ->
  let r := run_events (SETUP 8 pkt :: repeat IN q ++ [IN; OUT rx]) dev in
  completions (calls_of r)
  = [Completion f (req_set_wLength (wLength pkt - Z.of_nat q * mps) pkt)]
  /\ state (control_state (device_of r)) = IDLE.
Proof.
  intros mps Hmps Hlast Hq HW Hdir Hdisp Hrc Hlen Hle Hnozlp Hcompl r.
  destruct (in_transfer_data_stage dev pkt q last rc d1 t1)
    as (Hcalls & Hquiet & Hstate & Hm & Hz & Hn & Hk & Hreq);
    try assumption.
  fold mps in Hcalls, Hstate, Hm, Hreq.
  set (d := device_of (run_events (SETUP 8 pkt :: repeat IN q) dev)) in *.
  assert (Hst : state (control_state d) = LAST_DATA_IN).
  { rewrite Hstate.
    destruct (Z.eqb_spec last mps) as [Hfull|Hfull]; [|reflexivity].
    destruct (Z.ltb_spec (ctrl_len (control_state d1)) (wLength pkt));
      [exfalso; apply Hnozlp; split; assumption|reflexivity]. }
  subst r.
  change (SETUP 8 pkt :: repeat IN q ++ [IN; OUT rx])
    with ((SETUP 8 pkt :: repeat IN q) ++ [IN; OUT rx]).
  destruct (run_app (SETUP 8 pkt :: repeat IN q) [IN; OUT rx] dev)
    as [-> ->].
  fold d. rewrite Hcalls.
  destruct (run_cons IN [OUT rx] d) as [-> ->].
  cbn [handle_event]. rewrite on_in_eq, Hst.
  change (device_of (tt, with_control_state (cs_set_state STATUS_OUT) d, []))
    with (with_control_state (cs_set_state STATUS_OUT) d).
  destruct (run_cons (OUT rx) []
              (with_control_state (cs_set_state STATUS_OUT) d)) as [-> ->].
  cbn [handle_event]. rewrite on_out_eq.
  change (state (control_state
            (with_control_state (cs_set_state STATUS_OUT) d)))
    with STATUS_OUT. cbv iota.
  change (completion (control_state
            (with_control_state (cs_set_state STATUS_OUT) d)))
    with (completion (control_state d)).
  change (req (control_state
            (with_control_state (cs_set_state STATUS_OUT) d)))
    with (req (control_state d)).
  rewrite Hk, Hcompl, Hreq.
  unfold calls_of, device_of. cbn [fst snd run ret app].
  split; [|reflexivity].
  assert (Hfullp : forall k b,
            List.filter is_completion (full_packets k b mps) = []).
  { induction k as [|k IHk]; intros b; [reflexivity|].
    cbn [full_packets List.filter is_completion]. apply IHk. }
  destruct (handler_calls_quiet t1 Hquiet) as [Hnone _].
  unfold completions in *. cbn [List.filter is_completion].
  rewrite !List.filter_app, Hnone, Hfullp. reflexivity.
Qed.

(** *** Registrations in a row *)

Lemma register_loop_into t p s ty m f :
  t = p ++ s ->
  length t = MAX_USER_CONTROL_CALLBACK ->
  Forall (fun e => cb e <> None) p ->
  Forall free_slot s ->
  register_loop MAX_USER_CONTROL_CALLBACK 0 ty m f t
  = match s with
    | [] => (-1, t)
    | _ :: s' =>
        (0, p ++ {| type := ty; type_mask := m; cb := f |} :: s')
    end.
Proof.
  intros -> Hlen Hp Hs. destruct s as [|e s'].
  - apply register_loop_full. intros j e Hj.
    rewrite app_nil_r in Hj. rewrite Forall_lookup in Hp.
    exact (Hp j e Hj).
  - pose proof (List.Forall_inv Hs) as He.
    rewrite (register_loop_first_free MAX_USER_CONTROL_CALLBACK 0
               (length p) ty m f (p ++ e :: s') e).
    + rewrite insert_app_r_alt by lia.
      rewrite Nat.sub_diag. reflexivity.
    + rewrite <- Hlen, length_app. cbn. lia.
    + apply list_lookup_middle. reflexivity.
    + exact He.
    + intros j [_ Hj].
      destruct (lookup_lt_is_Some_2 p j Hj) as [e' He'].
      exists e'. split; [rewrite lookup_app_l by exact Hj; exact He'|].
      rewrite Forall_lookup in Hp. exact (Hp j e' He').
Qed.

Lemma register_all_into rs : forall p s dev,
  user_control_callback dev = p ++ s ->
  length (p ++ s) = MAX_USER_CONTROL_CALLBACK ->
  Forall (fun e => cb e <> None) p ->
  Forall free_slot s ->
  register_all MAX_USER_CONTROL_CALLBACK rs dev
  = (repeat 0 (Nat.min (length rs) (length s))
       ++ repeat (-1) (length rs - length s),
     with_user_control_callback
       (p ++ map entry_of (take (length s) rs) ++ drop (length rs) s) dev,
     []).
Proof.
  induction rs as [|r rs IH]; intros p s dev Ht Hlen Hp Hs.
  - cbn [register_all length Nat.min Nat.sub repeat app]. unfold ret.
    rewrite take_nil, drop_0. cbn [map app]. rewrite <- Ht.
    destruct dev; reflexivity.
  - cbn [register_all]. unfold bind at 1.
    unfold qusb_dev_register_control_callback, bind, get, modify, ret.
    cbv beta iota zeta.
    rewrite (register_loop_into _ p s _ _ _ Ht) by (congruence || assumption).
    destruct s as [|e s'].
    + cbn [fst snd].
      match goal with
      | |- context [register_all _ rs ?d] => rewrite (IH p [] d)
      end; try assumption.
      cbn [length]. rewrite !Nat.min_0_r, !Nat.sub_0_r, !drop_nil.
      cbn [repeat take map app fst snd]. rewrite !app_nil_r.
      reflexivity.
    + cbn [fst snd]. pose proof (List.Forall_inv_tail Hs) as Hs'.
      match goal with
      | |- context [register_all _ rs ?d] =>
          rewrite (IH (p ++ [entry_of r]) s' d)
      end.
      * cbn [length Nat.min Nat.sub repeat take drop map app fst snd].
        rewrite <- !app_assoc. reflexivity.
      * cbn. rewrite <- app_assoc. reflexivity.
      * rewrite <- Hlen, !length_app. cbn. lia.
      * apply Forall_app. split; [exact Hp|].
        apply List.Forall_cons; [discriminate|apply List.Forall_nil].
      * exact Hs'.
Qed.

(** X9: registrations made one after the other on an empty table fill
    it in registration order, which is the order in which dispatch then
    tries the handlers.  Exactly the first MAX_USER_CONTROL_CALLBACK of
    them return 0 and occupy the entries 0, 1, 2, ... with their pattern,
    mask and callback; every later one returns -1 and changes nothing.
    Registering makes no call and touches nothing but the table. *)
Theorem X9_registrations_fill_table_in_order
    (rs : list registration) (dev : qusb_device) :
  length (user_control_callback dev) = MAX_USER_CONTROL_CALLBACK ->
  Forall free_slot (user_control_callback dev) ->
  register_all MAX_USER_CONTROL_CALLBACK rs dev
  = (repeat 0 (Nat.min (length rs) MAX_USER_CONTROL_CALLBACK)
       ++ repeat (-1) (length rs - MAX_USER_CONTROL_CALLBACK),
     with_user_control_callback
       (map entry_of (take MAX_USER_CONTROL_CALLBACK rs)
          ++ drop (length rs) (user_control_callback dev)) dev,
     []).
Proof.
  intros Hlen Hfree.
  rewrite (register_all_into rs [] (user_control_callback dev) dev);
    try assumption; try reflexivity; [|apply List.Forall_nil].
  rewrite Hlen. reflexivity.
Qed.

(** X10: registering a NULL callback reports success but reserves
    nothing.  The call returns 0 and writes pattern and mask into the
    first free entry, whose callback slot thereby stays empty; the next
    registration returns 0 as well and takes the very same entry. *)
Theorem X10_null_callback_reserves_nothing
    (dev : qusb_device) (i : nat) (e : user_control_callback_entry)
    (ty m ty' m' : Z) (f : option qusb_dev_control_callback_fn) :
  length (user_control_callback dev) = MAX_USER_CONTROL_CALLBACK ->
  user_control_callback dev !! i = Some e ->
  cb e = None ->
  (forall j e', (j < i)%nat -> user_control_callback dev !! j = Some e' ->
                cb e' <> None) ->
  let r1 := register ty m None dev in
  let r2 := register ty' m' f (device_of r1) in
  result_of r1 = 0 /\
  user_control_callback (device_of r1) !! i
  = Some {| type := ty; type_mask := m; cb := None |} /\
  result_of r2 = 0 /\
  user_control_callback (device_of r2)
  = <[i := {| type := ty'; type_mask := m'; cb := f |}]>
      (user_control_callback dev).
Proof.
  intros Hlen Hi Hfree Hocc r1 r2.
  assert (Hlt : (i < length (user_control_callback dev))%nat)
    by (apply lookup_lt_Some in Hi; exact Hi).
  assert (Hbefore : forall t : list user_control_callback_entry,
            (forall j, (j < i)%nat ->
                       t !! j = user_control_callback dev !! j) ->
            forall j, (0 <= j < i)%nat ->
                      exists e', t !! j = Some e' /\ cb e' <> None).
  { intros t Hsame j [_ Hj].
    assert (Hj' : (j < length (user_control_callback dev))%nat) by lia.
    apply lookup_lt_is_Some in Hj'. destruct Hj' as [e' He'].
    exists e'. rewrite (Hsame j Hj). split; [exact He'|].
    exact (Hocc j e' Hj He'). }
  assert (H1 : r1 = (0,
            with_user_control_callback
              (<[i := {| type := ty; type_mask := m; cb := None |}]>
                 (user_control_callback dev)) dev, [])).
  { subst r1.
    unfold qusb_dev_register_control_callback, bind, get, modify, ret.
    cbv beta iota zeta.
    rewrite (register_loop_first_free MAX_USER_CONTROL_CALLBACK 0 i ty m
               None (user_control_callback dev) e); try assumption;
      [reflexivity|lia|].
    apply Hbefore. reflexivity. }
  assert (H2 : r2 = (0,
            with_user_control_callback
              (<[i := {| type := ty'; type_mask := m'; cb := f |}]>
                 (user_control_callback dev)) dev, [])).
  { subst r2. rewrite H1.
    unfold qusb_dev_register_control_callback, bind, get, modify, ret,
      device_of.
    cbv beta iota zeta. cbn [fst snd user_control_callback
                              with_user_control_callback].
    rewrite (register_loop_first_free MAX_USER_CONTROL_CALLBACK 0 i ty' m'
               f _ {| type := ty; type_mask := m; cb := None |}).
    - cbn [fst snd]. rewrite list_insert_insert_eq. reflexivity.
    - lia.
    - apply list_lookup_insert_eq. exact Hlt.
    - reflexivity.
    - apply Hbefore. intros j Hj. apply list_lookup_insert_ne. lia. }
  rewrite H2, H1. unfold result_of, device_of. cbn [fst snd
    user_control_callback with_user_control_callback].
  repeat split; try reflexivity.
  apply list_lookup_insert_eq. exact Hlt.
Qed.

(** *** From registration to dispatch *)

Lemma dispatch_loop_skip rq dev i :
  (forall j, (j < i)%nat ->
     exists e, user_control_callback dev !! j = Some e /\
               cb e <> None /\ matches rq e = false) ->
  forall n k fuel, (k + n = i)%nat ->
  dispatch_loop (n + fuel) k rq dev = dispatch_loop fuel i rq dev.
Proof.
  intros Hskip. induction n as [|n IH]; intros k fuel Hk.
  - replace k with i by lia. reflexivity.
  - destruct (Hskip k) as (e & He & Hocc & Hno); [lia|].
    cbn [Nat.add dispatch_loop]. unfold bind, get. cbv beta iota zeta.
    rewrite He. destruct (cb e) as [g|]; [|congruence].
    unfold matches in Hno. rewrite Hno.
    rewrite (IH (S k) fuel) by lia.
    destruct (dispatch_loop fuel i rq dev) as [[b d] t]. reflexivity.
Qed.

Lemma dispatch_loop_at_free rq dev fuel k :
  (forall e, user_control_callback dev !! k = Some e -> cb e = None) ->
  dispatch_loop fuel k rq dev = (None, dev, []).
Proof.
  intros Hfree. destruct fuel as [|fuel]; [reflexivity|].
  cbn [dispatch_loop]. unfold bind, get. cbv beta iota zeta.
  destruct (user_control_callback dev !! k) as [e|]; [|reflexivity].
  rewrite (Hfree e eq_refl). reflexivity.
Qed.

(** X11: a registered callback is reached by dispatch.  On a table with
    its declared capacity whose entries before index i are the occupied
    ones, registering a callback returns 0 and puts it at index i; a
    request that matches its pattern and mask and none of the earlier
    entries is then handed to exactly this callback, with the slots as
    they are.  If the callback decides (handled or not supported), its
    return code is the result of the dispatch and the slots are left as
    the callback set them; otherwise the standard-request handler is
    called after it. *)
Theorem X11_registered_callback_is_dispatched
    (dev : qusb_device) (i : nat) (ty m : Z)
    (f : qusb_dev_control_callback_fn) (rq : qusb_setup_data) :
  length (user_control_callback dev) = MAX_USER_CONTROL_CALLBACK ->
  (i < MAX_USER_CONTROL_CALLBACK)%nat ->
  (forall j e, user_control_callback dev !! j = Some e ->
               (cb e <> None <-> (j < i)%nat)) ->
  (forall j e, (j < i)%nat -> user_control_callback dev !! j = Some e ->
               matches rq e = false) ->
  Z.land (bmRequestType rq) m = ty ->
  let reg := register ty m (Some f) dev in
  let dev' := device_of reg in
  let cs := control_state dev in
  let out := f rq {| slot_buf := ctrl_buf cs; slot_len := ctrl_len cs;
                     slot_completion := completion cs |} in
  let r := dispatch rq dev' in
  result_of reg = 0 /\
  user_control_callback dev' !! i
  = Some {| type := ty; type_mask := m; cb := Some f |} /\
  (decides (fst out) = true ->
     result_of r = fst out /\
     calls_of r = [UserCallback i] /\
     ctrl_buf (control_state (device_of r)) = slot_buf (snd out) /\
     ctrl_len (control_state (device_of r)) = slot_len (snd out) /\
     completion (control_state (device_of r)) = slot_completion (snd out))
  /\
  (decides (fst out) = false ->
     calls_of r = [UserCallback i; StandardRequest]).
Proof.
  intros Hlen Hi Hpre Hno Hmatch reg dev' cs out r.
  set (new := {| type := ty; type_mask := m; cb := Some f |}).
  assert (Hlt : (i < length (user_control_callback dev))%nat) by lia.
  destruct (lookup_lt_is_Some_2 _ _ Hlt) as [e He].
  assert (Hfree : cb e = None).
  { destruct (cb e) eqn:Hcb; [|reflexivity].
    assert (Hocc : cb e <> None) by congruence.
    apply (Hpre i e He) in Hocc. lia. }
  assert (Hreg : reg = (0, with_user_control_callback
                             (<[i := new]> (user_control_callback dev)) dev,
                        [])).
  { subst reg.
    unfold qusb_dev_register_control_callback, bind, get, modify, ret.
    cbv beta iota zeta.
    rewrite (register_loop_first_free MAX_USER_CONTROL_CALLBACK 0 i ty m
               (Some f) (user_control_callback dev) e); try assumption;
      [reflexivity|lia|].
    intros j [_ Hj].
    assert (Hj' : (j < length (user_control_callback dev))%nat) by lia.
    apply lookup_lt_is_Some in Hj'. destruct Hj' as [e' He'].
    exists e'. split; [exact He'|]. apply (Hpre j e' He'). exact Hj. }
  assert (Hdev : dev' = with_user_control_callback
                          (<[i := new]> (user_control_callback dev)) dev).
  { subst dev'. rewrite Hreg. reflexivity. }
  clearbody dev'.
  assert (Hat : user_control_callback dev' !! i = Some new).
  { rewrite Hdev. cbn. apply list_lookup_insert_eq. exact Hlt. }
  split; [rewrite Hreg; reflexivity|]. split; [exact Hat|].
  assert (Hskip : forall j, (j < i)%nat ->
            exists e', user_control_callback dev' !! j = Some e' /\
                       cb e' <> None /\ matches rq e' = false).
  { intros j Hj.
    assert (Hj' : (j < length (user_control_callback dev))%nat) by lia.
    apply lookup_lt_is_Some in Hj'. destruct Hj' as [e' He'].
    exists e'. rewrite Hdev. cbn.
    rewrite list_lookup_insert_ne by lia.
    split; [exact He'|]. split; [apply (Hpre j e' He'); exact Hj|].
    exact (Hno j e' Hj He'). }
  assert (Hloop :
    dispatch_loop MAX_USER_CONTROL_CALLBACK 0 rq dev'
    = dispatch_loop (S (MAX_USER_CONTROL_CALLBACK - S i)) i rq dev').
  { rewrite <- (dispatch_loop_skip rq dev' i Hskip i 0%nat
                  (S (MAX_USER_CONTROL_CALLBACK - S i)) eq_refl).
    f_equal. lia. }
  assert (Hcall :
    call_user_callback i f rq dev'
    = (fst out,
       with_control_state
         (fun c => {| state := state c; req := req c;
                      ctrl_buf := slot_buf (snd out);
                      ctrl_len := slot_len (snd out);
                      completion := slot_completion (snd out) |}) dev',
       [UserCallback i])).
  { rewrite Hdev. reflexivity. }
  assert (Hstep :
    dispatch_loop (S (MAX_USER_CONTROL_CALLBACK - S i)) i rq dev'
    = let d1 := with_control_state
                  (fun c => {| state := state c; req := req c;
                               ctrl_buf := slot_buf (snd out);
                               ctrl_len := slot_len (snd out);
                               completion := slot_completion (snd out) |})
                  dev' in
      (if decides (fst out) then Some (fst out) else None,
       d1, [UserCallback i])).
  { cbn [dispatch_loop]. unfold bind, get. cbv beta iota zeta.
    rewrite Hat. cbn [cb new type type_mask]. rewrite Hmatch, Z.eqb_refl.
    rewrite Hcall. fold (decides (fst out)).
    destruct (decides (fst out)); [reflexivity|].
    rewrite dispatch_loop_at_free; [reflexivity|].
    intros e' He'.
    change (user_control_callback (with_control_state ?g dev'))
      with (user_control_callback dev') in He'.
    rewrite Hdev in He'.
    cbn [user_control_callback with_user_control_callback] in He'.
    rewrite list_lookup_insert_ne in He' by lia.
    destruct (cb e') eqn:Hcb; [|reflexivity].
    assert (Hocc : cb e' <> None) by congruence.
    apply (Hpre (S i) e' He') in Hocc. lia. }
  subst r. unfold dispatch_request, bind. rewrite Hloop, Hstep.
  cbv zeta. split; intros Hdec; rewrite Hdec.
  - unfold result_of, calls_of, device_of. cbn [ret fst snd app].
    repeat split; reflexivity.
  - destruct (call_standard_request_frame rq
                (with_control_state
                   (fun c => {| state := state c; req := req c;
                                ctrl_buf := slot_buf (snd out);
                                ctrl_len := slot_len (snd out);
                                completion := slot_completion (snd out) |})
                   dev')) as [_ Hc].
    destruct (call_standard_request _ rq _) as [[b d2] t2].
    unfold calls_of in *. cbn [snd] in *. subst t2. reflexivity.
Qed.

End EngineProofs.

(* ================================================================== *)
(** ** The theorems at concrete devices                                *)
(* ================================================================== *)

Lemma table_two_defer_prefix : contiguous_prefix table_two_defer.
Proof.
  exists 2%nat. intros i e Hi.
  destruct i as [|[|[|[|i]]]]; cbn in Hi; try discriminate;
    injection Hi as <-; cbn; split; intros; try lia; congruence.
Defined.

(** C8 at a table with one handler and at a full table. *)
Lemma C8_register_witness :
  qusb_dev_register_control_callback 4 33 127 (Some cb_defer)
    (device_idle table_one)
  = (0,
     with_user_control_callback
       (<[1%nat := class_entry cb_defer]> table_one) (device_idle table_one),
     [])
  /\
  qusb_dev_register_control_callback 4 33 127 (Some cb_defer)
    (device_idle table_full)
  = (-1, device_idle table_full, []).
Proof.
  split.
  - destruct (C8_register_first_free_or_full 4 (device_idle table_one)
                33 127 (Some cb_defer) eq_refl) as [Hfree _].
    apply (Hfree 1%nat free_entry); [reflexivity|reflexivity|].
    intros j e' Hj Hlook.
    destruct j as [|j]; [|lia]. cbn in Hlook. injection Hlook as <-.
    discriminate.
  - destruct (C8_register_first_free_or_full 4 (device_idle table_full)
                33 127 (Some cb_defer) eq_refl) as [_ Hfull].
    apply Hfull. intros e He. cbn in He.
    repeat (apply elem_of_cons in He; destruct He as [->|He];
            [discriminate|]).
    apply elem_of_nil in He. contradiction.
Defined.

(** C5 at two matching handlers that both defer: both are called, in
    registration order, and then the standard-request handler, whose
    code is the result. *)
Lemma C5_dispatch_witness :
  dispatch_request 4 std_not_supported (request 161 8)
    (device_idle table_two_defer)
  = (0, device_idle table_two_defer,
     [UserCallback 0; UserCallback 1; StandardRequest])
  /\
  dispatch_in_registration_order std_not_supported table_two_defer
    (request 161 8) (slots_of (device_idle table_two_defer))
  = (0, slots_of (device_idle table_two_defer),
     [UserCallback 0; UserCallback 1; StandardRequest]).
Proof.
  destruct (C5_dispatch_in_registration_order 4 std_not_supported
              (request 161 8) (device_idle table_two_defer)
              eq_refl table_two_defer_prefix) as (Heq & _ & Htwo).
  split.
  - destruct (Htwo (class_entry cb_defer) (class_entry cb_defer)
                [free_entry; free_entry] cb_defer cb_defer
                eq_refl eq_refl eq_refl eq_refl eq_refl
                ltac:(repeat constructor)) as (_ & _ & Hboth).
    exact (Hboth eq_refl eq_refl).
  - vm_compute. reflexivity.
Defined.

(** C7 at a short setup read, a short OUT packet in DATA_OUT, and OUT
    and IN events in IDLE. *)
Lemma C7_protocol_violations_witness :
  (calls_of (_qusb_control_setup 4 std_not_supported 7 (request 161 8)
               (device_idle table_one))
   = [EpReadPacket 0 ToSetupData 8; EpStallSet 0 1] /\
   state (control_state (device_of
     (_qusb_control_setup 4 std_not_supported 7 (request 161 8)
        (device_idle table_one)))) = IDLE)
  /\
  (calls_of (_qusb_control_out 4 std_not_supported 10
               (device table_one DATA_OUT (request 33 100) 0))
   = [EpReadPacket 0 (ToBuffer 4096) 64; EpStallSet 0 1] /\
   state (control_state (device_of
     (_qusb_control_out 4 std_not_supported 10
        (device table_one DATA_OUT (request 33 100) 0)))) = IDLE)
  /\
  (calls_of (_qusb_control_out 4 std_not_supported 0
               (device_idle table_one)) = [EpStallSet 0 1] /\
   state (control_state (device_of
     (_qusb_control_out 4 std_not_supported 0 (device_idle table_one))))
   = IDLE)
  /\
  (calls_of (_qusb_control_in (device_idle table_one)) = [EpStallSet 0 1] /\
   state (control_state (device_of
     (_qusb_control_in (device_idle table_one)))) = IDLE).
Proof.
  destruct (C7_protocol_violations_stall 4 std_not_supported
              (device_idle table_one)) as (Hsetup & _ & Hout & Hin).
  destruct (C7_protocol_violations_stall 4 std_not_supported
              (device table_one DATA_OUT (request 33 100) 0))
    as (_ & Hshort & _ & _).
  split; [apply Hsetup; lia|].
  split; [apply Hshort; [left; reflexivity|vm_compute; discriminate]|].
  split; [apply Hout; discriminate|].
  apply Hin; discriminate.
Defined.

(** C6 at a payload of 200 bytes, which the 128-byte buffer cannot hold,
    and at payloads of 100 and of 8 bytes. *)
Lemma C6_setup_out_witness :
  (calls_of (_qusb_control_setup 4 std_not_supported 8 (request 33 200)
               (device_idle table_one))
   = [EpReadPacket 0 ToSetupData 8; EpStallSet 0 1] /\
   List.filter is_read_packet
     (calls_of (run 4 std_not_supported [OUT 64; OUT 64; IN; OUT 64]
        (device_of (_qusb_control_setup 4 std_not_supported 8
                      (request 33 200) (device_idle table_one))))) = [])
  /\
  state (control_state (device_of
    (_qusb_control_setup 4 std_not_supported 8 (request 33 100)
       (device_idle table_one)))) = DATA_OUT
  /\
  state (control_state (device_of
    (_qusb_control_setup 4 std_not_supported 8 (request 33 8)
       (device_idle table_one)))) = LAST_DATA_OUT.
Proof.
  split; [|split].
  - destruct (C6_setup_out_validates_wLength 4 std_not_supported
                (device_idle table_one) (request 33 200))
      as [Hbig _]; [reflexivity|discriminate|].
    destruct Hbig as (Hcalls & _ & Hrest); [reflexivity|].
    split; [exact Hcalls|].
    apply (Hrest [OUT 64; OUT 64; IN; OUT 64]). reflexivity.
  - destruct (C6_setup_out_validates_wLength 4 std_not_supported
                (device_idle table_one) (request 33 100))
      as [_ Hfits]; [reflexivity|discriminate|].
    destruct Hfits as (_ & _ & _ & Hstate); [discriminate|].
    exact Hstate.
  - destruct (C6_setup_out_validates_wLength 4 std_not_supported
                (device_idle table_one) (request 33 8))
      as [_ Hfits]; [reflexivity|discriminate|].
    destruct Hfits as (_ & _ & _ & Hstate); [discriminate|].
    exact Hstate.
Defined.

(** C3 at a no-data class request whose handler registers completion
    callback 7: the IN event of the status stage calls it, once. *)
Lemma C3_completion_witness :
  completions (calls_of (run 4 std_not_supported
     (SETUP 8 (request 33 0) :: [IN; IN; OUT 0]) (device_idle table_one)))
  = [Completion 7%nat (request 33 0)].
Proof.
  destruct (C3_completion_once_per_transfer 4 std_not_supported
              (device_idle table_one) 8 (request 33 0) [IN; IN; OUT 0]
              eq_refl) as (_ & Honce & _).
  apply (Honce [] IN [IN; OUT 0] eq_refl). exact I.
Defined.

(** C2 at a response of 128 bytes to a request for 200: the second call
    sends the last, full packet and stays in DATA_IN for the zero-length
    packet; a response of 100 bytes ends in LAST_DATA_IN. *)
Lemma C2_send_data_in_witness :
  state (control_state (device_of (send_data_in
    (device_of (send_data_in_times 1
       (device table_one DATA_IN (request 161 200) 128))))))
  = DATA_IN
  /\
  calls_of (send_data_in (device table_one DATA_IN (request 161 200) 128))
  = [EpWritePacket 0 4096 64]
  /\
  state (control_state (device_of (send_data_in
    (device table_one DATA_IN (request 161 200) 36)))) = LAST_DATA_IN.
Proof.
  destruct (C2_send_data_in_chunking
              (device table_one DATA_IN (request 161 200) 128))
    as (Hfull & _ & Hrun).
  destruct (C2_send_data_in_chunking
              (device table_one DATA_IN (request 161 200) 36))
    as (_ & Hlast & _).
  split; [|split].
  - destruct (Hrun 1%nat) as (_ & _ & _ & Hzlp); cbn; try lia.
    apply Hzlp. cbn. split; [reflexivity|lia].
  - destruct Hfull as (Hcalls & _); [cbn; lia|]. exact Hcalls.
  - destruct Hlast as (_ & _ & Hstate & _); [cbn; lia|].
    apply Hstate. cbn. discriminate.
Defined.

(** The rule as the specification words it fails for a response of 128
    bytes to a request for 128: the last packet is full and shorter than
    the 128 bytes originally requested, yet no zero-length packet
    follows and the engine enters LAST_DATA_IN. *)
Lemma C2_zlp_rule_counterexample :
  wLength (req (control_state
    (device table_one DATA_IN (request 161 128) 128))) = 128 /\
  ctrl_len (control_state (device_of (send_data_in
    (device table_one DATA_IN (request 161 128) 128)))) = 64 /\
  state (control_state (device_of (send_data_in (device_of (send_data_in
    (device table_one DATA_IN (request 161 128) 128)))))) = LAST_DATA_IN /\
  ~ zlp_rule_as_stated 128
      (device_of (send_data_in
         (device table_one DATA_IN (request 161 128) 128))).
Proof.
  split; [reflexivity|]. split; [reflexivity|]. split; [reflexivity|].
  unfold zlp_rule_as_stated. intros [_ Hstay].
  assert (Hstate : LAST_DATA_IN = DATA_IN).
  { apply Hstay. split; vm_compute; reflexivity. }
  discriminate Hstate.
Qed.

(** C1 at a request for 128 bytes that the handler answers in full: two
    64-byte packets and no zero-length one, then STATUS_OUT, then the
    completion callback. *)
Lemma C1_in_round_trip_witness :
  written_lengths (calls_of (run 4 std_not_supported
     (SETUP 8 (request 161 128) :: repeat IN (2 - 1))
     (device_idle table_one)))
  = [64; 64]
  /\
  state (control_state (device_of (run 4 std_not_supported
     (SETUP 8 (request 161 128) :: repeat IN (2 - 1))
     (device_idle table_one)))) = LAST_DATA_IN.
Proof.
  destruct (C1_in_round_trip_without_zlp 4 std_not_supported
              (device_idle table_one) (request 161 128) 2
              (result_of (dispatch_request 4 std_not_supported
                 (request 161 128)
                 (staged_for_dispatch (request 161 128)
                    (device_idle table_one))))
              (device_of (dispatch_request 4 std_not_supported
                 (request 161 128)
                 (staged_for_dispatch (request 161 128)
                    (device_idle table_one))))
              (calls_of (dispatch_request 4 std_not_supported
                 (request 161 128)
                 (staged_for_dispatch (request 161 128)
                    (device_idle table_one)))))
    as (_ & Hlen & Hstate & _).
  - reflexivity.
  - lia.
  - reflexivity.
  - reflexivity.
  - reflexivity.
  - reflexivity.
  - discriminate.
  - reflexivity.
  - split; [exact Hlen|exact Hstate].
Defined.

(** The round trip as the specification words it fails for a request
    for 64 bytes that the handler answers in full: one 64-byte packet is
    written and no zero-length packet follows it. *)
Lemma C1_in_round_trip_counterexample :
  wLength (request 161 64) = 1 * bMaxPacketSize0 (device_idle table_one) /\
  Z.land (bmRequestType (request 161 64)) QUSB_REQ_TYPE_DIRECTION_MASK
  = QUSB_REQ_TYPE_IN /\
  result_of (dispatch_request 4 std_not_supported (request 161 64)
    (staged_for_dispatch (request 161 64) (device_idle table_one)))
  = QUSB_REQ_HANDLED /\
  ctrl_len (control_state (device_of
    (dispatch_request 4 std_not_supported (request 161 64)
       (staged_for_dispatch (request 161 64) (device_idle table_one)))))
  = 64 /\
  written_lengths (calls_of (run 4 std_not_supported
     [SETUP 8 (request 161 64); IN; OUT 0] (device_idle table_one)))
  = [64] /\
  ~ in_round_trip_as_stated 4 std_not_supported (request 161 64)
      (device_idle table_one).
Proof.
  split; [reflexivity|]. split; [reflexivity|]. split; [reflexivity|].
  split; [reflexivity|]. split; [reflexivity|].
  unfold in_round_trip_as_stated. intros [Hwritten _].
  vm_compute in Hwritten. discriminate Hwritten.
Qed.

(** C9 at the device reached from an idle one with an empty table by
    registering a handler and receiving a SETUP for 100 bytes of OUT
    data: the first OUT packet of 64 bytes goes to the start of the
    control buffer and stays within its 128 bytes. *)
Lemma C9_reachable_witness :
  receiving
    (device_of (handle_event 4 std_not_supported (SETUP 8 (request 33 100))
       (device_of (qusb_dev_register_control_callback 4 33 127
          (Some cb_defer) (device_idle table_empty)))))
  /\
  List.filter is_read_packet (calls_of (read_data_out 64
    (device_of (handle_event 4 std_not_supported (SETUP 8 (request 33 100))
       (device_of (qusb_dev_register_control_callback 4 33 127
          (Some cb_defer) (device_idle table_empty)))))))
  = [EpReadPacket 0 (ToBuffer (4096 + 0)) (Z.min 64 (100 - 0))]
  /\
  0 <= ctrl_len (control_state (device_of (read_data_out 64
    (device_of (handle_event 4 std_not_supported (SETUP 8 (request 33 100))
       (device_of (qusb_dev_register_control_callback 4 33 127
          (Some cb_defer) (device_idle table_empty)))))))) <= 128
  /\
  contiguous_prefix (user_control_callback
    (device_of (handle_event 4 std_not_supported (SETUP 8 (request 33 100))
       (device_of (qusb_dev_register_control_callback 4 33 127
          (Some cb_defer) (device_idle table_empty)))))).
Proof.
  assert (Hrecv : receiving
    (device_of (handle_event 4 std_not_supported (SETUP 8 (request 33 100))
       (device_of (qusb_dev_register_control_callback 4 33 127
          (Some cb_defer) (device_idle table_empty)))))).
  { left. reflexivity. }
  destruct (C9_reachable_invariants 4 std_not_supported
    (device_of (handle_event 4 std_not_supported (SETUP 8 (request 33 100))
       (device_of (qusb_dev_register_control_callback 4 33 127
          (Some cb_defer) (device_idle table_empty))))))
    as (Hcursor & _ & Hprefix & _).
  - apply reachable_event.
    + apply reachable_register. apply reachable_initial.
      split; [split; cbn; lia|]. split; [reflexivity|].
      split; [reflexivity|]. repeat constructor.
    + cbn. unfold wf_setup_data. cbn. lia.
  - destruct (Hcursor Hrecv) as (_ & _ & _ & Hread).
    destruct (Hread 64) as (Hcall & _ & _ & Hlen).
    split; [exact Hrecv|]. split; [exact Hcall|].
    split; [exact Hlen|exact Hprefix].
Defined.

(** C4 at the status stage of a SET_ADDRESS request for address 42: the
    IN event applies the address; the SETUP of the same request does
    not. *)
Lemma C4_set_address_witness :
  In (SetAddress 42)
    (calls_of (handle_event 4 std_not_supported IN
       (device table_one STATUS_IN
          {| bmRequestType := 0; bRequest := 5; wValue := 42; wIndex := 0;
             wLength := 0 |} 0)))
  /\
  ~ In (SetAddress 42)
      (calls_of (handle_event 4 std_not_supported
         (SETUP 8 {| bmRequestType := 0; bRequest := 5; wValue := 42;
                     wIndex := 0; wLength := 0 |})
         (device_idle table_one))).
Proof.
  split.
  - apply (C4_set_address_only_at_status_in 4 std_not_supported).
    repeat split; reflexivity.
  - intros Hin.
    apply (C4_set_address_only_at_status_in 4 std_not_supported) in Hin.
    destruct Hin as [Hev _]. discriminate Hev.
Defined.

(* ================================================================== *)
(** ** The further theorems at concrete devices                        *)
(* ================================================================== *)

Ltac by_computation :=
  first
    [ cbn; lia
    | vm_compute; repeat split;
      first [reflexivity | discriminate | intro; discriminate] ].

(** X1 at a class request answered with 100 bytes, followed by stray
    events. *)
Lemma X1_calls_witness :
  Forall (within_endpoint0 64)
    (calls_of (run 4 std_not_supported
       [SETUP 8 (request 161 100); IN; IN; OUT 0; OUT 5; IN]
       (device_idle table_one))).
Proof.
  apply (X1_calls_stay_within_endpoint0 4 std_not_supported
           [SETUP 8 (request 161 100); IN; IN; OUT 0; OUT 5; IN]
           (device_idle table_one)).
  cbn. lia.
Defined.

(** X2 at the SETUP of an IN request, which is dispatched, and at the
    first OUT packet of a two-packet payload, which is not. *)
Lemma X2_handlers_witness :
  existsb is_handler_call
    (calls_of (handle_event 4 std_not_supported (SETUP 8 (request 161 8))
                 (device_idle table_one))) = true
  /\
  existsb is_handler_call
    (calls_of (handle_event 4 std_not_supported (OUT 64)
                 (device table_one DATA_OUT (request 33 100) 0))) <> true.
Proof.
  split.
  - apply (X2_handlers_called_when_request_complete 4 std_not_supported).
    split; [reflexivity|right; reflexivity].
  - intros Hcall.
    apply (X2_handlers_called_when_request_complete 4 std_not_supported)
      in Hcall.
    destruct Hcall as [Hstate _]. discriminate Hstate.
Defined.


(** X4 at a class request without data whose handler registers
    completion callback 7. *)
Lemma X4_no_data_witness :
  calls_of (run 4 std_not_supported [SETUP 8 (request 33 0); IN]
              (device_idle table_one))
  = [EpReadPacket 0 ToSetupData 8; UserCallback 0; EpWritePacket 0 NULL 0;
     Completion 7%nat (request 33 0)].
Proof.
  destruct (X4_no_data_round_trip 4 std_not_supported
              (device_idle table_one) (request 33 0)
              (result_of (dispatch_request 4 std_not_supported
                 (request 33 0)
                 (staged_for_dispatch (request 33 0)
                    (device_idle table_one))))
              (device_of (dispatch_request 4 std_not_supported
                 (request 33 0)
                 (staged_for_dispatch (request 33 0)
                    (device_idle table_one))))
              (calls_of (dispatch_request 4 std_not_supported
                 (request 33 0)
                 (staged_for_dispatch (request 33 0)
                    (device_idle table_one)))))
    as (_ & Hcalls & _).
  - reflexivity.
  - reflexivity.
  - discriminate.
  - exact Hcalls.
Defined.

(** X5 at a standard request that neither the class handler nor the
    standard-request handler supports, at the SETUP and after OUT
    data. *)
Lemma X5_unsupported_witness :
  calls_of (_qusb_control_setup 4 std_not_supported 8 (request 128 8)
              (device_idle table_one))
  = [EpReadPacket 0 ToSetupData 8; StandardRequest; EpStallSet 0 1]
  /\
  calls_of (_qusb_control_out 4 std_not_supported 8
              (device table_one LAST_DATA_OUT (request 0 8) 0))
  = [EpReadPacket 0 (ToBuffer 4096) 8; StandardRequest; EpStallSet 0 1].
Proof.
  split.
  - destruct (X5_unsupported_request_is_stalled 4 std_not_supported
                (device_idle table_one)) as [Hsetup _].
    destruct (Hsetup (request 128 8)) as (Hcalls & _).
    + right. reflexivity.
    + reflexivity.
    + exact Hcalls.
  - destruct (X5_unsupported_request_is_stalled 4 std_not_supported
                (device table_one LAST_DATA_OUT (request 0 8) 0))
      as [_ Hout].
    destruct (Hout 8) as (Hcalls & _).
    + reflexivity.
    + reflexivity.
    + reflexivity.
    + exact Hcalls.
Defined.

(** X6 at a class request with 100 bytes of OUT data: one full packet,
    then 36 bytes, then the dispatch and the status packet. *)
Lemma X6_out_data_stage_witness :
  calls_of (run 4 std_not_supported (SETUP 8 (request 33 100) :: [OUT 64])
              (device_idle table_one))
  = [EpReadPacket 0 ToSetupData 8; EpReadPacket 0 (ToBuffer 4096) 64]
  /\
  calls_of (_qusb_control_out 4 std_not_supported 36
              (device_of (run 4 std_not_supported
                 (SETUP 8 (request 33 100) :: [OUT 64])
                 (device_idle table_one))))
  = [EpReadPacket 0 (ToBuffer (4096 + 1 * 64)) 36; UserCallback 0;
     EpWritePacket 0 NULL 0].
Proof.
  destruct (X6_out_data_stage 4 std_not_supported
              (device_idle table_one) (request 33 100) 1 36)
    as (Hcalls & _ & _ & _ & _ & _ & Hlast & _).
  - cbn. lia.
  - cbn. lia.
  - reflexivity.
  - cbn. lia.
  - cbn. lia.
  - discriminate.
  - split; [exact Hcalls|exact Hlast].
Defined.

(** X7 at a request for 200 bytes answered with 100 (a short last
    packet, no zero-length packet), with 64 (a full last packet and a
    zero-length one) and with none (a single zero-length packet). *)
Lemma X7_in_data_stage_witness :
  written_lengths (calls_of (run 4 std_not_supported
     (SETUP 8 (request 161 200) :: repeat IN 1)
     (device_idle (table_respond 100)))) = [64; 36]
  /\
  (state (control_state (device_of (run 4 std_not_supported
      (SETUP 8 (request 161 200) :: repeat IN 0)
      (device_idle (table_respond 64))))) = DATA_IN /\
   calls_of (_qusb_control_in (device_of (run 4 std_not_supported
      (SETUP 8 (request 161 200) :: repeat IN 0)
      (device_idle (table_respond 64))))) = [EpWritePacket 0 NULL 0])
  /\
  written_lengths (calls_of (run 4 std_not_supported
     (SETUP 8 (request 161 200) :: repeat IN 0)
     (device_idle (table_respond 0)))) = [0].
Proof.
  split; [|split].
  - destruct (X7_in_data_stage 4 std_not_supported
                (device_idle (table_respond 100)) (request 161 200) 1 36
                (result_of (dispatch_request 4 std_not_supported
                   (request 161 200)
                   (staged_for_dispatch (request 161 200)
                      (device_idle (table_respond 100)))))
                (device_of (dispatch_request 4 std_not_supported
                   (request 161 200)
                   (staged_for_dispatch (request 161 200)
                      (device_idle (table_respond 100)))))
                (calls_of (dispatch_request 4 std_not_supported
                   (request 161 200)
                   (staged_for_dispatch (request 161 200)
                      (device_idle (table_respond 100))))))
      as (_ & Hlen & _);
      [by_computation|by_computation|lia|by_computation|reflexivity
      |reflexivity|discriminate|reflexivity|by_computation|].
    exact Hlen.
  - destruct (X7_in_data_stage 4 std_not_supported
                (device_idle (table_respond 64)) (request 161 200) 0 64
                (result_of (dispatch_request 4 std_not_supported
                   (request 161 200)
                   (staged_for_dispatch (request 161 200)
                      (device_idle (table_respond 64)))))
                (device_of (dispatch_request 4 std_not_supported
                   (request 161 200)
                   (staged_for_dispatch (request 161 200)
                      (device_idle (table_respond 64)))))
                (calls_of (dispatch_request 4 std_not_supported
                   (request 161 200)
                   (staged_for_dispatch (request 161 200)
                      (device_idle (table_respond 64))))))
      as (_ & _ & Hzlp & _);
      [by_computation|by_computation|lia|by_computation|reflexivity
      |reflexivity|discriminate|reflexivity|by_computation|].
    destruct Hzlp as (Hstate & Hcalls & _); [by_computation|].
    split; [exact Hstate|exact Hcalls].
  - destruct (X7_in_data_stage 4 std_not_supported
                (device_idle (table_respond 0)) (request 161 200) 0 0
                (result_of (dispatch_request 4 std_not_supported
                   (request 161 200)
                   (staged_for_dispatch (request 161 200)
                      (device_idle (table_respond 0)))))
                (device_of (dispatch_request 4 std_not_supported
                   (request 161 200)
                   (staged_for_dispatch (request 161 200)
                      (device_idle (table_respond 0)))))
                (calls_of (dispatch_request 4 std_not_supported
                   (request 161 200)
                   (staged_for_dispatch (request 161 200)
                      (device_idle (table_respond 0))))))
      as (_ & Hlen & _);
      [by_computation|by_computation|lia|by_computation|reflexivity
      |reflexivity|discriminate|reflexivity|by_computation|].
    exact Hlen.
Defined.

(** X8 at a request for 100 bytes answered in full: the completion
    callback is handed the request with wLength = 36. *)
Lemma X8_completion_witness :
  completions (calls_of (run 4 std_not_supported
     (SETUP 8 (request 161 100) :: repeat IN 1 ++ [IN; OUT 0])
     (device_idle table_one)))
  = [Completion 7%nat (request 161 36)].
Proof.
  destruct (X8_completion_sees_reduced_wLength 4 std_not_supported
              (device_idle table_one) (request 161 100) 1 36
              (result_of (dispatch_request 4 std_not_supported
                 (request 161 100)
                 (staged_for_dispatch (request 161 100)
                    (device_idle table_one))))
              (device_of (dispatch_request 4 std_not_supported
                 (request 161 100)
                 (staged_for_dispatch (request 161 100)
                    (device_idle table_one))))
              (calls_of (dispatch_request 4 std_not_supported
                 (request 161 100)
                 (staged_for_dispatch (request 161 100)
                    (device_idle table_one))))
              7%nat 0) as [Hcompl _];
    [by_computation|by_computation|lia|by_computation|reflexivity
    |reflexivity|discriminate|reflexivity|by_computation
    |cbn; intros [Hfull _]; discriminate Hfull|reflexivity|].
  exact Hcompl.
Defined.

(** X9 at five registrations on an empty table of four entries. *)
Lemma X9_registrations_witness :
  result_of (register_all 4
     [(33, 127, cb_defer); (33, 127, cb_handled 1%nat); (64, 127, cb_defer);
      (0, 0, cb_respond 8); (1, 1, cb_defer)]
     (device_idle table_empty))
  = [0; 0; 0; 0; -1].
Proof.
  rewrite (X9_registrations_fill_table_in_order 4
             [(33, 127, cb_defer); (33, 127, cb_handled 1%nat);
              (64, 127, cb_defer); (0, 0, cb_respond 8); (1, 1, cb_defer)]
             (device_idle table_empty)).
  - reflexivity.
  - reflexivity.
  - repeat constructor.
Defined.

(** X10 at a table with one handler: a NULL registration and the next
    one both go to entry 1. *)
Lemma X10_null_callback_witness :
  user_control_callback (device_of
    (qusb_dev_register_control_callback 4 64 127 (Some cb_defer)
       (device_of (qusb_dev_register_control_callback 4 33 127 None
          (device_idle table_one)))))
  = <[1%nat := {| type := 64; type_mask := 127; cb := Some cb_defer |}]>
      table_one.
Proof.
  destruct (X10_null_callback_reserves_nothing 4 (device_idle table_one)
              1%nat free_entry 33 127 64 127 (Some cb_defer))
    as (_ & _ & _ & Htable).
  - reflexivity.
  - reflexivity.
  - reflexivity.
  - intros j e' Hj Hlook. destruct j as [|j]; [|lia].
    cbn in Hlook. injection Hlook as <-. discriminate.
  - exact Htable.
Defined.

(** X11 at a table with a class handler, to which a handler for vendor
    requests is added: a vendor request reaches the new handler, at
    entry 1. *)
Lemma X11_registered_callback_witness :
  calls_of (dispatch_request 4 std_not_supported (request 192 8)
    (device_of (qusb_dev_register_control_callback 4 64 127
       (Some (cb_handled 9%nat)) (device_idle table_one))))
  = [UserCallback 1].
Proof.
  destruct (X11_registered_callback_is_dispatched 4 std_not_supported
              (device_idle table_one) 1%nat 64 127 (cb_handled 9%nat)
              (request 192 8)) as (_ & _ & Hdecided & _).
  - reflexivity.
  - lia.
  - intros j e Hlook.
    destruct j as [|[|[|[|j]]]]; cbn in Hlook; try discriminate;
      injection Hlook as <-; cbn; split; intros; try lia; congruence.
  - intros j e Hj Hlook. destruct j as [|j]; [|lia].
    cbn in Hlook. injection Hlook as <-. reflexivity.
  - reflexivity.
  - destruct Hdecided as (_ & Hcalls & _); [reflexivity|]. exact Hcalls.
Defined.
